(** * Distributed masked-language-model training script

    A shallow embedding of
    [workshops/Protein_Language_Modelling/scripts/training/cuda/cuda-oas-mlm-train-ddp.py]
    and the properties of its orchestration logic: rank and world-size
    computation, environment plumbing, data sharding, the optimisation
    loop, metric reporting and the one exception handler of the script.

    The Python layer ([Py]) gives integers as [Z], floats as IEEE binary64
    values ([spec_float]), exceptions as a sum type and [os.environ] as a
    finite map.  Calls into the deep-learning framework are recorded in a
    trace; what the framework answers is a parameter ([Framework]). *)

From Stdlib Require Import ZArith Lia.
From Stdlib Require Import Floats.SpecFloat.
From stdpp Require Import base option list strings gmap pretty.

Local Open Scope string_scope.
Local Open Scope Z_scope.
Set Warnings "-register-all".

(** ** The Python layer *)

Module Py.

(** The exceptions the script can meet. *)
Inductive exn : Type :=
| OverflowError
| ValueError
| ZeroDivisionError
| KeyError
| TypeError
| AttributeError
| RuntimeError
| SystemExit
| ProcessRaisedException.

Global Instance exn_eq_dec : EqDecision exn.
Proof. solve_decision. Defined.

Inductive result (A : Type) : Type :=
| Ok (a : A)
| Raise (e : exn).
Global Arguments Ok {A} a.
Global Arguments Raise {A} e.

Definition rbind {A B} (r : result A) (k : A -> result B) : result B :=
  match r with
  | Ok a => k a
  | Raise e => Raise e
  end.

(** [try: body except handled: handler].  Only the exception named in
    the [except] clause is caught. *)
Definition try_except {A} (body : result A) (handled : exn) (handler : result A)
  : result A :=
  match body with
  | Ok a => Ok a
  | Raise e => if decide (e = handled) then handler else Raise e
  end.

(** *** Floats: IEEE 754 binary64 *)

Definition float : Type := spec_float.
Definition prec : Z := 53.
Definition emax : Z := 1024.

Definition inf : float := S754_infinity false.
Definition fzero : float := S754_zero false.

Definition isnan (x : float) : bool :=
  match x with S754_nan => true | _ => false end.
Definition isinf (x : float) : bool :=
  match x with S754_infinity _ => true | _ => false end.
Definition isfinite (x : float) : bool :=
  match x with S754_zero _ | S754_finite _ _ _ => true | _ => false end.
Definition is_zero (x : float) : bool :=
  match x with S754_zero _ => true | _ => false end.

(** [float(n)] for an int [n]: rounds to nearest, and raises when the
    int is too large. *)
Definition float_of_int (n : Z) : result float :=
  let r := binary_normalize prec emax n 0 false in
  if isinf r then Raise OverflowError else Ok r.

(** [x - y] on floats. *)
Definition fsub (x y : float) : float := SFsub prec emax x y.

(** [n / y] for an int [n] and a float [y]. *)
Definition int_truediv_float (n : Z) (y : float) : result float :=
  rbind (float_of_int n) (fun x =>
    if is_zero y then Raise ZeroDivisionError
    else Ok (SFdiv prec emax x y)).

(** [math.exp]: the C library's [exp] behind CPython's wrapper, which
    turns an infinite result on a finite argument into [OverflowError]
    and a NaN result on a non-NaN argument into [ValueError]. *)
Definition math_exp (libm_exp : float -> float) (x : float) : result float :=
  let r := libm_exp x in
  if isnan r && negb (isnan x) then Raise ValueError
  else if isinf r && isfinite x then Raise OverflowError
  else Ok r.

(** *** Integers *)

(** [a % b] *)
Definition mod_ (a b : Z) : result Z :=
  if b =? 0 then Raise ZeroDivisionError else Ok (a mod b).

(** [str(n)] *)
Definition str (n : Z) : string := pretty n.

(** Truth value of an int. *)
Definition truthy_int (n : Z) : bool := negb (n =? 0).

(** [range(lo, hi)] *)
Definition range (lo hi : Z) : list Z :=
  map (fun i => lo + Z.of_nat i) (seq 0 (Z.to_nat (hi - lo))).

(** [enumerate(l)] *)
Definition enumerate {A} (l : list A) : list (Z * A) :=
  imap (fun i a => (Z.of_nat i, a)) l.

(** *** Lists and strings *)

(** [l.index(x)]: position of the first occurrence. *)
Fixpoint index (x : string) (l : list string) : result Z :=
  match l with
  | [] => Raise ValueError
  | y :: l' =>
      if decide (y = x) then Ok 0
      else rbind (index x l') (fun i => Ok (i + 1))
  end.

(** [len(l)] *)
Definition len {A} (l : list A) : Z := Z.of_nat (length l).

(** [list(s)] for a string [s]: its characters. *)
Fixpoint list_of_str (s : string) : list string :=
  match s with
  | EmptyString => []
  | String c s' => String c EmptyString :: list_of_str s'
  end.

(** Truth value of a string. *)
Definition truthy_str (s : string) : bool :=
  match s with EmptyString => false | _ => true end.

(** The newline character, as a string. *)
Definition nl : string := String (Ascii.ascii_of_nat 10) EmptyString.

(** *** Decoded JSON *)

Inductive json : Type :=
| JNull
| JBool (b : bool)
| JNum (n : Z)
| JStr (s : string)
| JArr (l : list json)
| JObj (fields : list (string * json)).

(** [obj[key]] on a decoded JSON value, for a string key. *)
Fixpoint assoc (key : string) (fields : list (string * json)) : option json :=
  match fields with
  | [] => None
  | (k, v) :: rest => if decide (k = key) then Some v else assoc key rest
  end.

Definition getitem (j : json) (key : string) : result json :=
  match j with
  | JObj fields =>
      match assoc key fields with
      | Some v => Ok v
      | None => Raise KeyError
      end
  | _ => Raise TypeError
  end.

End Py.

Import Py.

(** ** The framework's objects, as the script builds them *)

Module Torch.

(** A dataset loaded from disk: where it came from and [len(dataset)]. *)
Record Dataset : Type := mkDataset {
  ds_path : string;
  ds_len : Z }.

(** [DistributedSampler(dataset, num_replicas=, rank=, shuffle=)] *)
Record DistributedSampler : Type := mkSampler {
  smp_dataset : Dataset;
  smp_num_replicas : Z;
  smp_rank : Z;
  smp_shuffle : bool }.

(** [len(sampler)]: the sampler's [num_samples], the dataset length
    divided by the number of replicas, rounded up. *)
Definition sampler_len (s : DistributedSampler) : Z :=
  - ((- ds_len (smp_dataset s)) / smp_num_replicas s).

(** Truth value of a sampler.  The class defines [__len__] and no
    [__bool__], so a sampler of length zero is false. *)
Definition truthy_sampler (s : DistributedSampler) : bool :=
  negb (sampler_len s =? 0).

Record Tokenizer : Type := mkTokenizer {
  tok_model_id : string;
  model_max_length : option Z }.

(** [DataCollatorForLanguageModeling(tokenizer=, mlm_probability=)] *)
Record DataCollator : Type := mkCollator {
  col_tokenizer : Tokenizer;
  col_mlm_probability : float }.

(** [DataLoader(dataset, collate_fn=, batch_size=, sampler=, shuffle=)] *)
Record DataLoader : Type := mkDataLoader {
  dl_dataset : Dataset;
  dl_collate_fn : DataCollator;
  dl_batch_size : Z;
  dl_sampler : DistributedSampler;
  dl_shuffle : bool }.

Record EsmConfig : Type := mkConfig {
  cfg_of : string;
  vocab_list : list string;
  vocab_size : Z }.

Inductive Weights : Type :=
| Pretrained (model_id : string)
| RandomInit.

Record EsmForMaskedLM : Type := mkModel {
  config : EsmConfig;
  weights : Weights }.

(** [DistributedDataParallel(module, device_ids=, find_unused_parameters=)] *)
Record DistributedDataParallel : Type := mkDDP {
  module : EsmForMaskedLM;
  ddp_device : string;
  device_ids : list Z;
  find_unused_parameters : bool }.

(** One line of [report_metrics]' output, before formatting. *)
Record Metrics : Type := mkMetrics {
  mt_epoch : Z;
  mt_steps : Z;
  mt_prefix : option string;
  mt_loss : float;
  mt_perplexity : float;
  mt_samples_per_sec : float;
  mt_tokens_per_sec : float }.

(** What a process does to the outside: what it prints and the calls it
    makes into the framework, with their arguments.  A batch is named
    by its epoch and its index in the epoch; the line of the master
    address is kept before formatting, as the metrics lines are. *)
Inductive Event : Type :=
| Print (line : string)
| PrintMetrics (m : Metrics)
| PrintRunCompleted (seconds : float)
| PrintMasterAddress (master : json)
| InitProcessGroup (backend : string) (world_size rank : Z)
| SetSeed (seed : Z)
| ManualSeed (seed : Z)
| CudaManualSeed (seed : Z)
| LoadFromDisk (path : string)
| NewDistributedSampler (s : DistributedSampler)
| TokenizerFromPretrained (model_id : string)
| NewDataCollator (c : DataCollator)
| NewDataLoader (dl : DataLoader)
| ModelFromPretrained (model_id : string)
| NewEsmForMaskedLM (cfg : EsmConfig)
| ModelTo (model : EsmForMaskedLM) (device : string)
| NewDistributedDataParallel (m : DistributedDataParallel)
| NewAdamW (model : DistributedDataParallel) (lr : float)
| GetScheduler (name : string) (num_warmup_steps num_training_steps : Z)
| NewTqdm (total : Z) (disable : bool)
| SetEpoch (epoch : Z)
| ModelTrain
| ModelEval
| ProgressUpdate (n : Z)
| BatchTo (epoch idx : Z) (device : string)
| Forward (epoch idx : Z)
| ZeroGrad
| Backward (epoch idx : Z)
| SchedulerStep
| OptimizerStep (grad : list (Z * Z))
| Barrier
| EvalBatchTo (epoch idx : Z) (device : string)
| EvalForward (epoch idx : Z)
| Makedirs (path : string)
| TorchSave (path : string).

(** Output to the terminal, as opposed to a call into the framework. *)
Definition is_output (ev : Event) : bool :=
  match ev with
  | Print _ | PrintMetrics _ | PrintRunCompleted _ | PrintMasterAddress _ => true
  | _ => false
  end.

Definition is_init (ev : Event) : bool :=
  match ev with
  | InitProcessGroup _ _ _ => true
  | _ => false
  end.

(** What the framework and the machine answer. *)
Record Framework : Type := mkFramework {
  (** the C library's [exp] *)
  libm_exp : float -> float;
  (** the [n]-th reading of [timeit.default_timer] *)
  timer_reading : nat -> float;
  (** the exception a call raises, if it raises *)
  raises : Event -> option exn;
  cuda_is_available : bool;
  (** [len] of the dataset stored under a path *)
  dataset_len : string -> Z;
  (** [len(loader)], the number of batches it yields *)
  loader_len : DataLoader -> nat;
  (** the configuration of a pretrained checkpoint *)
  pretrained_config : string -> EsmConfig;
  (** [get_default_vocab_list()] *)
  default_vocab_list : list string;
  (** the loss of the forward pass on a training batch *)
  train_loss : Z -> Z -> float;
  (** the loss of the forward pass on an evaluation batch *)
  eval_loss : Z -> Z -> float;
  (** tensor arithmetic: [tensor / int], [int + tensor], [tensor + tensor] *)
  tensor_div_int : float -> Z -> float;
  int_add_tensor : Z -> float -> float;
  tensor_add : float -> float -> float;
  (** [json.loads] *)
  json_loads : string -> result json;
  (** [int(s)] for a string [s], [None] when [s] is no integer literal *)
  int_of_str : string -> option Z }.

(** The state of one process: its environment variables, the process
    group it joined, how often it read the clock, the batches whose
    gradients the parameters' [.grad] currently sums, and its trace. *)
Record World : Type := mkWorld {
  environ : gmap string string;
  process_group : option (string * Z * Z);
  clock : nat;
  grad : list (Z * Z);
  trace : list Event }.

End Torch.

Import Torch.

(** ** Processes: state, exceptions and the trace *)

Module Proc.

Definition M (A : Type) : Type := World -> result A * World.

Definition ret {A} (a : A) : M A := fun w => (Ok a, w).

Definition bind {A B} (m : M A) (k : A -> M B) : M B :=
  fun w =>
    match m w with
    | (Ok a, w') => k a w'
    | (Raise e, w') => (Raise e, w')
    end.

Definition lift {A} (r : result A) : M A := fun w => (r, w).

Definition log (ev : Event) (w : World) : World :=
  mkWorld (environ w) (process_group w) (clock w) (grad w) (trace w ++ [ev]).

Definition set_grad (g : list (Z * Z)) (w : World) : World :=
  mkWorld (environ w) (process_group w) (clock w) g (trace w).

(** Output to the terminal. *)
Definition emit (ev : Event) : M unit := fun w => (Ok tt, log ev w).

(** [print(line)] *)
Definition print (line : string) : M unit := emit (Print line).

(** [os.environ[key] = value] *)
Definition setenv (key value : string) : M unit :=
  fun w =>
    (Ok tt,
     mkWorld (<[key := value]> (environ w)) (process_group w) (clock w)
             (grad w) (trace w)).

(** [os.environ[key]] *)
Definition getenv (key : string) : M string :=
  fun w =>
    match environ w !! key with
    | Some v => (Ok v, w)
    | None => (Raise KeyError, w)
    end.

(** For each element of [l] in order, run [body] on it and on the
    loop-carried value: a [for] loop. *)
Fixpoint for_each {A S} (l : list A) (body : A -> S -> M S) (s : S) : M S :=
  match l with
  | [] => ret s
  | a :: l' => bind (body a s) (for_each l' body)
  end.

(** [if c: m] *)
Definition when (c : bool) (m : M unit) : M unit := if c then m else ret tt.

End Proc.

Import Proc.

Notation "x <- c1 ;; c2" := (bind c1 (fun x => c2))
  (at level 100, c1 at next level, right associativity).
Notation "c1 ;; c2" := (bind c1 (fun _ => c2))
  (at level 100, right associativity).

(** ** The script *)

(** The namespace [parse_args] returns.  [hosts] is a list of host names:
    SageMaker sets [SM_HOSTS] to a JSON array of strings, and [--hosts]
    has [type=list].  [seed] has an int default and so is never [None]. *)
Record Args : Type := mkArgs {
  lr : float;
  lr_scheduler_type : string;
  max_length : Z;
  model_dir : string;
  model_id : string;
  num_epochs : Z;
  num_warmup_steps : Z;
  per_device_eval_batch_size : Z;
  per_device_train_batch_size : Z;
  seed : Z;
  training_dir : string;
  test_dir : string;
  logging_steps : Z;
  gradient_accumulation_steps : Z;
  train_sample_count : option Z;
  steps_this_run : option Z;
  pretrain : Z;
  hosts : list string;
  current_host : string;
  num_gpus : Z }.

(** What the command line gives, flag by flag, after argparse's [type]
    conversion; [None] for a flag that is absent. *)
Record Cli : Type := mkCli {
  cli_lr : option float;
  cli_lr_scheduler_type : option string;
  cli_max_length : option Z;
  cli_model_dir : option string;
  cli_model_id : option string;
  cli_num_epochs : option Z;
  cli_num_warmup_steps : option Z;
  cli_per_device_eval_batch_size : option Z;
  cli_per_device_train_batch_size : option Z;
  cli_seed : option Z;
  cli_training_dir : option string;
  cli_test_dir : option string;
  cli_logging_steps : option Z;
  cli_gradient_accumulation_steps : option Z;
  cli_train_sample_count : option Z;
  cli_steps_this_run : option Z;
  cli_pretrain : option Z;
  cli_hosts : option string;
  cli_current_host : option string;
  cli_num_gpus : option Z }.

(** A loss as [report_metrics] receives it: a tensor, or the Python int
    the evaluation loop starts its running sum with. *)
Inductive Loss : Type :=
| PInt (n : Z)
| PTensor (t : float).

(** The float literals of the script: [5e-5] and [0.15]. *)
Definition lr_default : float := S754_finite false 0x1a36e2eb1c432d (-67).
Definition mlm_probability : float := S754_finite false 0x13333333333333 (-55).

Section Script.

Variable fw : Framework.

(** *** Framework calls *)

(** A call into the framework: recorded, and it raises what the
    framework raises. *)
Definition call (ev : Event) : M unit :=
  fun w =>
    match raises fw ev with
    | Some e => (Raise e, log ev w)
    | None => (Ok tt, log ev w)
    end.

(** [timer()] *)
Definition timer : M float :=
  fun w =>
    (Ok (timer_reading fw (clock w)),
     mkWorld (environ w) (process_group w) (S (clock w)) (grad w) (trace w)).

(** [dist.init_process_group(backend=, world_size=, rank=)] *)
Definition init_process_group (backend : string) (world_size rank : Z) : M unit :=
  call (InitProcessGroup backend world_size rank) ;;
  fun w =>
    (Ok tt,
     mkWorld (environ w) (Some (backend, world_size, rank)) (clock w)
             (grad w) (trace w)).

(** [dist.get_world_size()] and [dist.get_rank()] *)
Definition get_world_size : M Z :=
  fun w =>
    match process_group w with
    | Some (_, world_size, _) => (Ok world_size, w)
    | None => (Raise RuntimeError, w)
    end.

Definition get_rank : M Z :=
  fun w =>
    match process_group w with
    | Some (_, _, rank) => (Ok rank, w)
    | None => (Raise RuntimeError, w)
    end.

(** [optimizer.zero_grad()]: the parameters' [.grad] sums nothing. *)
Definition zero_grad : M unit :=
  call ZeroGrad ;; fun w => (Ok tt, set_grad [] w).

(** [loss.backward()]: the batch's gradient is added to [.grad]. *)
Definition backward (epoch idx : Z) : M unit :=
  call (Backward epoch idx) ;;
  fun w => (Ok tt, set_grad (grad w ++ [(epoch, idx)]) w).

(** [optimizer.step()]: the update is computed from [.grad]. *)
Definition optimizer_step : M unit :=
  fun w => call (OptimizerStep (grad w)) w.

(** *** [parse_args] *)

(** The default of [--hosts]: [json.loads(os.environ['SM_HOSTS'])], an
    array of strings; to a default that is a string argparse applies
    [type=list]. *)
Definition hosts_of_json (j : json) : result (list string) :=
  match j with
  | JStr s => Ok (list_of_str s)
  | JArr l =>
      foldr (fun x acc =>
               match x with
               | JStr s => rbind acc (fun r => Ok (s :: r))
               | _ => Raise TypeError
               end) (Ok []) l
  | _ => Raise TypeError
  end.

Definition parse_args (cli : Cli) : M Args :=
  sm_model_dir <- getenv "SM_MODEL_DIR" ;;
  sm_channel_train <- getenv "SM_CHANNEL_TRAIN" ;;
  sm_channel_test <- getenv "SM_CHANNEL_TEST" ;;
  sm_hosts <- getenv "SM_HOSTS" ;;
  hosts_json <- lift (json_loads fw sm_hosts) ;;
  hosts_default <- lift (hosts_of_json hosts_json) ;;
  sm_current_host <- getenv "SM_CURRENT_HOST" ;;
  sm_num_gpus <- getenv "SM_NUM_GPUS" ;;
  n_gpus <- match cli_num_gpus cli with
            | Some n => ret n
            | None =>
                match int_of_str fw sm_num_gpus with
                | Some n => ret n
                | None => lift (Raise SystemExit)
                end
            end ;;
  ret {| lr := default lr_default (cli_lr cli);
         lr_scheduler_type := default "linear" (cli_lr_scheduler_type cli);
         max_length := default 142 (cli_max_length cli);
         model_dir := default sm_model_dir (cli_model_dir cli);
         model_id := default "facebook/esm2_t33_650M_UR50D" (cli_model_id cli);
         num_epochs := default 1 (cli_num_epochs cli);
         num_warmup_steps := default 0 (cli_num_warmup_steps cli);
         per_device_eval_batch_size :=
           default 8 (cli_per_device_eval_batch_size cli);
         per_device_train_batch_size :=
           default 8 (cli_per_device_train_batch_size cli);
         seed := default 42 (cli_seed cli);
         training_dir := default sm_channel_train (cli_training_dir cli);
         test_dir := default sm_channel_test (cli_test_dir cli);
         logging_steps := default 10 (cli_logging_steps cli);
         gradient_accumulation_steps :=
           default 1 (cli_gradient_accumulation_steps cli);
         train_sample_count := cli_train_sample_count cli;
         steps_this_run := cli_steps_this_run cli;
         pretrain := default 0 (cli_pretrain cli);
         hosts := default hosts_default (list_of_str <$> cli_hosts cli);
         current_host := default sm_current_host (cli_current_host cli);
         num_gpus := n_gpus |}.

(** *** [calc_perplexity] and [report_metrics] *)

Definition calc_perplexity (loss : float) : result float :=
  try_except (math_exp (libm_exp fw) loss) OverflowError (Ok inf).

(** [loss.detach().float()] *)
Definition detach_float (loss : Loss) : result float :=
  match loss with
  | PTensor t => Ok t
  | PInt _ => Raise AttributeError
  end.

Definition report_metrics (rank : Z) (start_time : float) (loss : Loss)
    (epoch steps sample_count token_count : Z) (prefix : option string) : M unit :=
  reported_loss <- lift (detach_float loss) ;;
  now <- timer ;;
  let duration := fsub now start_time in
  samples_per_sec <- lift (int_truediv_float sample_count duration) ;;
  tokens_per_sec <- lift (int_truediv_float token_count duration) ;;
  perplexity <- lift (calc_perplexity reported_loss) ;;
  let prefix :=
    match prefix with
    | Some p => if truthy_str p then Some (p +:+ " ") else Some p
    | None => None
    end in
  when (rank =? 0)
    (emit (PrintMetrics
             {| mt_epoch := epoch; mt_steps := steps; mt_prefix := prefix;
                mt_loss := reported_loss; mt_perplexity := perplexity;
                mt_samples_per_sec := samples_per_sec;
                mt_tokens_per_sec := tokens_per_sec |})).

(** *** [worker] *)

(** Step 4: world size, global rank and the process group. *)
Definition init_distributed (local_rank : Z) (args : Args) : M (Z * Z) :=
  let world_size := len (hosts args) * num_gpus args in
  setenv "WORLD_SIZE" (str world_size) ;;
  print ("[DDP] World Size is [" +:+ str world_size +:+ "]") ;;
  node_id <- lift (index (current_host args) (hosts args)) ;;
  let global_rank := node_id * num_gpus args + local_rank in
  setenv "RANK" (str global_rank) ;;
  init_process_group "nccl" world_size global_rank ;;
  nodes <- get_world_size ;;
  host_rank <- get_rank ;;
  print ("[DDP] Initialized the distributed environment: nccl backend on "
         +:+ str nodes +:+ " nodes. Current host rank is " +:+ str host_rank
         +:+ ". Number of gpus: " +:+ str (num_gpus args)) ;;
  ret (world_size, global_rank).

Definition seed_everything (args : Args) : M unit :=
  call (SetSeed (seed args)) ;;
  call (ManualSeed (seed args)) ;;
  call (CudaManualSeed (seed args)).

(** [load_from_disk(path)] *)
Definition load_from_disk (path : string) : M Dataset :=
  call (LoadFromDisk path) ;;
  ret (mkDataset path (dataset_len fw path)).

(** [DistributedSampler(dataset, num_replicas=, rank=, shuffle=)] *)
Definition new_sampler (dataset : Dataset) (num_replicas rank : Z)
    (shuffle : bool) : M DistributedSampler :=
  let s := mkSampler dataset num_replicas rank shuffle in
  call (NewDistributedSampler s) ;; ret s.

(** [DataLoader(dataset, collate_fn=, batch_size=, sampler=, shuffle=)] *)
Definition new_loader (dataset : Dataset) (collate_fn : DataCollator)
    (batch_size : Z) (sampler : DistributedSampler) (shuffle : bool)
  : M DataLoader :=
  let dl := mkDataLoader dataset collate_fn batch_size sampler shuffle in
  call (NewDataLoader dl) ;; ret dl.

(** Step 6: samplers, tokenizer, collator and loaders. *)
Definition setup_data (local_rank : Z) (args : Args) (world_size global_rank : Z)
    (train_dataset test_dataset : Dataset)
  : M (DistributedSampler * DistributedSampler * DataLoader * DataLoader) :=
  train_sampler <- new_sampler train_dataset world_size global_rank true ;;
  test_sampler <- new_sampler test_dataset world_size global_rank true ;;
  print ("[DDP] Train and test samplers set in host [" +:+ current_host args
         +:+ "] rank [" +:+ str local_rank +:+ "]") ;;
  call (TokenizerFromPretrained (model_id args)) ;;
  let tokenizer := mkTokenizer (model_id args) (Some (max_length args)) in
  let data_collator := mkCollator tokenizer mlm_probability in
  call (NewDataCollator data_collator) ;;
  train_loader <- new_loader train_dataset data_collator
                    (per_device_train_batch_size args) train_sampler
                    (if truthy_sampler train_sampler then false else true) ;;
  eval_loader <- new_loader test_dataset data_collator
                   (per_device_eval_batch_size args) test_sampler
                   (if truthy_sampler test_sampler then false else true) ;;
  ret (train_sampler, test_sampler, train_loader, eval_loader).

(** Step 7: the device of the process. *)
Definition select_device (local_rank : Z) : string :=
  if cuda_is_available fw then "cuda:" +:+ str local_rank else "cpu".

(** The model the process trains, before it is moved and wrapped. *)
Definition load_model (args : Args) : M EsmForMaskedLM :=
  call (ModelFromPretrained (model_id args)) ;;
  let model := mkModel (pretrained_config fw (model_id args))
                       (Pretrained (model_id args)) in
  if truthy_int (pretrain args) then
    let my_config := config model in
    let my_config := mkConfig (cfg_of my_config) (default_vocab_list fw)
                              (vocab_size my_config) in
    let my_config := mkConfig (cfg_of my_config) (vocab_list my_config)
                              (len (vocab_list my_config)) in
    call (NewEsmForMaskedLM my_config) ;;
    ret (mkModel my_config RandomInit)
  else ret model.

Definition setup_model (local_rank : Z) (args : Args)
  : M (string * DistributedDataParallel) :=
  let device := select_device local_rank in
  print ("[DDP] Device identified in host [" +:+ current_host args
         +:+ "] rank [" +:+ str local_rank +:+ "] as [" +:+ device +:+ "]") ;;
  model <- load_model args ;;
  call (ModelTo model device) ;;
  let model := mkDDP model device [local_rank] true in
  call (NewDistributedDataParallel model) ;;
  print ("[DDP] Model loaded in host [" +:+ current_host args
         +:+ "] rank [" +:+ str local_rank +:+ "]") ;;
  ret (device, model).

(** One pass of the inner training loop: batch [idx] of [epoch].
    [completed_steps] is carried from batch to batch. *)
Definition train_batch (local_rank : Z) (args : Args) (device : string)
    (num_update_steps_per_epoch : Z)
    (samples_processed_per_logging_update : Z)
    (tokens_processed_per_logging_update : Z)
    (epoch idx completed_steps : Z) : M Z :=
  train_loop_start_time <- timer ;;
  call (ProgressUpdate 1) ;;
  call (BatchTo epoch idx device) ;;
  call (Forward epoch idx) ;;
  zero_grad ;;
  let loss := train_loss fw epoch idx in
  backward epoch idx ;;
  call SchedulerStep ;;
  r <- lift (mod_ (idx + 1) (gradient_accumulation_steps args)) ;;
  when ((r =? 0) || (idx + 1 =? num_update_steps_per_epoch)) optimizer_step ;;
  let completed_steps := completed_steps + 1 in
  r <- lift (mod_ (idx + 1) (logging_steps args)) ;;
  when (r =? 0)
    (report_metrics local_rank train_loop_start_time (PTensor loss) epoch
       completed_steps samples_processed_per_logging_update
       tokens_processed_per_logging_update (Some "Training")) ;;
  ret completed_steps.

(** One pass of the evaluation loop. *)
Definition eval_batch (device : string) (num_eval_steps_per_epoch : Z)
    (epoch idx : Z) (eval_running_loss : Loss) : M Loss :=
  call (EvalBatchTo epoch idx device) ;;
  call (EvalForward epoch idx) ;;
  let term := tensor_div_int fw (eval_loss fw epoch idx)
                num_eval_steps_per_epoch in
  ret (match eval_running_loss with
       | PInt n => PTensor (int_add_tensor fw n term)
       | PTensor t => PTensor (tensor_add fw t term)
       end).

(** One pass of the outer loop: training, then evaluation. *)
Definition run_epoch (local_rank : Z) (args : Args) (device : string)
    (train_loader eval_loader : DataLoader) (world_size : Z)
    (epoch completed_steps : Z) : M Z :=
  let num_update_steps_per_epoch := Z.of_nat (loader_len fw train_loader) in
  let total_train_batch_size := per_device_train_batch_size args * world_size in
  let samples_processed_per_logging_update :=
    total_train_batch_size * logging_steps args in
  let tokens_processed_per_logging_update :=
    samples_processed_per_logging_update * max_length args in
  let num_eval_steps_per_epoch := Z.of_nat (loader_len fw eval_loader) in
  let total_eval_batch_size := per_device_eval_batch_size args * world_size in
  let samples_processed_per_eval :=
    total_eval_batch_size * num_eval_steps_per_epoch in
  let tokens_processed_per_eval := samples_processed_per_eval * max_length args in
  when (local_rank =? 0)
    (print "######################### Train #########################") ;;
  call (SetEpoch epoch) ;;
  call ModelTrain ;;
  completed_steps <-
    for_each (range 0 num_update_steps_per_epoch)
      (train_batch local_rank args device num_update_steps_per_epoch
         samples_processed_per_logging_update
         tokens_processed_per_logging_update epoch)
      completed_steps ;;
  call Barrier ;;
  when (local_rank =? 0)
    (print "######################### Eval #########################") ;;
  eval_start_time <- timer ;;
  call ModelEval ;;
  eval_running_loss <-
    for_each (range 0 num_eval_steps_per_epoch)
      (eval_batch device num_eval_steps_per_epoch epoch) (PInt 0) ;;
  report_metrics local_rank eval_start_time eval_running_loss epoch
    completed_steps samples_processed_per_eval tokens_processed_per_eval
    (Some "Eval") ;;
  ret completed_steps.

(** The training loop; it returns [completed_steps]. *)
Definition training_loop (local_rank : Z) (args : Args) (device : string)
    (train_loader eval_loader : DataLoader) (world_size : Z) : M Z :=
  let completed_steps := 0 in
  let starting_epoch := 0 in
  for_each (range starting_epoch (num_epochs args))
    (run_epoch local_rank args device train_loader eval_loader world_size)
    completed_steps.

(** Optimizer, scheduler, the banner of global rank 0 and the progress
    bar. *)
Definition setup_training (local_rank : Z) (args : Args)
    (model : DistributedDataParallel)
    (train_dataset : Dataset) (train_loader : DataLoader)
    (world_size global_rank : Z) : M unit :=
  let num_update_steps_per_epoch := Z.of_nat (loader_len fw train_loader) in
  let num_total_training_steps := num_epochs args * num_update_steps_per_epoch in
  let total_train_batch_size := per_device_train_batch_size args * world_size in
  call (NewAdamW model (lr args)) ;;
  call (GetScheduler (lr_scheduler_type args) (num_warmup_steps args)
          num_total_training_steps) ;;
  when (global_rank =? 0)
    (print "***** Running training *****" ;;
     print (nl +:+ "Num examples: " +:+ str (ds_len train_dataset)) ;;
     print (nl +:+ "Num Epochs: " +:+ str (num_epochs args)) ;;
     print (nl +:+ "Instantaneous batch size per device = "
            +:+ str (per_device_train_batch_size args)) ;;
     print (nl +:+ "Total train batch size (w. parallel, distributed & accumulation) = "
            +:+ str total_train_batch_size) ;;
     print (nl +:+ "Total optimization steps = "
            +:+ str num_total_training_steps)) ;;
  call (NewTqdm num_total_training_steps (negb (local_rank =? 0))).

(** The checkpoint, saved by global rank 0. *)
Definition save_checkpoint (args : Args) (global_rank : Z) (run_start : float)
  : M unit :=
  when (global_rank =? 0)
    (call (Makedirs (model_dir args)) ;;
     let path := model_dir args +:+ "/checkpoint.pt" in
     call (TorchSave path) ;;
     print ("##### Model saved to:  " +:+ model_dir args +:+ "/checkpoint.pt") ;;
     now <- timer ;;
     emit (PrintRunCompleted (fsub now run_start))).

(** Everything [worker] does once the process group is up. *)
Definition run_training (local_rank : Z) (args : Args) (run_start : float)
    (world_size global_rank : Z) : M unit :=
  seed_everything args ;;
  train_dataset <- load_from_disk (training_dir args) ;;
  test_dataset <- load_from_disk (test_dir args) ;;
  data <- setup_data local_rank args world_size global_rank train_dataset
            test_dataset ;;
  let '(train_sampler, test_sampler, train_loader, eval_loader) := data in
  placed <- setup_model local_rank args ;;
  let '(device, model) := placed in
  setup_training local_rank args model train_dataset train_loader world_size
    global_rank ;;
  completed_steps <-
    training_loop local_rank args device train_loader eval_loader world_size ;;
  save_checkpoint args global_rank run_start.

Definition worker (local_rank : Z) (args : Args) : M unit :=
  run_start <- timer ;;
  ranks <- init_distributed local_rank args ;;
  let '(world_size, global_rank) := ranks in
  run_training local_rank args run_start world_size global_rank.

End Script.

(** ** The entry point *)

(** What became of a run: how the launching process ended and, for each
    spawned worker, its local rank, how it ended and its final state. *)
Record Run : Type := mkRun {
  launcher : result unit * World;
  workers : list (Z * (result unit * World)) }.

Section Launch.

(** What the framework answers in the launching process, and in the
    process spawned with each local rank. *)
Variable fw : Framework.
Variable cluster : Z -> Framework.

(** [torch.multiprocessing.spawn(fn, nprocs=, args=(args,))]: one
    process per index of [range(nprocs)], each a copy of the launcher
    running [fn(index, args)]. *)
Definition spawn (fn : Framework -> Z -> Args -> M unit) (nprocs : Z)
    (args : Args) (w : World) : list (Z * (result unit * World)) :=
  map (fun i => (i, fn (cluster i) i args w)) (range 0 nprocs).

Definition raised (p : Z * (result unit * World)) : bool :=
  match p with
  | (_, (Raise _, _)) => true
  | _ => false
  end.

(** Everything before the spawn. *)
Definition prepare (cli : Cli) : M Args :=
  args <- parse_args fw cli ;;
  training_env <- getenv "SM_TRAINING_ENV" ;;
  decoded <- lift (json_loads fw training_env) ;;
  master <- lift (getitem decoded "master_hostname") ;;
  emit (PrintMasterAddress master) ;;
  master_str <- lift (match master with
                      | JStr s => Ok s
                      | _ => Raise TypeError
                      end) ;;
  setenv "MASTER_ADDR" master_str ;;
  setenv "MASTER_PORT" "7777" ;;
  ret args.

Definition main (cli : Cli) (w : World) : Run :=
  match prepare cli w with
  | (Ok args, w') =>
      let ws := spawn worker (num_gpus args) args w' in
      mkRun (if existsb raised ws then Raise ProcessRaisedException else Ok tt,
             w')
            ws
  | (Raise e, w') => mkRun (Raise e, w') []
  end.

End Launch.

(** ** Observations *)

(** How a computation ended: normally, or raising an exception. *)
Definition outcome {A} (r : result A) : option exn :=
  match r with
  | Ok _ => None
  | Raise e => Some e
  end.

(** The process groups a trace initializes: backend, world size, rank. *)
Definition init_calls (t : list Event) : list (string * Z * Z) :=
  omap (fun ev => match ev with
                  | InitProcessGroup b ws r => Some (b, ws, r)
                  | _ => None
                  end) t.

(** The optimizer steps of a trace, each with the batches whose gradients
    its update is computed from. *)
Definition optimizer_steps (t : list Event) : list (list (Z * Z)) :=
  omap (fun ev => match ev with
                  | OptimizerStep g => Some g
                  | _ => None
                  end) t.

(** The metric lines a trace prints. *)
Definition reports (t : list Event) : list Metrics :=
  omap (fun ev => match ev with
                  | PrintMetrics m => Some m
                  | _ => None
                  end) t.

(** The events of [w'] that came after [w]. *)
Definition since (w w' : World) : list Event :=
  drop (length (trace w)) (trace w').

(** [R w o w']: from state [w] a computation ended as [o] in state [w'].
    A computation respects [R] when all its runs are in [R]. *)
Definition respects (R : World -> option exn -> World -> Prop) {A} (m : M A)
  : Prop :=
  forall w, R w (outcome (m w).1) (m w).2.

(** The environment and the process group are as before, and no process
    group was initialized. *)
Definition untouched (w : World) (o : option exn) (w' : World) : Prop :=
  environ w' = environ w /\
  process_group w' = process_group w /\
  init_calls (trace w') = init_calls (trace w).

(** An event after which the process carries on. *)
Definition calm (fw : Framework) (ev : Event) : Prop :=
  is_output ev = true \/ raises fw ev = None.

(** A stretch of trace in which nothing the framework raised was
    swallowed: a call that raises is the last event, and the process
    ends raising the same exception. *)
Definition propagated (fw : Framework) (o : option exn) (t : list Event) : Prop :=
  match o with
  | None => Forall (calm fw) t
  | Some e =>
      Forall (calm fw) t \/
      exists (t1 : list Event) (ev : Event),
        t = (t1 ++ [ev])%list /\ Forall (calm fw) t1 /\
        is_output ev = false /\ raises fw ev = Some e
  end.

Definition propagates (fw : Framework) (w : World) (o : option exn) (w' : World)
  : Prop :=
  exists t : list Event, trace w' = (trace w ++ t)%list /\ propagated fw o t.

(** [args] with another [steps_this_run]. *)
Definition with_steps_this_run (s : option Z) (a : Args) : Args :=
  {| lr := lr a; lr_scheduler_type := lr_scheduler_type a;
     max_length := max_length a; model_dir := model_dir a;
     model_id := model_id a; num_epochs := num_epochs a;
     num_warmup_steps := num_warmup_steps a;
     per_device_eval_batch_size := per_device_eval_batch_size a;
     per_device_train_batch_size := per_device_train_batch_size a;
     seed := seed a; training_dir := training_dir a; test_dir := test_dir a;
     logging_steps := logging_steps a;
     gradient_accumulation_steps := gradient_accumulation_steps a;
     train_sample_count := train_sample_count a;
     steps_this_run := s; pretrain := pretrain a; hosts := hosts a;
     current_host := current_host a; num_gpus := num_gpus a |}.

(** ** Sample runs

    A framework in which nothing raises: the clock advances by one second
    per reading, every dataset has five rows, the training loader yields
    two batches and the evaluation loader one.  [loss] is the loss of
    every training batch.  The texts of the environment stand for the
    JSON they decode to. *)

Definition float_of_Z (n : Z) : float := binary_normalize prec emax n 0 false.

Definition sample_framework (loss : float) : Framework :=
  {| libm_exp := fun x => x;
     timer_reading := fun n => float_of_Z (Z.of_nat n + 1);
     raises := fun _ => None;
     cuda_is_available := true;
     dataset_len := fun _ => 5;
     loader_len := fun dl => if String.eqb (ds_path (dl_dataset dl)) "/train" then 2%nat else 1%nat;
     pretrained_config := fun id => mkConfig id ["<cls>"; "<pad>"] 2;
     default_vocab_list := ["<cls>"; "<pad>"; "<eos>"; "<unk>"; "L"; "A"];
     train_loss := fun _ _ => loss;
     eval_loss := fun _ _ => float_of_Z 1;
     tensor_div_int := fun t n => SFdiv prec emax t (float_of_Z n);
     int_add_tensor := fun n t => SFadd prec emax (float_of_Z n) t;
     tensor_add := fun a b => SFadd prec emax a b;
     json_loads := fun text =>
       if String.eqb text "HOSTS" then Ok (JArr [JStr "algo-1"; JStr "algo-2"])
       else if String.eqb text "ENV" then Ok (JObj [("master_hostname", JStr "algo-1")])
       else Raise ValueError;
     int_of_str := fun text => if String.eqb text "2" then Some 2 else None |}.

Definition sample_environ : gmap string string :=
  list_to_map
    [("SM_MODEL_DIR", "/opt/ml/model"); ("SM_CHANNEL_TRAIN", "/train");
     ("SM_CHANNEL_TEST", "/test"); ("SM_HOSTS", "HOSTS");
     ("SM_CURRENT_HOST", "algo-2"); ("SM_NUM_GPUS", "2");
     ("SM_TRAINING_ENV", "ENV")].

Definition sample_world : World := mkWorld sample_environ None 0 [] [].

(** No flag on the command line, and one: [--logging_steps 1]. *)
Definition no_flags : Cli :=
  mkCli None None None None None None None None None None None None None None
        None None None None None None.

Definition log_every_step : Cli :=
  mkCli None None None None None None None None None None None None (Some 1)
        None None None None None None None.

(** The arguments [no_flags] parses to in [sample_world]. *)
Definition sample_args : Args :=
  {| lr := lr_default; lr_scheduler_type := "linear"; max_length := 142;
     model_dir := "/opt/ml/model"; model_id := "facebook/esm2_t33_650M_UR50D";
     num_epochs := 1; num_warmup_steps := 0; per_device_eval_batch_size := 8;
     per_device_train_batch_size := 8; seed := 42; training_dir := "/train";
     test_dir := "/test"; logging_steps := 10; gradient_accumulation_steps := 1;
     train_sample_count := None; steps_this_run := None; pretrain := 0;
     hosts := ["algo-1"; "algo-2"]; current_host := "algo-2"; num_gpus := 2 |}.

(** [sample_args] with other values of single arguments. *)
Definition with_gradient_accumulation_steps (k : Z) (a : Args) : Args :=
  {| lr := lr a; lr_scheduler_type := lr_scheduler_type a;
     max_length := max_length a; model_dir := model_dir a;
     model_id := model_id a; num_epochs := num_epochs a;
     num_warmup_steps := num_warmup_steps a;
     per_device_eval_batch_size := per_device_eval_batch_size a;
     per_device_train_batch_size := per_device_train_batch_size a;
     seed := seed a; training_dir := training_dir a; test_dir := test_dir a;
     logging_steps := logging_steps a;
     gradient_accumulation_steps := k;
     train_sample_count := train_sample_count a;
     steps_this_run := steps_this_run a; pretrain := pretrain a;
     hosts := hosts a; current_host := current_host a; num_gpus := num_gpus a |}.

Definition with_num_epochs (n : Z) (a : Args) : Args :=
  {| lr := lr a; lr_scheduler_type := lr_scheduler_type a;
     max_length := max_length a; model_dir := model_dir a;
     model_id := model_id a; num_epochs := n;
     num_warmup_steps := num_warmup_steps a;
     per_device_eval_batch_size := per_device_eval_batch_size a;
     per_device_train_batch_size := per_device_train_batch_size a;
     seed := seed a; training_dir := training_dir a; test_dir := test_dir a;
     logging_steps := logging_steps a;
     gradient_accumulation_steps := gradient_accumulation_steps a;
     train_sample_count := train_sample_count a;
     steps_this_run := steps_this_run a; pretrain := pretrain a;
     hosts := hosts a; current_host := current_host a; num_gpus := num_gpus a |}.

Definition with_logging_steps (n : Z) (a : Args) : Args :=
  {| lr := lr a; lr_scheduler_type := lr_scheduler_type a;
     max_length := max_length a; model_dir := model_dir a;
     model_id := model_id a; num_epochs := num_epochs a;
     num_warmup_steps := num_warmup_steps a;
     per_device_eval_batch_size := per_device_eval_batch_size a;
     per_device_train_batch_size := per_device_train_batch_size a;
     seed := seed a; training_dir := training_dir a; test_dir := test_dir a;
     logging_steps := n;
     gradient_accumulation_steps := gradient_accumulation_steps a;
     train_sample_count := train_sample_count a;
     steps_this_run := steps_this_run a; pretrain := pretrain a;
     hosts := hosts a; current_host := current_host a; num_gpus := num_gpus a |}.

(** The objects [setup_data] builds for global rank 3 of 4 from
    [sample_args]. *)
Definition sample_collator : DataCollator :=
  mkCollator (mkTokenizer "facebook/esm2_t33_650M_UR50D" (Some 142))
             mlm_probability.

Definition sample_loader (path : string) (rows : Z) : DataLoader :=
  let dataset := mkDataset path rows in
  mkDataLoader dataset sample_collator 8 (mkSampler dataset 4 3 true) false.

(** A framework whose C library overflows on every argument. *)
Definition overflowing_framework : Framework :=
  {| libm_exp := fun _ => inf;
     timer_reading := timer_reading (sample_framework fzero);
     raises := fun _ => None;
     cuda_is_available := true;
     dataset_len := fun _ => 5;
     loader_len := loader_len (sample_framework fzero);
     pretrained_config := pretrained_config (sample_framework fzero);
     default_vocab_list := [];
     train_loss := fun _ _ => fzero;
     eval_loss := fun _ _ => fzero;
     tensor_div_int := fun t _ => t;
     int_add_tensor := fun _ t => t;
     tensor_add := fun a _ => a;
     json_loads := fun _ => Raise ValueError;
     int_of_str := fun _ => None |}.

(** A framework in which the barrier after the training batches fails. *)
Definition failing_framework : Framework :=
  let fw := sample_framework (float_of_Z 1) in
  {| libm_exp := libm_exp fw;
     timer_reading := timer_reading fw;
     raises := fun ev => match ev with
                         | Barrier => Some RuntimeError
                         | _ => None
                         end;
     cuda_is_available := cuda_is_available fw;
     dataset_len := dataset_len fw;
     loader_len := loader_len fw;
     pretrained_config := pretrained_config fw;
     default_vocab_list := default_vocab_list fw;
     train_loss := train_loss fw;
     eval_loss := eval_loss fw;
     tensor_div_int := tensor_div_int fw;
     int_add_tensor := int_add_tensor fw;
     tensor_add := tensor_add fw;
     json_loads := json_loads fw;
     int_of_str := int_of_str fw |}.

(** Two processes on one machine: the loss of the process with local rank
    0 is always 1, that of the other is [other]. *)
Definition sample_cluster (other : float) (local_rank : Z) : Framework :=
  sample_framework (if local_rank =? 0 then float_of_Z 1 else other).

(** The training losses a run prints, worker by worker. *)
Definition is_training_line (m : Metrics) : bool :=
  match mt_prefix m with
  | Some p => String.eqb p "Training "
  | None => false
  end.

Definition printed_losses (run : Run) : list (Z * list float) :=
  map (fun p => (p.1, map mt_loss
                        (List.filter is_training_line (reports (trace p.2.2)))))
      (workers run).

(** ** More observations and sample runs *)

Definition with_current_host (h : string) (a : Args) : Args :=
  {| lr := lr a; lr_scheduler_type := lr_scheduler_type a;
     max_length := max_length a; model_dir := model_dir a;
     model_id := model_id a; num_epochs := num_epochs a;
     num_warmup_steps := num_warmup_steps a;
     per_device_eval_batch_size := per_device_eval_batch_size a;
     per_device_train_batch_size := per_device_train_batch_size a;
     seed := seed a; training_dir := training_dir a; test_dir := test_dir a;
     logging_steps := logging_steps a;
     gradient_accumulation_steps := gradient_accumulation_steps a;
     train_sample_count := train_sample_count a;
     steps_this_run := steps_this_run a; pretrain := pretrain a;
     hosts := hosts a; current_host := h; num_gpus := num_gpus a |}.

(** The command line [--hosts algo-1]. *)
Definition hosts_flag : Cli :=
  mkCli None None None None None None None None None None None None None None
        None None None (Some "algo-1") None None.

(** [sample_framework] with an evaluation loader that yields nothing. *)
Definition no_eval_framework : Framework :=
  let fw := sample_framework (float_of_Z 1) in
  {| libm_exp := libm_exp fw;
     timer_reading := timer_reading fw;
     raises := raises fw;
     cuda_is_available := cuda_is_available fw;
     dataset_len := dataset_len fw;
     loader_len := fun dl =>
       if String.eqb (ds_path (dl_dataset dl)) "/train" then 2%nat else 0%nat;
     pretrained_config := pretrained_config fw;
     default_vocab_list := default_vocab_list fw;
     train_loss := train_loss fw;
     eval_loss := eval_loss fw;
     tensor_div_int := tensor_div_int fw;
     int_add_tensor := int_add_tensor fw;
     tensor_add := tensor_add fw;
     json_loads := json_loads fw;
     int_of_str := int_of_str fw |}.

(** The framework calls of one pass of the training loop, in the order
    of the loop body; [step] tells whether the optimizer steps. *)
Definition pass_calls (device : string) (epoch idx : Z) (step : bool)
  : list Event :=
  ([ProgressUpdate 1; BatchTo epoch idx device; Forward epoch idx; ZeroGrad;
    Backward epoch idx; SchedulerStep]
   ++ (if step then [OptimizerStep [(epoch, idx)]] else []))%list.

(** The condition under which pass [idx] of an epoch of [n] batches steps
    the optimizer, for [k] accumulation steps. *)
Definition steps_optimizer (k n idx : Z) : bool :=
  ((idx + 1) mod k =? 0) || (idx + 1 =? n).

(** The framework calls of one pass of the evaluation loop. *)
Definition eval_calls (device : string) (epoch idx : Z) : list Event :=
  [EvalBatchTo epoch idx device; EvalForward epoch idx].

(** A line only the process with local rank 0 prints. *)
Definition banner (local_rank : Z) (line : string) : list Event :=
  if local_rank =? 0 then [Print line] else [].

(** The scheduler steps of a trace. *)
Definition is_scheduler_step (ev : Event) : bool :=
  match ev with SchedulerStep => true | _ => false end.

Definition scheduler_steps (t : list Event) : Z :=
  len (List.filter is_scheduler_step t).

(** The checkpoints a trace saves. *)
Definition checkpoints (t : list Event) : list string :=
  omap (fun ev => match ev with
                  | TorchSave path => Some path
                  | _ => None
                  end) t.

(** The trace of a pass of the training loop: its calls, then the
    metrics lines it printed. *)
Definition pass_trace (device : string) (k n epoch idx : Z) (t : list Event)
  : Prop :=
  exists lines,
    t = (pass_calls device epoch idx (steps_optimizer k n idx)
         ++ map PrintMetrics lines)%list /\
    (length lines <= 1)%nat.


(** The optimizer steps of an epoch of [n] batches that completes: one
    for each pass that steps, on the gradient of its batch. *)
Definition epoch_steps (k n epoch : Z) : list (list (Z * Z)) :=
  map (fun idx => [(epoch, idx)]) (List.filter (steps_optimizer k n) (range 0 n)).

(** [args] with another [train_sample_count]. *)
Definition with_train_sample_count (c : option Z) (a : Args) : Args :=
  {| lr := lr a; lr_scheduler_type := lr_scheduler_type a;
     max_length := max_length a; model_dir := model_dir a;
     model_id := model_id a; num_epochs := num_epochs a;
     num_warmup_steps := num_warmup_steps a;
     per_device_eval_batch_size := per_device_eval_batch_size a;
     per_device_train_batch_size := per_device_train_batch_size a;
     seed := seed a; training_dir := training_dir a; test_dir := test_dir a;
     logging_steps := logging_steps a;
     gradient_accumulation_steps := gradient_accumulation_steps a;
     train_sample_count := c;
     steps_this_run := steps_this_run a; pretrain := pretrain a;
     hosts := hosts a; current_host := current_host a; num_gpus := num_gpus a |}.

(** A command line with other values of [--train_sample_count] and
    [--steps_this_run]. *)
Definition with_sample_count_and_steps (count steps : option Z) (c : Cli) : Cli :=
  {| cli_lr := cli_lr c; cli_lr_scheduler_type := cli_lr_scheduler_type c;
     cli_max_length := cli_max_length c; cli_model_dir := cli_model_dir c;
     cli_model_id := cli_model_id c; cli_num_epochs := cli_num_epochs c;
     cli_num_warmup_steps := cli_num_warmup_steps c;
     cli_per_device_eval_batch_size := cli_per_device_eval_batch_size c;
     cli_per_device_train_batch_size := cli_per_device_train_batch_size c;
     cli_seed := cli_seed c; cli_training_dir := cli_training_dir c;
     cli_test_dir := cli_test_dir c; cli_logging_steps := cli_logging_steps c;
     cli_gradient_accumulation_steps := cli_gradient_accumulation_steps c;
     cli_train_sample_count := count; cli_steps_this_run := steps;
     cli_pretrain := cli_pretrain c; cli_hosts := cli_hosts c;
     cli_current_host := cli_current_host c; cli_num_gpus := cli_num_gpus c |}.

(** The calls with which a worker builds its objects, before the
    training loop: seeds, datasets, samplers, tokenizer, collator, loaders,
    model, optimizer, scheduler and progress bar. *)
Definition is_setup (ev : Event) : bool :=
  match ev with
  | SetSeed _ | ManualSeed _ | CudaManualSeed _ | LoadFromDisk _
  | NewDistributedSampler _ | TokenizerFromPretrained _ | NewDataCollator _
  | NewDataLoader _ | ModelFromPretrained _ | NewEsmForMaskedLM _
  | ModelTo _ _ | NewDistributedDataParallel _ | NewAdamW _ _
  | GetScheduler _ _ _ | NewTqdm _ _ => true
  | _ => false
  end.

(** Saving a checkpoint: the directory and the file. *)
Definition is_checkpoint (ev : Event) : bool :=
  match ev with
  | Makedirs _ | TorchSave _ => true
  | _ => false
  end.

Definition is_metrics (ev : Event) : bool :=
  match ev with
  | PrintMetrics _ => true
  | _ => false
  end.

(** The trace grew by events that are all [allowed]. *)
Definition emitting (allowed : Event -> bool) (w : World) (o : option exn)
    (w' : World) : Prop :=
  exists t : list Event,
    trace w' = (trace w ++ t)%list /\ Forall (fun ev => allowed ev = true) t.

(** What became of the checkpoint in a run of the process with global
    rank [global_rank]: none was saved, or the one of global rank 0; and
    a run of global rank 0 that returns has saved it. *)
Definition checkpointed (args : Args) (global_rank : Z) (w : World)
    (o : option exn) (w' : World) : Prop :=
  exists t : list Event,
    trace w' = (trace w ++ t)%list /\
    (checkpoints t = [] \/
     global_rank = 0 /\ checkpoints t = [model_dir args +:+ "/checkpoint.pt"]) /\
    (o = None -> global_rank = 0 ->
     checkpoints t = [model_dir args +:+ "/checkpoint.pt"]).

(** Metrics lines are allowed, or the rank prints none. *)
Definition metrics_allowed (allowed : Event -> bool) (rank : Z) : Prop :=
  rank <> 0 \/ forall m, allowed (PrintMetrics m) = true.

(** Checkpoints are allowed, or the rank saves none. *)
Definition checkpoint_allowed (allowed : Event -> bool) (global_rank : Z) : Prop :=
  global_rank <> 0 \/
  forall path, allowed (Makedirs path) = true /\ allowed (TorchSave path) = true.

(** ** The objects and the calls of a worker before its training loop *)

(** [w] with the events [t] appended to its trace. *)
Definition extend (t : list Event) (w : World) : World :=
  mkWorld (environ w) (process_group w) (clock w) (grad w) (trace w ++ t).

(** [m] makes the calls of [calls], in order, and returns [v]; or one of
    the calls raises, and [m] ends there with its exception. *)
Definition performs {A} (fw : Framework) (calls : list Event) (v : A) (m : M A)
  : Prop :=
  forall w,
    match m w with
    | (Ok a, w') => a = v /\ w' = extend calls w
    | (Raise e, w') =>
        exists (t : list Event) (ev : Event),
          (t ++ [ev])%list `prefix_of` calls /\
          w' = extend (t ++ [ev]) w /\ raises fw ev = Some e
    end.

(** [m] makes the calls of [calls], in order, and goes on as [k v]; or
    one of the calls raises, and [m] ends there with its exception. *)
Definition after {A B} (fw : Framework) (calls : list Event) (v : A)
    (k : A -> M B) (m : M B) : Prop :=
  forall w,
    (exists (e : exn) (t : list Event) (ev : Event),
       m w = (Raise e, extend (t ++ [ev]) w) /\
       (t ++ [ev])%list `prefix_of` calls /\ raises fw ev = Some e) \/
    m w = k v (extend calls w).

(** What [worker] builds, from its arguments and what the framework
    answers. *)
Definition built_dataset (fw : Framework) (path : string) : Dataset :=
  mkDataset path (dataset_len fw path).

Definition built_collator (args : Args) : DataCollator :=
  mkCollator (mkTokenizer (model_id args) (Some (max_length args)))
             mlm_probability.

Definition built_loader (dataset : Dataset) (args : Args) (batch_size : Z)
    (world_size global_rank : Z) : DataLoader :=
  let sampler := mkSampler dataset world_size global_rank true in
  mkDataLoader dataset (built_collator args) batch_size sampler
    (if truthy_sampler sampler then false else true).

Definition built_train_loader (fw : Framework) (args : Args)
    (world_size global_rank : Z) : DataLoader :=
  built_loader (built_dataset fw (training_dir args)) args
    (per_device_train_batch_size args) world_size global_rank.

Definition built_eval_loader (fw : Framework) (args : Args)
    (world_size global_rank : Z) : DataLoader :=
  built_loader (built_dataset fw (test_dir args)) args
    (per_device_eval_batch_size args) world_size global_rank.

Definition built_model (fw : Framework) (args : Args) : EsmForMaskedLM :=
  let pretrained := pretrained_config fw (model_id args) in
  if truthy_int (pretrain args)
  then mkModel (mkConfig (cfg_of pretrained) (default_vocab_list fw)
                         (len (default_vocab_list fw)))
               RandomInit
  else mkModel pretrained (Pretrained (model_id args)).

Definition built_ddp (fw : Framework) (local_rank : Z) (args : Args)
  : DistributedDataParallel :=
  mkDDP (built_model fw args) (select_device fw local_rank) [local_rank] true.

(** The calls of the parts of [worker] before the training loop. *)
Definition seed_calls (args : Args) : list Event :=
  [SetSeed (seed args); ManualSeed (seed args); CudaManualSeed (seed args)].

Definition data_calls (fw : Framework) (local_rank : Z) (args : Args)
    (world_size global_rank : Z) : list Event :=
  let train := built_dataset fw (training_dir args) in
  let test := built_dataset fw (test_dir args) in
  [NewDistributedSampler (mkSampler train world_size global_rank true);
   NewDistributedSampler (mkSampler test world_size global_rank true);
   Print ("[DDP] Train and test samplers set in host [" +:+ current_host args
          +:+ "] rank [" +:+ str local_rank +:+ "]");
   TokenizerFromPretrained (model_id args);
   NewDataCollator (built_collator args);
   NewDataLoader (built_train_loader fw args world_size global_rank);
   NewDataLoader (built_eval_loader fw args world_size global_rank)].

Definition load_calls (fw : Framework) (args : Args) : list Event :=
  (([ModelFromPretrained (model_id args)] : list Event)
   ++ if truthy_int (pretrain args)
      then [NewEsmForMaskedLM (config (built_model fw args))]
      else [])%list.

Definition model_calls (fw : Framework) (local_rank : Z) (args : Args)
  : list Event :=
  (Print ("[DDP] Device identified in host [" +:+ current_host args
          +:+ "] rank [" +:+ str local_rank +:+ "] as ["
          +:+ select_device fw local_rank +:+ "]")
   :: load_calls fw args
   ++ [ModelTo (built_model fw args) (select_device fw local_rank);
       NewDistributedDataParallel (built_ddp fw local_rank args);
       Print ("[DDP] Model loaded in host [" +:+ current_host args
              +:+ "] rank [" +:+ str local_rank +:+ "]")])%list.

Definition training_calls (fw : Framework) (local_rank : Z) (args : Args)
    (world_size global_rank : Z) : list Event :=
  let train := built_dataset fw (training_dir args) in
  let n :=
    Z.of_nat (loader_len fw (built_train_loader fw args world_size global_rank)) in
  (([NewAdamW (built_ddp fw local_rank args) (lr args);
     GetScheduler (lr_scheduler_type args) (num_warmup_steps args)
       (num_epochs args * n)] : list Event)
   ++ (if global_rank =? 0
       then [Print "***** Running training *****";
             Print (nl +:+ "Num examples: " +:+ str (ds_len train));
             Print (nl +:+ "Num Epochs: " +:+ str (num_epochs args));
             Print (nl +:+ "Instantaneous batch size per device = "
                    +:+ str (per_device_train_batch_size args));
             Print (nl +:+ "Total train batch size (w. parallel, distributed & accumulation) = "
                    +:+ str (per_device_train_batch_size args * world_size));
             Print (nl +:+ "Total optimization steps = "
                    +:+ str (num_epochs args * n))]
       else [])
   ++ [NewTqdm (num_epochs args * n) (negb (local_rank =? 0))])%list.

Definition setup_calls (fw : Framework) (local_rank : Z) (args : Args)
    (world_size global_rank : Z) : list Event :=
  (seed_calls args
   ++ [LoadFromDisk (training_dir args)]
   ++ [LoadFromDisk (test_dir args)]
   ++ data_calls fw local_rank args world_size global_rank
   ++ model_calls fw local_rank args
   ++ training_calls fw local_rank args world_size global_rank)%list.

(** The calls that place the model: [model.to] and the wrapper. *)
Definition is_device_call (ev : Event) : bool :=
  match ev with
  | ModelTo _ _ | NewDistributedDataParallel _ => true
  | _ => false
  end.

(** The calls on the model, from loading it to handing its parameters to
    the optimizer. *)
Definition is_model_call (ev : Event) : bool :=
  match ev with
  | ModelFromPretrained _ | NewEsmForMaskedLM _ | ModelTo _ _
  | NewDistributedDataParallel _ | NewAdamW _ _ => true
  | _ => false
  end.

(** The calls that build samplers and loaders. *)
Definition is_data_call (ev : Event) : bool :=
  match ev with
  | NewDistributedSampler _ | NewDataLoader _ => true
  | _ => false
  end.

Definition is_scheduler_call (ev : Event) : bool :=
  match ev with
  | GetScheduler _ _ _ => true
  | _ => false
  end.

(** ** The operations of a run *)

(** The operations of the script that can raise: the calls into the
    framework and the script's own. *)
Inductive Operation : Type :=
| FrameworkCall (ev : Event)
| GroupQuery
| Environ (key : string)
| JsonLoads (text : string)
| Subscript (j : json) (key : string)
| TypeList (j : json)
| TypeInt (text : string)
| SetEnviron (value : json)
| Index (x : string) (l : list string)
| Mod (a b : Z)
| TrueDiv (n : Z) (y : float)
| Detach (loss : Loss)
| Exp (x : float).

(** The script's own operations, and what each evaluates to. *)
Inductive own (fw : Framework) : forall A : Type, Operation -> result A -> Prop :=
| own_json_loads text : own fw json (JsonLoads text) (json_loads fw text)
| own_subscript j key : own fw json (Subscript j key) (getitem j key)
| own_type_list j : own fw (list string) (TypeList j) (hosts_of_json j)
| own_type_int text :
    int_of_str fw text = None -> own fw Z (TypeInt text) (Raise SystemExit)
| own_set_environ j :
    own fw string (SetEnviron j)
      (match j with JStr s => Ok s | _ => Raise TypeError end)
| own_index x l : own fw Z (Index x l) (index x l)
| own_mod a b : own fw Z (Mod a b) (mod_ a b)
| own_truediv n y : own fw float (TrueDiv n y) (int_truediv_float n y)
| own_detach loss : own fw float (Detach loss) (detach_float loss).

(** The operations a run has evaluated, in order, each with the exception
    it raised, if any. *)
Definition Log : Type := list (Operation * option exn).

(** [evaluated fw m w ops]: the run of [m] from [w] evaluates the
    operations [ops].  A step that cannot raise evaluates none; a
    sequence evaluates the operations of its first part and, if that
    returned, those of the rest.  [math.exp] is evaluated inside
    [calc_perplexity], under its handler. *)
Inductive evaluated (fw : Framework) : forall A : Type, M A -> World -> Log -> Prop :=
| evaluated_returns A (value : World -> A) (next : World -> World) w :
    evaluated fw A (fun w => (Ok (value w), next w)) w []
| evaluated_call (ev : World -> Event) w :
    evaluated fw unit (fun w => call fw (ev w) w) w
      [(FrameworkCall (ev w), raises fw (ev w))]
| evaluated_get_world_size w :
    evaluated fw Z get_world_size w
      [(GroupQuery, outcome (get_world_size w).1)]
| evaluated_get_rank w :
    evaluated fw Z get_rank w [(GroupQuery, outcome (get_rank w).1)]
| evaluated_getenv key w :
    evaluated fw string (getenv key) w [(Environ key, outcome (getenv key w).1)]
| evaluated_own A op (r : result A) w :
    own fw A op r -> evaluated fw A (lift r) w [(op, outcome r)]
| evaluated_handler x w :
    evaluated fw float (lift (calc_perplexity fw x)) w
      [(Exp x, outcome (math_exp (libm_exp fw) x))]
| evaluated_bind A B (m : M A) (k : A -> M B) w a w1 ops1 ops2 :
    evaluated fw A m w ops1 -> m w = (Ok a, w1) ->
    evaluated fw B (k a) w1 ops2 ->
    evaluated fw B (bind m k) w (ops1 ++ ops2)%list
| evaluated_raise A B (m : M A) (k : A -> M B) w e w1 ops :
    evaluated fw A m w ops -> m w = (Raise e, w1) ->
    evaluated fw B (bind m k) w ops.
Global Arguments own fw {A} op r.
Global Arguments evaluated fw {A} m w ops.

(** The one exception the script catches: the [OverflowError] of
    [math.exp]. *)
Definition caught (entry : Operation * option exn) : Prop :=
  match entry with
  | (Exp _, Some OverflowError) => True
  | _ => False
  end.

(** The run went on after the operation. *)
Definition went_on (entry : Operation * option exn) : Prop :=
  entry.2 = None \/ caught entry.

(** A log in which nothing but the caught exception was swallowed, for a
    run that ended as [o]: the run went on after every operation, except
    that an operation that raised, uncaught, is the last one, and the run
    ended with its exception. *)
Definition uncaught (ops : Log) (o : option exn) : Prop :=
  match o with
  | None => Forall went_on ops
  | Some e =>
      exists (t : Log) (op : Operation),
        ops = (t ++ [(op, Some e)])%list /\ Forall went_on t /\
        ~ caught (op, Some e)
  end.

(** Every run of [m] evaluates operations. *)
Definition logs (fw : Framework) {A} (m : M A) : Prop :=
  forall w, exists ops, evaluated fw m w ops.

(** * Properties *)

(** ** A frame rule for processes

    For a relation that is closed under sequencing and that every
    primitive step satisfies, every part of [worker] after the process
    group is up respects it. *)

Section Frame.

Variable fw : Framework.
Variable excluded : Event -> bool.
Variable R : World -> option exn -> World -> Prop.

Hypothesis excluded_init : forall ev, excluded ev = true -> is_init ev = true.
Hypothesis R_pure : forall w o, R w o w.
Hypothesis R_seq :
  forall w w1 w2 o, R w None w1 -> R w1 o w2 -> R w o w2.
Hypothesis R_emit :
  forall w ev, is_output ev = true -> R w None (log ev w).
Hypothesis R_call :
  forall w ev, is_output ev = false -> excluded ev = false ->
               R w (raises fw ev) (log ev w).
Hypothesis R_clock :
  forall w n,
    R w None (mkWorld (environ w) (process_group w) n (grad w) (trace w)).
Hypothesis R_grad : forall w g, R w None (set_grad g w).

Local Abbreviation respects := (respects R).

Lemma respects_ret {A} (a : A) : respects (ret a).
Proof. intros w. apply R_pure. Qed.

Lemma respects_lift {A} (r : result A) : respects (lift r).
Proof. intros w. apply R_pure. Qed.

Lemma respects_bind {A B} (m : M A) (k : A -> M B) :
  respects m -> (forall a, respects (k a)) -> respects (bind m k).
Proof.
  intros Hm Hk w. unfold bind.
  specialize (Hm w). destruct (m w) as [[a | e] w1]; simpl in *.
  - eapply R_seq; [exact Hm | apply Hk].
  - exact Hm.
Qed.

Lemma respects_emit ev : is_output ev = true -> respects (emit ev).
Proof. intros H w. apply R_emit, H. Qed.

Lemma respects_print line : respects (print line).
Proof. apply respects_emit. reflexivity. Qed.

Lemma respects_call ev :
  is_output ev = false -> is_init ev = false -> respects (call fw ev).
Proof.
  intros Hout Hinit w. unfold call.
  assert (Hex : excluded ev = false).
  { destruct (excluded ev) eqn:E; [| reflexivity].
    apply excluded_init in E. congruence. }
  pose proof (R_call w ev Hout Hex) as H.
  destruct (raises fw ev); exact H.
Qed.

Lemma respects_timer : respects (timer fw).
Proof. intros w. apply R_clock. Qed.

Lemma respects_when c (m : M unit) : respects m -> respects (when c m).
Proof. intros H. destruct c; [exact H | apply respects_ret]. Qed.

Lemma respects_for_each {A S} (l : list A) (body : A -> S -> M S) (s : S) :
  (forall a s', respects (body a s')) -> respects (for_each l body s).
Proof.
  intros Hbody. revert s.
  induction l as [| a l IH]; intros s; simpl.
  - apply respects_ret.
  - apply respects_bind; [apply Hbody | exact IH].
Qed.

Lemma respects_set_grad g : respects (fun w => (Ok tt, set_grad g w)).
Proof. intros w. apply R_grad. Qed.

Lemma respects_zero_grad : respects (zero_grad fw).
Proof.
  apply respects_bind; [apply respects_call; reflexivity |].
  intros _. apply respects_set_grad.
Qed.

Lemma respects_backward epoch idx : respects (backward fw epoch idx).
Proof.
  apply respects_bind; [apply respects_call; reflexivity |].
  intros _ w. apply R_grad.
Qed.

Lemma respects_optimizer_step : respects (optimizer_step fw).
Proof.
  intros w. unfold optimizer_step.
  apply (respects_call (OptimizerStep (grad w))); reflexivity.
Qed.

(** One step of a proof that a part of the script respects [R]. *)
Ltac frame_step :=
  first
    [ apply respects_zero_grad
    | apply respects_backward
    | apply respects_optimizer_step
    | apply respects_when
    | apply respects_for_each
    | apply respects_print
    | apply respects_emit; reflexivity
    | apply respects_call; reflexivity
    | apply respects_timer
    | apply respects_ret
    | apply respects_lift
    | apply respects_bind
    | progress intros
    | match goal with
      | |- respects (let '(_, _) := ?p in _) => destruct p
      | |- respects (match ?x with _ => _ end) => destruct x
      | |- respects (if ?c then _ else _) => destruct c
      end ].

Lemma respects_report_metrics rank start_time loss epoch steps sc tc prefix :
  respects (report_metrics fw rank start_time loss epoch steps sc tc prefix).
Proof. unfold report_metrics. repeat frame_step. Qed.

Lemma respects_train_batch local_rank args device n spl tpl epoch idx cs :
  respects (train_batch fw local_rank args device n spl tpl epoch idx cs).
Proof.
  unfold train_batch.
  repeat first [apply respects_report_metrics | frame_step].
Qed.

Lemma respects_eval_batch device n epoch idx acc :
  respects (eval_batch fw device n epoch idx acc).
Proof. unfold eval_batch. repeat frame_step. Qed.

Lemma respects_run_epoch local_rank args device tl el ws epoch cs :
  respects (run_epoch fw local_rank args device tl el ws epoch cs).
Proof.
  unfold run_epoch.
  repeat first [apply respects_report_metrics | apply respects_train_batch
               | apply respects_eval_batch | frame_step].
Qed.

Lemma respects_training_loop local_rank args device tl el ws :
  respects (training_loop fw local_rank args device tl el ws).
Proof.
  unfold training_loop. apply respects_for_each. intros.
  apply respects_run_epoch.
Qed.

Lemma respects_setup_data local_rank args ws gr train test :
  respects (setup_data fw local_rank args ws gr train test).
Proof. unfold setup_data, new_sampler, new_loader. repeat frame_step. Qed.

Lemma respects_load_model args : respects (load_model fw args).
Proof. unfold load_model. repeat frame_step. Qed.

Lemma respects_setup_model local_rank args :
  respects (setup_model fw local_rank args).
Proof.
  unfold setup_model. repeat first [apply respects_load_model | frame_step].
Qed.

Lemma respects_setup_training local_rank args model train tl ws gr :
  respects (setup_training fw local_rank args model train tl ws gr).
Proof. unfold setup_training. repeat frame_step. Qed.

Lemma respects_save_checkpoint args gr run_start :
  respects (save_checkpoint fw args gr run_start).
Proof. unfold save_checkpoint. repeat frame_step. Qed.

Lemma respects_run_training local_rank args run_start ws gr :
  respects (run_training fw local_rank args run_start ws gr).
Proof.
  unfold run_training, seed_everything, load_from_disk.
  repeat first
    [ apply respects_setup_data | apply respects_setup_model
    | apply respects_setup_training | apply respects_training_loop
    | apply respects_save_checkpoint | frame_step ].
Qed.

End Frame.

(** ** Two instances of the frame rule *)

Lemma init_calls_app (t1 t2 : list Event) :
  init_calls (t1 ++ t2) = (init_calls t1 ++ init_calls t2)%list.
Proof. apply omap_app. Qed.

Lemma init_calls_log ev w :
  is_init ev = false -> init_calls (trace (log ev w)) = init_calls (trace w).
Proof.
  intros H. simpl. rewrite init_calls_app.
  destruct ev; try discriminate; simpl; apply app_nil_r.
Qed.

(** After the process group is up, [worker] leaves the environment and
    the process group alone and initializes no other group. *)
Lemma untouched_run_training fw local_rank args run_start ws gr :
  respects untouched (run_training fw local_rank args run_start ws gr).
Proof.
  apply respects_run_training with (excluded := is_init); unfold untouched.
  - auto.
  - auto.
  - intros w w1 w2 o (E1 & P1 & I1) (E2 & P2 & I2).
    repeat split; congruence.
  - intros w ev H. repeat split; try reflexivity.
    apply init_calls_log. destruct ev; try discriminate; reflexivity.
  - intros w ev _ H. repeat split; try reflexivity.
    apply init_calls_log, H.
  - intros; repeat split; reflexivity.
  - intros; repeat split; reflexivity.
Qed.

Lemma propagated_app fw o (t1 t2 : list Event) :
  Forall (calm fw) t1 -> propagated fw o t2 -> propagated fw o (t1 ++ t2).
Proof.
  intros H1 H2. destruct o as [e |]; simpl in *.
  - destruct H2 as [H2 | (t & ev & -> & Ht & Hout & Hev)].
    + left. apply Forall_app; auto.
    + right. exists (t1 ++ t)%list, ev. rewrite app_assoc.
      repeat split; auto. apply Forall_app; auto.
  - apply Forall_app; auto.
Qed.

Lemma propagates_seq fw w w1 w2 o :
  propagates fw w None w1 -> propagates fw w1 o w2 -> propagates fw w o w2.
Proof.
  intros (t1 & E1 & H1) (t2 & E2 & H2).
  exists (t1 ++ t2)%list. split.
  - rewrite E2, E1, app_assoc. reflexivity.
  - apply propagated_app; assumption.
Qed.

Lemma propagates_pure fw w o : propagates fw w o w.
Proof.
  exists []. split; [symmetry; apply app_nil_r |].
  destruct o; simpl; auto.
Qed.

Lemma propagates_call fw w ev :
  is_output ev = false -> propagates fw w (raises fw ev) (log ev w).
Proof.
  intros Hout. exists [ev]. split; [reflexivity |].
  destruct (raises fw ev) as [e |] eqn:E; simpl.
  - right. exists [], ev. repeat split; auto.
  - constructor; [right; exact E | constructor].
Qed.

Lemma propagates_emit fw w ev :
  is_output ev = true -> propagates fw w None (log ev w).
Proof.
  intros Hout. exists [ev]. split; [reflexivity |].
  simpl. constructor; [left; exact Hout | constructor].
Qed.

(** After the process group is up, [worker] swallows nothing the
    framework raises. *)
Lemma propagates_run_training fw local_rank args run_start ws gr :
  respects (propagates fw) (run_training fw local_rank args run_start ws gr).
Proof.
  apply respects_run_training with (excluded := fun _ => false).
  - discriminate.
  - apply propagates_pure.
  - apply propagates_seq.
  - apply propagates_emit.
  - intros w ev H _. apply propagates_call, H.
  - intros w n. exists []. split; [symmetry; apply app_nil_r | constructor].
  - intros w g. exists []. split; [symmetry; apply app_nil_r | constructor].
Qed.

(** ** Rank, world size and the process group *)

Lemma index_elem (x : string) (l : list string) :
  x ∈ l -> exists i, index x l = Ok i.
Proof.
  induction l as [| y l IH]; intros Hin.
  - inversion Hin.
  - simpl. destruct (decide (y = x)) as [-> | Hne]; [eauto |].
    apply elem_of_cons in Hin as [-> | Hin]; [congruence |].
    destruct (IH Hin) as [i ->]. simpl. eauto.
Qed.

(** [index] gives the position of the first occurrence. *)
Lemma index_first (x : string) (l : list string) (i : Z) :
  index x l = Ok i ->
  0 <= i /\ l !! Z.to_nat i = Some x /\
  forall j, (j < Z.to_nat i)%nat -> l !! j <> Some x.
Proof.
  revert i. induction l as [| y l IH]; intros i H; simpl in H.
  - discriminate.
  - destruct (decide (y = x)) as [-> | Hne].
    + injection H as <-.
      split; [lia | split; [reflexivity | intros j Hj; simpl in Hj; lia]].
    + destruct (index x l) as [k |] eqn:E; simpl in H; [| discriminate].
      injection H as <-. destruct (IH k eq_refl) as (Hk & Hl & Hfirst).
      replace (Z.to_nat (k + 1)) with (S (Z.to_nat k)) by lia.
      split; [lia | split; [exact Hl |]].
      intros [| j] Hj; simpl.
      * congruence.
      * apply Hfirst. lia.
Qed.

(** What [init_distributed] does when the current host is listed. *)
Lemma init_distributed_run fw local_rank args w node_id :
  index (current_host args) (hosts args) = Ok node_id ->
  let world_size := len (hosts args) * num_gpus args in
  let global_rank := node_id * num_gpus args + local_rank in
  let call_init := InitProcessGroup "nccl" world_size global_rank in
  let env := <["RANK" := str global_rank]>
               (<["WORLD_SIZE" := str world_size]> (environ w)) in
  let t1 := (trace w ++ [Print ("[DDP] World Size is [" +:+ str world_size +:+ "]")]
             ++ [call_init])%list in
  init_distributed fw local_rank args w =
  match raises fw call_init with
  | Some e => (Raise e, mkWorld env (process_group w) (clock w) (grad w) t1)
  | None =>
      (Ok (world_size, global_rank),
       mkWorld env (Some ("nccl", world_size, global_rank)) (clock w) (grad w)
         (t1 ++ [Print ("[DDP] Initialized the distributed environment: nccl backend on "
                        +:+ str world_size +:+ " nodes. Current host rank is "
                        +:+ str global_rank +:+ ". Number of gpus: "
                        +:+ str (num_gpus args))]))
  end.
Proof.
  intros Hidx. simpl.
  unfold init_distributed, init_process_group, bind, setenv, print, emit, lift,
    call, get_world_size, get_rank, ret, log; simpl.
  rewrite Hidx; simpl.
  destruct (raises fw _); simpl; rewrite <- ?app_assoc; reflexivity.
Qed.

(** [worker] up to the process group, when the current host is listed. *)
Lemma worker_run fw local_rank args w node_id :
  index (current_host args) (hosts args) = Ok node_id ->
  let world_size := len (hosts args) * num_gpus args in
  let global_rank := node_id * num_gpus args + local_rank in
  let call_init := InitProcessGroup "nccl" world_size global_rank in
  let env := <["RANK" := str global_rank]>
               (<["WORLD_SIZE" := str world_size]> (environ w)) in
  let t1 := (trace w ++ [Print ("[DDP] World Size is [" +:+ str world_size +:+ "]")]
             ++ [call_init])%list in
  worker fw local_rank args w =
  match raises fw call_init with
  | Some e => (Raise e, mkWorld env (process_group w) (S (clock w)) (grad w) t1)
  | None =>
      run_training fw local_rank args (timer_reading fw (clock w)) world_size
        global_rank
        (mkWorld env (Some ("nccl", world_size, global_rank)) (S (clock w))
           (grad w)
           (t1 ++ [Print ("[DDP] Initialized the distributed environment: nccl backend on "
                          +:+ str world_size +:+ " nodes. Current host rank is "
                          +:+ str global_rank +:+ ". Number of gpus: "
                          +:+ str (num_gpus args))]))
  end.
Proof.
  intros Hidx. simpl.
  unfold worker, bind at 1. unfold timer at 1. unfold bind at 1.
  rewrite (init_distributed_run _ _ _ _ _ Hidx). simpl.
  destruct (raises fw _); reflexivity.
Qed.

(** C1.  For every list of hosts, current host among them, number of GPUs
    and local rank, the worker initializes exactly one process group: with
    backend "nccl", world size [len(hosts) * num_gpus] and rank
    [hosts.index(current_host) * num_gpus + local_rank]. *)
Theorem worker_init_process_group fw local_rank args w :
  current_host args ∈ hosts args ->
  exists node_id,
    index (current_host args) (hosts args) = Ok node_id /\
    init_calls (trace (worker fw local_rank args w).2) =
    (init_calls (trace w)
     ++ [("nccl", len (hosts args) * num_gpus args,
          node_id * num_gpus args + local_rank)])%list.
Proof.
  intros Hin. destruct (index_elem _ _ Hin) as [node_id Hidx].
  exists node_id. split; [exact Hidx |].
  rewrite (worker_run _ _ _ _ _ Hidx).
  destruct (raises fw _) as [e |]; simpl.
  - rewrite !init_calls_app. simpl. rewrite ?app_nil_r. reflexivity.
  - match goal with
    | |- context [run_training fw ?lr ?a ?rs ?ws ?gr ?w0] =>
        destruct (untouched_run_training fw lr a rs ws gr w0) as (_ & _ & ->)
    end.
    simpl. rewrite !init_calls_app. simpl. rewrite ?app_nil_r. reflexivity.
Qed.

(** ** Environment variables *)

Lemma parse_args_world fw cli w : (parse_args fw cli w).2 = w.
Proof.
  set (R := fun (w : World) (_ : option exn) (w' : World) => w' = w).
  assert (Hpure : forall w o, R w o w) by reflexivity.
  assert (Hseq : forall w w1 w2 o, R w None w1 -> R w1 o w2 -> R w o w2)
    by (unfold R; congruence).
  assert (Hget : forall k, respects R (getenv k)).
  { intros k w0. unfold getenv. destruct (_ !! _); reflexivity. }
  revert w. change (respects R (parse_args fw cli)). unfold parse_args.
  repeat first
    [ apply Hget
    | apply (respects_ret R Hpure)
    | apply (respects_lift R Hpure)
    | apply (respects_bind R Hseq)
    | progress intros
    | match goal with
      | |- respects _ (match ?x with _ => _ end) => destruct x
      end ].
Qed.

(** The environment a worker ends with, whatever else happens to it, and
    the exception it ends with if the process group cannot be set up. *)
Lemma worker_environ fw local_rank args w node_id :
  index (current_host args) (hosts args) = Ok node_id ->
  let world_size := len (hosts args) * num_gpus args in
  let global_rank := node_id * num_gpus args + local_rank in
  environ (worker fw local_rank args w).2 =
  <["RANK" := str global_rank]>
    (<["WORLD_SIZE" := str world_size]> (environ w)) /\
  forall e,
    raises fw (InitProcessGroup "nccl" world_size global_rank) = Some e ->
    (worker fw local_rank args w).1 = Raise e.
Proof.
  intros Hidx. simpl.
  rewrite (worker_run _ _ _ _ _ Hidx).
  destruct (raises fw _) as [e |]; simpl.
  - split; [reflexivity | intros e0 [= <-]; reflexivity].
  - split; [| intros e0; discriminate].
    match goal with
    | |- context [run_training fw ?lr ?a ?rs ?ws ?gr ?w0] =>
        destruct (untouched_run_training fw lr a rs ws gr w0) as (-> & _ & _)
    end.
    reflexivity.
Qed.

(** C7.  With arguments that parse, [SM_TRAINING_ENV] set to the JSON text
    of an object whose [master_hostname] is a string, and the current host
    listed: the launcher sets [MASTER_ADDR] to that host name and
    [MASTER_PORT] to "7777" and spawns the workers of [range(num_gpus)];
    each worker adds [WORLD_SIZE] and [RANK], the decimal strings of its
    world size and global rank, and has done so when it initializes the
    process group: a worker whose initialization raises ends with that
    exception and with both variables set. *)
Theorem environment_plumbing fw cluster cli w args w1 text decoded host node_id :
  parse_args fw cli w = (Ok args, w1) ->
  environ w !! "SM_TRAINING_ENV" = Some text ->
  json_loads fw text = Ok decoded ->
  getitem decoded "master_hostname" = Ok (JStr host) ->
  index (current_host args) (hosts args) = Ok node_id ->
  let run := main fw cluster cli w in
  let launched :=
    <["MASTER_PORT" := "7777"]> (<["MASTER_ADDR" := host]> (environ w)) in
  let world_size := len (hosts args) * num_gpus args in
  environ (launcher run).2 = launched /\
  (workers run).*1 = range 0 (num_gpus args) /\
  forall i r wi,
    (i, (r, wi)) ∈ workers run ->
    let global_rank := node_id * num_gpus args + i in
    environ wi =
    <["RANK" := str global_rank]> (<["WORLD_SIZE" := str world_size]> launched) /\
    forall e,
      raises (cluster i) (InitProcessGroup "nccl" world_size global_rank) = Some e ->
      r = Raise e.
Proof.
  intros Hparse Henv Hjson Hitem Hidx. simpl.
  assert (w1 = w) as ->.
  { pose proof (parse_args_world fw cli w) as H. rewrite Hparse in H. exact H. }
  unfold main.
  assert (Hprep : prepare fw cli w =
                  (Ok args,
                   mkWorld (<["MASTER_PORT" := "7777"]>
                              (<["MASTER_ADDR" := host]> (environ w)))
                     (process_group w) (clock w) (grad w)
                     (trace w ++ [PrintMasterAddress (JStr host)]))).
  { unfold prepare, bind at 1. rewrite Hparse.
    unfold bind, getenv, lift, print, emit, setenv, ret, log.
    rewrite Henv, Hjson, Hitem. reflexivity. }
  rewrite Hprep. cbn [launcher workers snd environ].
  split; [reflexivity |]. split.
  - unfold spawn. rewrite <- list_fmap_compose. apply list_fmap_id.
  - intros i r wi Hin. unfold spawn in Hin.
    apply list_elem_of_fmap in Hin as (j & Heq & _).
    injection Heq as -> Hr.
    match type of Hr with
    | (r, wi) = worker ?f ?lr ?a ?w0 =>
        pose proof (worker_environ f lr a w0 node_id Hidx) as (He & Hraise);
        rewrite <- Hr in He, Hraise
    end.
    simpl in He, Hraise. split; [exact He | exact Hraise].
Qed.

(** ** Running a part of the script by cases *)

Lemma since_app (w w' : World) (t : list Event) :
  trace w' = (trace w ++ t)%list -> since w w' = t.
Proof. intros H. unfold since. rewrite H. apply drop_app_length. Qed.

(** Unfold the primitives, split on what the framework answers, and read
    off the new events. *)
Ltac unfold_script :=
  unfold train_batch, eval_batch, report_metrics, setup_data, setup_model,
    load_model, new_sampler, new_loader, load_from_disk, zero_grad, backward,
    optimizer_step, detach_float, when, bind, call, timer, print, lift, emit,
    ret, log, set_grad.

Ltac case_step fw :=
  match goal with
  | |- context [raises fw ?ev] => destruct (raises fw ev) eqn:?
  | |- context [mod_ ?a ?b] => destruct (mod_ a b) eqn:?
  | |- context [int_truediv_float ?a ?b] =>
      destruct (int_truediv_float a b) eqn:?
  | |- context [calc_perplexity fw ?x] => destruct (calc_perplexity fw x) eqn:?
  | |- context [if ?c then _ else _] => destruct c eqn:?
  end.

Ltac new_events :=
  erewrite since_app by (simpl; rewrite <- ?app_assoc; reflexivity).

(** ** The exception handler *)

(** C9.  [calc_perplexity] returns on every finite loss, provided the C
    library's [exp] gives a number on every number: the library's result
    when that is finite, and positive infinity when it overflowed. *)
Theorem calc_perplexity_total fw (loss : float) :
  (forall x, isnan x = false -> isnan (libm_exp fw x) = false) ->
  isfinite loss = true ->
  calc_perplexity fw loss =
  Ok (if isinf (libm_exp fw loss) then inf else libm_exp fw loss).
Proof.
  intros Hexp Hfin.
  assert (Hnan : isnan loss = false) by (destruct loss; simpl in *; congruence).
  specialize (Hexp loss Hnan).
  unfold calc_perplexity, math_exp, try_except.
  rewrite Hexp, Hfin. simpl. rewrite andb_true_r.
  destruct (isinf (libm_exp fw loss)); reflexivity.
Qed.

(** The only exception [calc_perplexity] catches is [OverflowError]. *)
Lemma calc_perplexity_handler fw (loss : float) (e : exn) :
  math_exp (libm_exp fw) loss = Raise e ->
  calc_perplexity fw loss = if decide (e = OverflowError) then Ok inf else Raise e.
Proof. intros H. unfold calc_perplexity, try_except. rewrite H. reflexivity. Qed.

(** ** Ranges *)

Lemma length_range (lo hi : Z) : length (range lo hi) = Z.to_nat (hi - lo).
Proof. unfold range. rewrite length_map, length_seq. reflexivity. Qed.

(** ** Samplers and loaders *)

(** What [setup_data] builds: both samplers shard over [world_size]
    replicas at [global_rank] with shuffling, each loader has its sampler,
    and a loader's own shuffle flag is the negated truth value of its
    sampler. *)
Lemma setup_data_builds fw local_rank args world_size global_rank train test w :
  match setup_data fw local_rank args world_size global_rank train test w with
  | (Ok (train_sampler, test_sampler, train_loader, eval_loader), w') =>
      train_sampler = mkSampler train world_size global_rank true /\
      test_sampler = mkSampler test world_size global_rank true /\
      dl_dataset train_loader = train /\ dl_sampler train_loader = train_sampler /\
      dl_dataset eval_loader = test /\ dl_sampler eval_loader = test_sampler /\
      dl_shuffle train_loader = negb (truthy_sampler train_sampler) /\
      dl_shuffle eval_loader = negb (truthy_sampler test_sampler)
  | (Raise e, w') =>
      exists ev, ev ∈ since w w' /\ raises fw ev = Some e
  end.
Proof.
  unfold_script. simpl.
  repeat (case_step fw; simpl);
    try (repeat split; reflexivity);
    eexists; (split; [new_events | eassumption]);
    rewrite list_elem_of_In; simpl; tauto.
Qed.

(** A sampler over a dataset with rows is true. *)
Lemma truthy_sampler_rows (s : DistributedSampler) :
  0 < ds_len (smp_dataset s) -> 0 < smp_num_replicas s -> truthy_sampler s = true.
Proof.
  intros Hrows Hrep. unfold truthy_sampler, sampler_len.
  apply negb_true_iff, Z.eqb_neq.
  assert ((- ds_len (smp_dataset s)) / smp_num_replicas s < 0)
    by (apply Z.div_lt_upper_bound; lia).
  lia.
Qed.

(** C4, at an empty training set.  The sampler of an empty dataset has
    length zero and is false, so the training loader is built with its
    sampler and with [shuffle=True]. *)
Theorem shuffle_with_sampler_on_empty_dataset :
  match setup_data (sample_framework fzero) 1 sample_args 4 3
          (mkDataset "/train" 0) (mkDataset "/test" 5) sample_world with
  | (Ok (train_sampler, _, train_loader, eval_loader), _) =>
      dl_sampler train_loader = train_sampler /\
      train_sampler = mkSampler (mkDataset "/train" 0) 4 3 true /\
      dl_shuffle train_loader = true /\
      dl_shuffle eval_loader = false
  | (Raise _, _) => False
  end.
Proof. vm_compute. repeat split; reflexivity. Qed.

(** ** Optimizer steps *)

(** Whenever [optimizer.step()] runs in a pass of the training loop, the
    gradient it reads is that of the current batch alone: [zero_grad] ran
    just before the backward pass. *)
Lemma optimizer_step_gradient fw local_rank args device n spl tpl epoch idx cs w :
  Forall (fun g => g = [(epoch, idx)])
    (optimizer_steps
       (since w (train_batch fw local_rank args device n spl tpl epoch idx cs w).2)).
Proof.
  unfold_script. simpl.
  repeat (case_step fw; simpl).
  all: new_events; simpl; repeat constructor.
Qed.

(** A pass that returns has counted one more step, and has taken an
    optimizer step exactly when [idx + 1] is a multiple of
    [gradient_accumulation_steps] or the batch is the last of the epoch. *)
Lemma train_batch_returns fw local_rank args device n spl tpl epoch idx cs w r w' :
  train_batch fw local_rank args device n spl tpl epoch idx cs w = (Ok r, w') ->
  r = cs + 1 /\
  exists k,
    mod_ (idx + 1) (gradient_accumulation_steps args) = Ok k /\
    optimizer_steps (since w w') =
    if (k =? 0) || (idx + 1 =? n) then [[(epoch, idx)]] else [].
Proof.
  unfold_script. simpl.
  repeat (case_step fw; simpl); intros [= <- <-]; (split; [reflexivity |]);
    eexists; (split; [reflexivity |]); new_events; simpl;
    repeat match goal with
           | H : ?c = _ |- context [?c] => rewrite H
           end; reflexivity.
Qed.

(** C2, at [gradient_accumulation_steps = 2] and an epoch of two batches.
    The loop returns after two steps with one optimizer step, taken at the
    second batch, and the gradient of that step is the second batch's: the
    first batch's gradient was zeroed and is in no update. *)
Theorem accumulated_gradients_are_dropped :
  let args := with_gradient_accumulation_steps 2 sample_args in
  let run :=
    training_loop (sample_framework (float_of_Z 1)) 1 args "cuda:1"
      (sample_loader "/train" 5) (sample_loader "/test" 5) 4 sample_world in
  run.1 = Ok 2 /\
  optimizer_steps (trace run.2) = [[(0, 1)]] /\
  optimizer_steps (trace run.2) <> [[(0, 0); (0, 1)]].
Proof. vm_compute. repeat split; [discriminate]. Qed.

(** ** Metric reports *)

(** C3, amended.  A pass of the training loop that returns has printed a
    metrics line exactly when [idx + 1] is a multiple of [logging_steps]
    and the local rank of the process is 0; the loss of the line is the
    loss of the process's own forward pass on the batch, and its
    perplexity is [calc_perplexity] of that loss. *)
Theorem report_is_periodic_and_local
    fw local_rank args device n spl tpl epoch idx cs w r w' :
  train_batch fw local_rank args device n spl tpl epoch idx cs w = (Ok r, w') ->
  exists k,
    mod_ (idx + 1) (logging_steps args) = Ok k /\
    if (k =? 0) && (local_rank =? 0)
    then exists m,
        reports (since w w') = [m] /\
        mt_loss m = train_loss fw epoch idx /\
        calc_perplexity fw (train_loss fw epoch idx) = Ok (mt_perplexity m) /\
        mt_epoch m = epoch /\ mt_steps m = cs + 1
    else reports (since w w') = [].
Proof.
  unfold_script. simpl.
  repeat (case_step fw; simpl); intros [= <- <-];
    eexists; (split; [reflexivity |]);
    repeat match goal with
           | H : ?c = _ |- context [?c] => rewrite H
           end; simpl;
    try (new_events; reflexivity);
    eexists; (split; [new_events; reflexivity |]);
    simpl; repeat split; assumption.
Qed.

(** C3, as stated, fails.  Two processes with losses 1 and 3: the lines of
    the run carry the loss 1 of the process with local rank 0, the other
    process prints nothing, and the lines are the same when the other
    process's loss is 5. *)
Lemma reported_loss_is_local_to_rank_0 :
  let run other :=
    main (sample_framework fzero) (sample_cluster other) log_every_step
      sample_world in
  printed_losses (run (float_of_Z 3)) = [(0, [float_of_Z 1; float_of_Z 1]); (1, [])] /\
  printed_losses (run (float_of_Z 5)) = printed_losses (run (float_of_Z 3)) /\
  train_loss (sample_cluster (float_of_Z 3) 1) 0 0 = float_of_Z 3 /\
  train_loss (sample_cluster (float_of_Z 5) 1) 0 0 = float_of_Z 5.
Proof. vm_compute. repeat split. Qed.

(** ** Exceptions propagate *)

Lemma propagates_worker fw local_rank args :
  respects (propagates fw) (worker fw local_rank args).
Proof.
  intros w. destruct (index (current_host args) (hosts args)) as [node_id | e] eqn:Hidx.
  - rewrite (worker_run _ _ _ _ _ Hidx).
    destruct (raises fw _) as [e |] eqn:Hinit.
    + simpl. eexists. split; [reflexivity |]. right.
      eexists [_], _. split; [reflexivity |].
      split; [constructor; [left; reflexivity | constructor] |].
      split; [reflexivity | exact Hinit].
    + eapply propagates_seq; [| apply propagates_run_training].
      simpl. eexists [_; _; _]. split; [rewrite <- !app_assoc; reflexivity |].
      simpl.
      constructor; [left; reflexivity |].
      constructor; [right; exact Hinit |].
      constructor; [left; reflexivity | constructor].
  - unfold worker, init_distributed, bind, timer, setenv, print, emit, lift, log.
    rewrite Hidx. simpl. eexists. split; [reflexivity |]. left.
    constructor; [left; reflexivity | constructor].
Qed.

Lemma propagated_raising fw o (t : list Event) ev e :
  propagated fw o t -> ev ∈ t -> is_output ev = false -> raises fw ev = Some e ->
  o = Some e /\ last t = Some ev.
Proof.
  intros Hp Hin Hout Hev.
  assert (Hcalm : ~ calm fw ev) by (intros [H | H]; congruence).
  assert (Hnot : forall l, Forall (calm fw) l -> ev ∈ l -> False).
  { intros l Hl Hl'. rewrite Forall_forall in Hl. auto. }
  destruct o as [e0 |]; simpl in Hp.
  - destruct Hp as [Hp | (t1 & ev0 & -> & Ht1 & _ & Hev0)]; [destruct (Hnot _ Hp Hin) |].
    apply elem_of_app in Hin as [Hin | Hin]; [destruct (Hnot _ Ht1 Hin) |].
    apply list_elem_of_singleton in Hin as ->.
    split; [congruence | apply last_snoc].
  - destruct (Hnot _ Hp Hin).
Qed.


(** ** Completed steps *)

Lemma bind_returns {A B} (m : M A) (k : A -> M B) w b w' :
  bind m k w = (Ok b, w') ->
  exists a w1, m w = (Ok a, w1) /\ k a w1 = (Ok b, w').
Proof.
  unfold bind. destruct (m w) as [[a | e] w1]; [eauto | discriminate].
Qed.

(** A loop whose passes each add [d] to the carried count adds [d] per
    element. *)
Lemma for_each_count {A} (l : list A) (body : A -> Z -> M Z) (d : Z) :
  (forall a s w r w', body a s w = (Ok r, w') -> r = s + d) ->
  forall s w r w',
    for_each l body s w = (Ok r, w') -> r = s + d * Z.of_nat (length l).
Proof.
  intros Hbody. induction l as [| a l IH]; intros s w r w' H; simpl in H.
  - injection H as <- _. simpl. lia.
  - apply bind_returns in H as (s1 & w1 & H1 & H2).
    apply Hbody in H1. apply IH in H2. simpl length. lia.
Qed.

(** An epoch that returns has counted one step per training batch. *)
Lemma run_epoch_returns fw local_rank args device tl el ws epoch cs w r w' :
  run_epoch fw local_rank args device tl el ws epoch cs w = (Ok r, w') ->
  r = cs + Z.of_nat (loader_len fw tl).
Proof.
  unfold run_epoch. intros H.
  repeat (apply bind_returns in H as (? & ? & ? & H); cbv beta in H).
  injection H as <- _.
  match goal with
  | Hloop : for_each _ (train_batch _ _ _ _ _ _ _ _) _ _ = _ |- _ =>
      apply for_each_count with (d := 1) in Hloop
  end.
  - rewrite length_range in *. lia.
  - intros a s w0 r0 w0' Hb. apply train_batch_returns in Hb as [-> _].
    reflexivity.
Qed.

Lemma training_loop_returns fw local_rank args device tl el ws w cs w' :
  training_loop fw local_rank args device tl el ws w = (Ok cs, w') ->
  cs = Z.max 0 (num_epochs args) * Z.of_nat (loader_len fw tl).
Proof.
  unfold training_loop. intros H.
  apply for_each_count with (d := Z.of_nat (loader_len fw tl)) in H.
  - rewrite length_range in H. lia.
  - intros a s w0 r w0' Hb. apply run_epoch_returns in Hb. exact Hb.
Qed.

(** C10, as stated, fails.  With [num_epochs = -1] the loop returns with
    no step completed, not with [num_epochs] times the two batches of the
    epoch; and with [logging_steps = 0] it does not return: the first
    batch raises [ZeroDivisionError]. *)
Lemma completed_steps_formula_fails :
  let fw := sample_framework (float_of_Z 1) in
  let loop args :=
    training_loop fw 1 args "cuda:1" (sample_loader "/train" 5)
      (sample_loader "/test" 5) 4 sample_world in
  (loop (with_num_epochs (-1) sample_args)).1 = Ok 0 /\
  num_epochs (with_num_epochs (-1) sample_args)
  * Z.of_nat (loader_len fw (sample_loader "/train" 5)) = -2 /\
  (loop (with_logging_steps 0 sample_args)).1 = Raise ZeroDivisionError.
Proof. vm_compute. repeat split. Qed.

(** C10, amended.  [steps_this_run] has no effect: a worker, and its
    training loop, do the same and end the same whatever its value.  A
    training loop that returns has completed the non-negative part of
    [num_epochs] times the number of training batches per epoch. *)
Theorem steps_this_run_has_no_effect fw local_rank args :
  (forall s w,
     worker fw local_rank (with_steps_this_run s args) w =
     worker fw local_rank args w) /\
  (forall s device tl el ws w,
     training_loop fw local_rank (with_steps_this_run s args) device tl el ws w =
     training_loop fw local_rank args device tl el ws w) /\
  (forall device tl el ws w cs w',
     training_loop fw local_rank args device tl el ws w = (Ok cs, w') ->
     cs = Z.max 0 (num_epochs args) * Z.of_nat (loader_len fw tl)).
Proof.
  split; [| split].
  - intros s w. reflexivity.
  - intros. reflexivity.
  - intros. eapply training_loop_returns. eassumption.
Qed.

(** ** Sample runs of the theorems above *)

Lemma worker_init_process_group_witness :
  current_host sample_args ∈ hosts sample_args /\
  exists node_id,
    index (current_host sample_args) (hosts sample_args) = Ok node_id /\
    init_calls (trace (worker (sample_framework fzero) 1 sample_args sample_world).2) =
    (init_calls (trace sample_world)
     ++ [("nccl", len (hosts sample_args) * num_gpus sample_args,
          node_id * num_gpus sample_args + 1)])%list.
Proof.
  assert (H : current_host sample_args ∈ hosts sample_args)
    by (apply list_elem_of_In; simpl; auto).
  split; [exact H |].
  exact (worker_init_process_group (sample_framework fzero) 1 sample_args
           sample_world H).
Defined.

Lemma environment_plumbing_witness :
  let run :=
    main (sample_framework fzero) (sample_cluster (float_of_Z 3)) no_flags
      sample_world in
  environ (launcher run).2 =
  <["MASTER_PORT" := "7777"]> (<["MASTER_ADDR" := "algo-1"]> sample_environ) /\
  (workers run).*1 = [0; 1].
Proof.
  pose proof (environment_plumbing (sample_framework fzero)
                (sample_cluster (float_of_Z 3)) no_flags sample_world
                sample_args sample_world "ENV"
                (JObj [("master_hostname", JStr "algo-1")]) "algo-1" 1) as H.
  simpl in H.
  destruct H as (Henv & Hranks & _); try (vm_compute; reflexivity).
  split; [exact Henv | exact Hranks].
Defined.

Lemma calc_perplexity_total_witness :
  calc_perplexity (sample_framework fzero) (float_of_Z 1) = Ok (float_of_Z 1).
Proof.
  apply (calc_perplexity_total (sample_framework fzero) (float_of_Z 1)).
  - intros x H. exact H.
  - reflexivity.
Defined.

Lemma report_is_periodic_and_local_witness :
  let fw := sample_framework (float_of_Z 1) in
  let args := with_logging_steps 1 sample_args in
  exists k,
    mod_ (0 + 1) (logging_steps args) = Ok k /\
    if (k =? 0) && (0 =? 0)
    then exists m,
        reports
          (since sample_world
             (train_batch fw 0 args "cuda:0" 2 32 4544 0 0 0 sample_world).2) = [m] /\
        mt_loss m = train_loss fw 0 0 /\
        calc_perplexity fw (train_loss fw 0 0) = Ok (mt_perplexity m) /\
        mt_epoch m = 0 /\ mt_steps m = 0 + 1
    else reports
           (since sample_world
              (train_batch fw 0 args "cuda:0" 2 32 4544 0 0 0 sample_world).2) = [].
Proof.
  cbv zeta.
  apply (report_is_periodic_and_local (sample_framework (float_of_Z 1)) 0
           (with_logging_steps 1 sample_args) "cuda:0" 2 32 4544 0 0 0
           sample_world 1
           (train_batch (sample_framework (float_of_Z 1)) 0
              (with_logging_steps 1 sample_args) "cuda:0" 2 32 4544 0 0 0
              sample_world).2).
  vm_compute. reflexivity.
Defined.

Lemma steps_this_run_has_no_effect_witness :
  let fw := sample_framework (float_of_Z 1) in
  let loop :=
    training_loop fw 1 sample_args "cuda:1" (sample_loader "/train" 5)
      (sample_loader "/test" 5) 4 sample_world in
  loop.1 = Ok 2 /\
  2 = Z.max 0 (num_epochs sample_args)
      * Z.of_nat (loader_len fw (sample_loader "/train" 5)).
Proof.
  cbv zeta. split; [vm_compute; reflexivity |].
  destruct (steps_this_run_has_no_effect (sample_framework (float_of_Z 1)) 1
              sample_args) as (_ & _ & H).
  apply (H "cuda:1" (sample_loader "/train" 5) (sample_loader "/test" 5) 4
           sample_world 2
           (training_loop (sample_framework (float_of_Z 1)) 1 sample_args
              "cuda:1" (sample_loader "/train" 5) (sample_loader "/test" 5) 4
              sample_world).2).
  vm_compute. reflexivity.
Defined.

(** * Further properties *)

(** ** Hosts and ranks *)

Lemma index_raises (x : string) (l : list string) e :
  index x l = Raise e -> e = ValueError /\ x ∉ l.
Proof.
  induction l as [| y l IH]; simpl; intros H.
  - injection H as <-. split; [reflexivity | apply not_elem_of_nil].
  - destruct (decide (y = x)) as [-> | Hne]; [discriminate |].
    destruct (index x l) as [i |] eqn:E; simpl in H; [discriminate |].
    injection H as <-. destruct (IH eq_refl) as [-> Hnot].
    split; [reflexivity |]. rewrite not_elem_of_cons. split; [congruence | exact Hnot].
Qed.

Lemma index_unlisted (x : string) (l : list string) :
  x ∉ l -> index x l = Raise ValueError.
Proof.
  intros Hnot. destruct (index x l) as [i | e] eqn:E.
  - apply index_first in E as (_ & Hl & _).
    apply list_elem_of_lookup_2 in Hl. contradiction.
  - apply index_raises in E as [-> _]. reflexivity.
Qed.

Lemma worker_unlisted_run fw local_rank args w :
  current_host args ∉ hosts args ->
  let world_size := len (hosts args) * num_gpus args in
  worker fw local_rank args w =
  (Raise ValueError,
   mkWorld (<["WORLD_SIZE" := str world_size]> (environ w)) (process_group w)
     (S (clock w)) (grad w)
     (trace w ++ [Print ("[DDP] World Size is [" +:+ str world_size +:+ "]")])).
Proof.
  intros Hnot. apply index_unlisted in Hnot. simpl.
  unfold worker, init_distributed, bind, timer, setenv, print, emit, lift, log.
  rewrite Hnot. reflexivity.
Qed.

(** X3.  A worker whose current host is not in the list of hosts raises
    [ValueError] from [hosts.index], after it has set [WORLD_SIZE] and
    printed the world size, and before it sets [RANK] or initializes a
    process group. *)
Theorem worker_on_unlisted_host fw local_rank args w :
  current_host args ∉ hosts args ->
  let run := worker fw local_rank args w in
  run.1 = Raise ValueError /\
  environ run.2 =
  <["WORLD_SIZE" := str (len (hosts args) * num_gpus args)]> (environ w) /\
  environ run.2 !! "RANK" = environ w !! "RANK" /\
  process_group run.2 = process_group w /\
  since w run.2 =
  [Print ("[DDP] World Size is [" +:+ str (len (hosts args) * num_gpus args) +:+ "]")].
Proof.
  intros Hnot. simpl. rewrite (worker_unlisted_run _ _ _ _ Hnot). simpl.
  split; [reflexivity |]. split; [reflexivity |].
  split; [apply lookup_insert_ne; discriminate |].
  split; [reflexivity |]. apply since_app. reflexivity.
Qed.

Lemma worker_on_unlisted_host_witness :
  (current_host (with_current_host "algo-3" sample_args)
   ∉ hosts (with_current_host "algo-3" sample_args)) /\
  (worker (sample_framework fzero) 0 (with_current_host "algo-3" sample_args)
     sample_world).1 = Raise ValueError.
Proof.
  assert (H : current_host (with_current_host "algo-3" sample_args)
              ∉ hosts (with_current_host "algo-3" sample_args)).
  { rewrite list_elem_of_In. simpl. intros [H | [H | []]]; discriminate. }
  split; [exact H |].
  exact (proj1 (worker_on_unlisted_host (sample_framework fzero) 0
                  (with_current_host "algo-3" sample_args) sample_world H)).
Defined.

(** What [init_distributed] returns. *)
Lemma init_distributed_returns fw local_rank args w ws gr w' :
  init_distributed fw local_rank args w = (Ok (ws, gr), w') ->
  exists node_id,
    index (current_host args) (hosts args) = Ok node_id /\
    ws = len (hosts args) * num_gpus args /\
    gr = node_id * num_gpus args + local_rank.
Proof.
  intros H. destruct (index (current_host args) (hosts args)) as [node_id | e] eqn:Hidx.
  - rewrite (init_distributed_run _ _ _ _ _ Hidx) in H.
    destruct (raises fw _); [discriminate |].
    injection H as <- <- _. eauto.
  - unfold init_distributed, bind, setenv, print, emit, lift in H.
    rewrite Hidx in H. discriminate.
Qed.

Lemma index_bounds (x : string) (l : list string) i :
  index x l = Ok i -> 0 <= i < len l /\ l !! Z.to_nat i = Some x.
Proof.
  intros H. apply index_first in H as (H0 & Hl & _).
  split; [| exact Hl]. apply lookup_lt_Some in Hl. unfold len. lia.
Qed.

(** X4.  Two processes with the same hosts and number of GPUs, both past
    the initialization of their process group, have the same world size
    and global ranks below it, and the same global rank only if they have
    the same current host and the same local rank. *)
Theorem global_ranks_are_distinct
    fw1 fw2 r1 r2 args1 args2 w1 w2 ws1 gr1 ws2 gr2 w1' w2' :
  init_distributed fw1 r1 args1 w1 = (Ok (ws1, gr1), w1') ->
  init_distributed fw2 r2 args2 w2 = (Ok (ws2, gr2), w2') ->
  hosts args1 = hosts args2 ->
  num_gpus args1 = num_gpus args2 ->
  0 <= r1 < num_gpus args1 ->
  0 <= r2 < num_gpus args2 ->
  ws1 = ws2 /\ 0 <= gr1 < ws1 /\ 0 <= gr2 < ws2 /\
  (gr1 = gr2 -> current_host args1 = current_host args2 /\ r1 = r2).
Proof.
  intros H1 H2 Hh Hg Hr1 Hr2.
  apply init_distributed_returns in H1 as (n1 & I1 & -> & ->).
  apply init_distributed_returns in H2 as (n2 & I2 & -> & ->).
  apply index_bounds in I1 as (B1 & L1). apply index_bounds in I2 as (B2 & L2).
  rewrite <- Hh, <- Hg in *.
  split; [reflexivity |]. split; [nia |]. split; [nia |].
  intros E. assert (n1 = n2) as -> by nia.
  split; [congruence | lia].
Qed.

Lemma global_ranks_are_distinct_witness :
  let fw := sample_framework fzero in
  (init_distributed fw 0 sample_args sample_world).1 = Ok (4, 2) /\
  (init_distributed fw 1 sample_args sample_world).1 = Ok (4, 3) /\
  (2 = 3 -> current_host sample_args = current_host sample_args /\ 0 = 1).
Proof.
  cbv zeta.
  split; [vm_compute; reflexivity |]. split; [vm_compute; reflexivity |].
  refine (proj2 (proj2 (proj2
    (global_ranks_are_distinct (sample_framework fzero) (sample_framework fzero)
       0 1 sample_args sample_args sample_world sample_world 4 2 4 3
       (init_distributed (sample_framework fzero) 0 sample_args sample_world).2
       (init_distributed (sample_framework fzero) 1 sample_args sample_world).2
       _ _ eq_refl eq_refl _ _)))).
  - vm_compute. reflexivity.
  - vm_compute. reflexivity.
  - simpl. lia.
  - simpl. lia.
Defined.
(** ** The command line *)

Ltac parse_cases H :=
  repeat match type of H with
         | context [environ ?w !! ?k] =>
             destruct (environ w !! k) eqn:?; simpl in H; try discriminate H
         | context [json_loads ?fw ?t] =>
             destruct (json_loads fw t) eqn:?; simpl in H; try discriminate H
         | context [hosts_of_json ?j] =>
             destruct (hosts_of_json j) eqn:?; simpl in H; try discriminate H
         | context [cli_num_gpus ?c] =>
             destruct (cli_num_gpus c) eqn:?; simpl in H; try discriminate H
         | context [int_of_str ?fw ?t] =>
             destruct (int_of_str fw t) eqn:?; simpl in H; try discriminate H
         end.

(** X1.  [parse_args] returns only if the six SageMaker variables are
    set, [SM_HOSTS] is JSON text and the number of GPUs is given by
    [--num-gpus] or [SM_NUM_GPUS] is an integer literal: the defaults are
    read from the environment also when the flags are given.  With all
    that and an array of strings in [SM_HOSTS] it returns, leaves the
    process as it was, and each of these arguments is its flag if given
    and its variable otherwise. *)
Theorem parse_args_needs_the_environment fw cli w :
  ((exists args, (parse_args fw cli w).1 = Ok args) ->
   exists sm_model_dir train test hosts_text decoded current gpus,
     environ w !! "SM_MODEL_DIR" = Some sm_model_dir /\
     environ w !! "SM_CHANNEL_TRAIN" = Some train /\
     environ w !! "SM_CHANNEL_TEST" = Some test /\
     environ w !! "SM_HOSTS" = Some hosts_text /\
     json_loads fw hosts_text = Ok decoded /\
     environ w !! "SM_CURRENT_HOST" = Some current /\
     environ w !! "SM_NUM_GPUS" = Some gpus /\
     (cli_num_gpus cli = None -> is_Some (int_of_str fw gpus))) /\
  (forall sm_model_dir train test hosts_text decoded hosts_default current gpus,
     environ w !! "SM_MODEL_DIR" = Some sm_model_dir ->
     environ w !! "SM_CHANNEL_TRAIN" = Some train ->
     environ w !! "SM_CHANNEL_TEST" = Some test ->
     environ w !! "SM_HOSTS" = Some hosts_text ->
     json_loads fw hosts_text = Ok decoded ->
     hosts_of_json decoded = Ok hosts_default ->
     environ w !! "SM_CURRENT_HOST" = Some current ->
     environ w !! "SM_NUM_GPUS" = Some gpus ->
     (cli_num_gpus cli = None -> is_Some (int_of_str fw gpus)) ->
     exists args,
       parse_args fw cli w = (Ok args, w) /\
       model_dir args = default sm_model_dir (cli_model_dir cli) /\
       training_dir args = default train (cli_training_dir cli) /\
       test_dir args = default test (cli_test_dir cli) /\
       hosts args = default hosts_default (list_of_str <$> cli_hosts cli) /\
       current_host args = default current (cli_current_host cli)).
Proof.
  split.
  - intros [args H].
    unfold parse_args, bind, getenv, lift, ret in H. simpl in H.
    parse_cases H.
    + do 7 eexists. repeat split; try reflexivity; try eassumption. congruence.
    + do 7 eexists. repeat split; try reflexivity; try eassumption. eauto.
  - intros a b c d j hd h g H1 H2 H3 H4 H5 H6 H7 H8 H9.
    unfold parse_args, bind, getenv, lift, ret.
    rewrite H1, H2, H3, H4, H5, H6, H7, H8. simpl.
    destruct (cli_num_gpus cli) as [n |];
      [eexists; repeat split; reflexivity |].
    destruct (H9 eq_refl) as [n ->]. eexists; repeat split; reflexivity.
Qed.

Lemma parse_args_needs_the_environment_witness :
  exists args,
    parse_args (sample_framework fzero) no_flags sample_world
    = (Ok args, sample_world) /\
    model_dir args = "/opt/ml/model" /\ hosts args = ["algo-1"; "algo-2"].
Proof.
  destruct (proj2 (parse_args_needs_the_environment (sample_framework fzero)
                     no_flags sample_world)
              "/opt/ml/model" "/train" "/test" "HOSTS"
              (JArr [JStr "algo-1"; JStr "algo-2"]) ["algo-1"; "algo-2"]
              "algo-2" "2")
    as (args & H & Hm & _ & _ & Hh & _);
    try reflexivity.
  - intros _. exists 2. reflexivity.
  - exists args. split; [exact H |]. split; [exact Hm | exact Hh].
Defined.

Lemma parse_args_hosts fw cli w args w' :
  parse_args fw cli w = (Ok args, w') ->
  exists hosts_default,
    hosts args = default hosts_default (list_of_str <$> cli_hosts cli).
Proof.
  intros H. unfold parse_args, bind, getenv, lift, ret in H. simpl in H.
  parse_cases H; injection H as <- _; eexists; reflexivity.
Qed.

Lemma list_of_str_chars (s h : string) :
  h ∈ list_of_str s -> String.length h = 1%nat.
Proof.
  induction s as [| c s IH]; simpl; intros Hin.
  - inversion Hin.
  - apply elem_of_cons in Hin as [-> | Hin]; [reflexivity | auto].
Qed.

Lemma length_list_of_str (s : string) :
  length (list_of_str s) = String.length s.
Proof. induction s as [| c s IH]; simpl; congruence. Qed.

(** X2.  [--hosts] has [type=list]: its value is split into
    one-character strings, so [len(hosts)] is the length of the text, and
    a worker whose current host name is not a single character does not
    find it in the list and raises [ValueError]. *)
Theorem hosts_flag_is_split_into_characters fw cli w args w' text :
  parse_args fw cli w = (Ok args, w') ->
  cli_hosts cli = Some text ->
  hosts args = list_of_str text /\
  len (hosts args) = Z.of_nat (String.length text) /\
  (String.length (current_host args) <> 1%nat ->
   forall fw' local_rank w2,
     (worker fw' local_rank args w2).1 = Raise ValueError).
Proof.
  intros Hparse Hcli. apply parse_args_hosts in Hparse as [hd Hh].
  rewrite Hcli in Hh. simpl in Hh.
  split; [exact Hh |]. split.
  - unfold len. rewrite Hh, length_list_of_str. reflexivity.
  - intros Hlen fw' local_rank w2.
    rewrite worker_unlisted_run; [reflexivity |].
    intros Hin. rewrite Hh in Hin. apply list_of_str_chars in Hin. contradiction.
Qed.

Lemma hosts_flag_is_split_into_characters_witness :
  exists args,
    (parse_args (sample_framework fzero) hosts_flag sample_world).1 = Ok args /\
    hosts args = ["a"; "l"; "g"; "o"; "-"; "1"] /\
    (worker (sample_framework fzero) 0 args sample_world).1 = Raise ValueError.
Proof.
  eexists. split; [vm_compute; reflexivity |].
  match goal with
  | |- hosts ?a = _ /\ _ =>
      destruct (hosts_flag_is_split_into_characters (sample_framework fzero)
                  hosts_flag sample_world a sample_world "algo-1")
        as (H1 & _ & H3)
  end; [vm_compute; reflexivity | reflexivity |].
  split; [exact H1 |]. apply H3. vm_compute. discriminate.
Defined.

(** ** Reports on the other ranks *)

(** X6.  On a rank other than 0, [report_metrics] prints nothing, and it
    ends as it would on rank 0: the values of the line are computed, and
    their exceptions raised, before the rank is looked at. *)
Theorem report_metrics_off_rank_0 fw rank start_time loss epoch steps sc tc prefix w :
  rank <> 0 ->
  let run := report_metrics fw rank start_time loss epoch steps sc tc prefix w in
  run.1 = (report_metrics fw 0 start_time loss epoch steps sc tc prefix w).1 /\
  trace run.2 = trace w.
Proof.
  intros Hrank. apply Z.eqb_neq in Hrank. simpl.
  unfold_script. rewrite Hrank. simpl.
  destruct loss; simpl; [split; reflexivity |].
  repeat (case_step fw; simpl); split; reflexivity.
Qed.

Lemma report_metrics_off_rank_0_witness :
  let fw := sample_framework fzero in
  let run rank :=
    report_metrics fw rank fzero (PTensor fzero) 0 1 8 16 (Some "Eval")
      sample_world in
  1 <> 0 /\ (run 1).1 = (run 0).1 /\ trace (run 1).2 = trace sample_world.
Proof.
  cbv zeta. split; [lia |].
  apply (report_metrics_off_rank_0 (sample_framework fzero) 1 fzero
           (PTensor fzero) 0 1 8 16 (Some "Eval") sample_world).
  lia.
Defined.

(** ** Edge cases of the loops *)

Lemma report_metrics_int fw rank start_time n epoch steps sc tc prefix w :
  report_metrics fw rank start_time (PInt n) epoch steps sc tc prefix w =
  (Raise AttributeError, w).
Proof. reflexivity. Qed.

(** An epoch returns only if the evaluation loader yields a batch. *)
Lemma run_epoch_evaluates fw local_rank args device tl el ws epoch cs w r w' :
  run_epoch fw local_rank args device tl el ws epoch cs w = (Ok r, w') ->
  loader_len fw el <> 0%nat.
Proof.
  intros E Hlen. unfold run_epoch in E. rewrite Hlen in E.
  repeat (apply bind_returns in E as (? & ? & ? & E); cbv beta in E).
  match goal with
  | Hloop : for_each (range 0 (Z.of_nat 0)) _ _ _ = _ |- _ =>
      simpl in Hloop; injection Hloop as <- <-
  end.
  match goal with
  | Hrep : report_metrics _ _ _ _ _ _ _ _ _ _ = _ |- _ =>
      rewrite report_metrics_int in Hrep; discriminate Hrep
  end.
Qed.

(** X9.  With an evaluation loader that yields no batch, no epoch
    returns, and so no training loop of at least one epoch: the running
    evaluation loss is still the int 0 when it is reported. *)
Theorem empty_evaluation_loader_never_completes
    fw local_rank args device tl el ws :
  loader_len fw el = 0%nat ->
  (forall epoch cs w r,
     (run_epoch fw local_rank args device tl el ws epoch cs w).1 <> Ok r) /\
  (0 < num_epochs args ->
   forall w r, (training_loop fw local_rank args device tl el ws w).1 <> Ok r).
Proof.
  intros Hlen.
  assert (Hepoch : forall epoch cs w r,
             (run_epoch fw local_rank args device tl el ws epoch cs w).1 <> Ok r).
  { intros epoch cs w r H.
    destruct (run_epoch _ _ _ _ _ _ _ _ _ _) as [r' w'] eqn:E. simpl in H. subst r'.
    apply run_epoch_evaluates in E. contradiction. }
  split; [exact Hepoch |].
  intros Hpos w r H.
  destruct (training_loop _ _ _ _ _ _ _ _) as [r' w'] eqn:E. simpl in H. subst r'.
  unfold training_loop in E.
  assert (Hr : range 0 (num_epochs args) = 0 :: range 1 (num_epochs args)).
  { unfold range. replace (Z.to_nat (num_epochs args - 0))
      with (S (Z.to_nat (num_epochs args - 1))) by lia.
    simpl. f_equal. rewrite <- seq_shift, map_map.
    apply map_ext. intros i. lia. }
  rewrite Hr in E. simpl in E.
  apply bind_returns in E as (cs1 & w1 & E1 & _).
  apply (Hepoch 0 0 w cs1). rewrite E1. reflexivity.
Qed.

Lemma empty_evaluation_loader_never_completes_witness :
  loader_len no_eval_framework (sample_loader "/test" 5) = 0%nat /\
  (run_epoch no_eval_framework 1 sample_args "cuda:1" (sample_loader "/train" 5)
     (sample_loader "/test" 5) 4 0 0 sample_world).1 <> Ok 2.
Proof.
  split; [reflexivity |].
  apply (proj1 (empty_evaluation_loader_never_completes no_eval_framework 1
                  sample_args "cuda:1" (sample_loader "/train" 5)
                  (sample_loader "/test" 5) 4 eq_refl)).
Defined.

(** X8.  With [logging_steps] or [gradient_accumulation_steps] zero, no
    pass of the training loop returns; when no framework call raises, the
    pass raises [ZeroDivisionError], after the backward pass and the
    scheduler step. *)
Theorem zero_steps_stop_the_first_batch
    fw local_rank args device n spl tpl epoch idx cs w :
  logging_steps args = 0 \/ gradient_accumulation_steps args = 0 ->
  let run := train_batch fw local_rank args device n spl tpl epoch idx cs w in
  (forall r, run.1 <> Ok r) /\
  ((forall ev, raises fw ev = None) ->
   run.1 = Raise ZeroDivisionError /\
   Backward epoch idx ∈ since w run.2 /\ SchedulerStep ∈ since w run.2).
Proof.
  intros Hzero. simpl. split.
  - intros r. unfold_script. unfold mod_.
    destruct Hzero as [-> | ->]; simpl;
      repeat (case_step fw; simpl); discriminate.
  - intros Hquiet. unfold_script. unfold mod_.
    destruct Hzero as [-> | ->]; simpl;
      repeat (case_step fw; simpl);
      try match goal with
          | H : raises fw _ = Some _ |- _ => rewrite Hquiet in H; discriminate H
          end;
      (split; [reflexivity |]); new_events;
      rewrite !list_elem_of_In; simpl; tauto.
Qed.

Lemma zero_steps_stop_the_first_batch_witness :
  let args := with_logging_steps 0 sample_args in
  let run :=
    train_batch (sample_framework fzero) 0 args "cuda:0" 2 0 0 0 0 0 sample_world in
  (logging_steps args = 0 \/ gradient_accumulation_steps args = 0) /\
  run.1 = Raise ZeroDivisionError.
Proof.
  cbv zeta. split; [left; reflexivity |].
  apply (proj2 (zero_steps_stop_the_first_batch (sample_framework fzero) 0
                  (with_logging_steps 0 sample_args) "cuda:0" 2 0 0 0 0 0
                  sample_world (or_introl eq_refl))).
  reflexivity.
Defined.

(** ** The calls of the loops, in order *)

Lemma mod_returns (a b k : Z) : mod_ a b = Ok k -> k = a mod b /\ b <> 0.
Proof.
  unfold mod_. destruct (b =? 0) eqn:E; [discriminate |].
  intros [= <-]. split; [reflexivity | apply Z.eqb_neq, E].
Qed.

(** A pass that returns has made the calls of [pass_calls] and then
    printed at most one metrics line. *)
Lemma train_batch_trace fw local_rank args device n spl tpl epoch idx cs w r w' :
  train_batch fw local_rank args device n spl tpl epoch idx cs w = (Ok r, w') ->
  exists lines,
    trace w' =
    (trace w
     ++ pass_calls device epoch idx
          (steps_optimizer (gradient_accumulation_steps args) n idx)
     ++ map PrintMetrics lines)%list /\
    (length lines <= 1)%nat.
Proof.
  unfold_script. unfold mod_, pass_calls, steps_optimizer. simpl.
  repeat (case_step fw; simpl); intros [= <- <-];
    repeat match goal with
           | H : ?c = _ |- context [?c] => rewrite H
           end; simpl;
    first [ exists []; split; [simpl; rewrite <- ?app_assoc; reflexivity | simpl; lia]
          | eexists [_]; split; [simpl; rewrite <- ?app_assoc; reflexivity | simpl; lia] ].
Qed.

Lemma eval_batch_trace fw device m epoch idx acc w r w' :
  eval_batch fw device m epoch idx acc w = (Ok r, w') ->
  trace w' = (trace w ++ eval_calls device epoch idx)%list /\
  exists t, r = PTensor t.
Proof.
  unfold_script. unfold eval_calls. simpl.
  repeat (case_step fw; simpl); intros [= <- <-];
    (split; [rewrite <- ?app_assoc; reflexivity |]);
    destruct acc; eexists; reflexivity.
Qed.

Lemma report_metrics_trace fw rank start_time loss epoch steps sc tc prefix w w' :
  report_metrics fw rank start_time loss epoch steps sc tc prefix w = (Ok tt, w') ->
  exists lines,
    trace w' = (trace w ++ map PrintMetrics lines)%list /\
    length lines = (if rank =? 0 then 1%nat else 0%nat) /\
    Forall (fun m => mt_epoch m = epoch /\ mt_steps m = steps /\
                     PTensor (mt_loss m) = loss) lines.
Proof.
  unfold_script. destruct loss; simpl; [discriminate |].
  repeat (case_step fw; simpl); intros [= <-]; simpl;
    first [ exists []; split; [rewrite ?app_nil_r; reflexivity |];
            split; [reflexivity | constructor]
          | eexists [_]; split; [reflexivity |];
            split; [reflexivity | repeat constructor] ].
Qed.

(** The trace of a loop that returns is made of the traces of its
    passes. *)
Lemma for_each_trace {A S} (l : list A) (body : A -> S -> M S)
    (P : A -> list Event -> Prop) :
  (forall a s w r w',
     body a s w = (Ok r, w') ->
     exists t, trace w' = (trace w ++ t)%list /\ P a t) ->
  forall s w r w',
    for_each l body s w = (Ok r, w') ->
    exists ts, trace w' = (trace w ++ concat ts)%list /\ Forall2 P l ts.
Proof.
  intros Hbody. induction l as [| a l IH]; intros s w r w' H; simpl in H.
  - injection H as _ <-. exists []. split; [symmetry; apply app_nil_r | constructor].
  - apply bind_returns in H as (s1 & w1 & H1 & H2).
    apply Hbody in H1 as (t & Ht & HP). apply IH in H2 as (ts & Hts & HF).
    exists (t :: ts). split; [| constructor; assumption].
    rewrite Hts, Ht. simpl. rewrite app_assoc. reflexivity.
Qed.

(** When the trace of each pass is a function of the element, the trace
    of the loop is their concatenation. *)
Lemma for_each_trace_map {A S} (l : list A) (body : A -> S -> M S)
    (g : A -> list Event) :
  (forall a s w r w',
     body a s w = (Ok r, w') -> trace w' = (trace w ++ g a)%list) ->
  forall s w r w',
    for_each l body s w = (Ok r, w') ->
    trace w' = (trace w ++ concat (map g l))%list.
Proof.
  intros Hbody s w r w' H.
  apply for_each_trace with (P := fun a t => t = g a) in H as (ts & Hts & HF).
  - rewrite Hts. f_equal. clear Hts.
    induction HF as [| a t l' ts' Ht _ IH]; simpl;
      [reflexivity | rewrite Ht, IH; reflexivity].
  - intros a s0 w0 r0 w0' Hb. eexists. split; [eapply Hbody, Hb | reflexivity].
Qed.

Lemma call_returns fw ev w w' :
  call fw ev w = (Ok tt, w') -> trace w' = (trace w ++ [ev])%list.
Proof. unfold call. destruct (raises fw ev); intros [= <-]; reflexivity. Qed.

Lemma when_print_returns c line w w' :
  when c (print line) w = (Ok tt, w') ->
  trace w' = (trace w ++ if c then [Print line] else [])%list.
Proof.
  destruct c; intros [= <-]; simpl; [reflexivity | symmetry; apply app_nil_r].
Qed.

Lemma timer_returns fw w r w' :
  timer fw w = (Ok r, w') -> trace w' = trace w.
Proof. intros [= _ <-]. reflexivity. Qed.

(** The loss a trace of the evaluation loop leaves: a tensor as soon as
    one batch was evaluated. *)
Lemma eval_loop_trace fw device m epoch l acc w r w' :
  for_each l (eval_batch fw device m epoch) acc w = (Ok r, w') ->
  trace w' = (trace w ++ concat (map (eval_calls device epoch) l))%list.
Proof.
  apply for_each_trace_map. intros a s w0 r0 w0' H.
  apply eval_batch_trace in H as [H _]. exact H.
Qed.

Lemma train_loop_trace fw local_rank args device n spl tpl epoch l cs w r w' :
  for_each l (train_batch fw local_rank args device n spl tpl epoch) cs w
  = (Ok r, w') ->
  r = cs + Z.of_nat (length l) /\
  exists passes,
    trace w' = (trace w ++ concat passes)%list /\
    Forall2 (pass_trace device (gradient_accumulation_steps args) n epoch)
      l passes.
Proof.
  intros H. split.
  - apply for_each_count with (d := 1) in H; [lia |].
    intros a s w0 r0 w0' Hb. apply train_batch_returns in Hb as [-> _].
    reflexivity.
  - eapply for_each_trace; [| exact H].
    intros a s w0 r0 w0' Hb. apply train_batch_trace in Hb as (lines & Ht & Hl).
    eexists. split; [exact Ht |]. exists lines. split; [reflexivity | exact Hl].
Qed.

Lemma run_epoch_trace fw local_rank args device tl el ws epoch cs w r w' :
  run_epoch fw local_rank args device tl el ws epoch cs w = (Ok r, w') ->
  let n := Z.of_nat (loader_len fw tl) in
  let m := Z.of_nat (loader_len fw el) in
  exists passes lines,
    Forall2 (pass_trace device (gradient_accumulation_steps args) n epoch)
      (range 0 n) passes /\
    length lines = (if local_rank =? 0 then 1%nat else 0%nat) /\
    Forall (fun line => mt_epoch line = epoch /\ mt_steps line = cs + n) lines /\
    trace w' =
    (trace w
     ++ banner local_rank "######################### Train #########################"
     ++ [SetEpoch epoch; ModelTrain]
     ++ concat passes
     ++ [Barrier]
     ++ banner local_rank "######################### Eval #########################"
     ++ [ModelEval]
     ++ concat (map (eval_calls device epoch) (range 0 m))
     ++ map PrintMetrics lines)%list.
Proof.
  unfold run_epoch. intros H.
  repeat (apply bind_returns in H as (? & ? & ? & H); cbv beta in H).
  injection H as <- <-.
  repeat match goal with x : unit |- _ => destruct x end.
  repeat match goal with
         | H : call _ _ _ = _ |- _ => apply call_returns in H
         | H : when _ (print _) _ = _ |- _ => apply when_print_returns in H
         | H : timer _ _ = _ |- _ => apply timer_returns in H
         | H : for_each _ (train_batch _ _ _ _ _ _ _ _) _ _ = _ |- _ =>
             apply train_loop_trace in H as (Hcs & passes & Hpasses & HF)
         | H : for_each _ (eval_batch _ _ _ _) _ _ = _ |- _ =>
             apply eval_loop_trace in H
         | H : report_metrics _ _ _ _ _ _ _ _ _ _ = _ |- _ =>
             apply report_metrics_trace in H as (lines & Hline & Hlen & Hlines)
         end.
  rewrite length_range in Hcs.
  exists passes, lines. split; [exact HF |]. split; [exact Hlen |]. split.
  - eapply Forall_impl; [exact Hlines |]. simpl. intros line (He & Hs & _).
    split; [exact He | rewrite Hs, Hcs; lia].
  - repeat match goal with
           | H : trace _ = _ |- _ => rewrite H; clear H
           end.
    unfold banner. rewrite <- ?app_assoc. reflexivity.
Qed.

Lemma train_batch_steps_nonzero
    fw local_rank args device n spl tpl epoch idx cs w r w' :
  train_batch fw local_rank args device n spl tpl epoch idx cs w = (Ok r, w') ->
  gradient_accumulation_steps args <> 0 /\ logging_steps args <> 0.
Proof.
  unfold_script. unfold mod_.
  destruct (gradient_accumulation_steps args =? 0) eqn:Hk;
    destruct (logging_steps args =? 0) eqn:Hl; simpl;
    repeat (case_step fw; simpl); try discriminate;
    intros _; split; apply Z.eqb_neq; assumption.
Qed.

(** X10.  A pass of the training loop that returns has made these
    framework calls, in this order: the progress bar, the batch moved to
    the device, the forward pass, [zero_grad], the backward pass, the
    scheduler step and then, if the pass steps the optimizer, the
    optimizer step on the gradient of this batch; after them at most one
    metrics line.  Neither [gradient_accumulation_steps] nor
    [logging_steps] is zero. *)
Theorem training_pass_calls
    fw local_rank args device n spl tpl epoch idx cs w r w' :
  train_batch fw local_rank args device n spl tpl epoch idx cs w = (Ok r, w') ->
  exists lines,
    since w w' =
    ([ProgressUpdate 1; BatchTo epoch idx device; Forward epoch idx; ZeroGrad;
      Backward epoch idx; SchedulerStep]
     ++ (if ((idx + 1) mod gradient_accumulation_steps args =? 0)
            || (idx + 1 =? n)
         then [OptimizerStep [(epoch, idx)]] else [])
     ++ map PrintMetrics lines)%list /\
    (length lines <= 1)%nat /\
    gradient_accumulation_steps args <> 0 /\ logging_steps args <> 0.
Proof.
  intros H. pose proof (train_batch_steps_nonzero _ _ _ _ _ _ _ _ _ _ _ _ _ H).
  apply train_batch_trace in H as (lines & Ht & Hl).
  exists lines. split; [| split; assumption].
  apply since_app. rewrite Ht. unfold pass_calls, steps_optimizer.
  rewrite <- !app_assoc. reflexivity.
Qed.

Lemma training_pass_calls_witness :
  exists lines,
    since sample_world
      (train_batch (sample_framework fzero) 0 sample_args "cuda:0" 2 0 0 0 1 1
         sample_world).2 =
    ([ProgressUpdate 1; BatchTo 0 1 "cuda:0"; Forward 0 1; ZeroGrad;
      Backward 0 1; SchedulerStep]
     ++ [OptimizerStep [(0, 1)]] ++ map PrintMetrics lines)%list.
Proof.
  destruct (training_pass_calls (sample_framework fzero) 0 sample_args "cuda:0"
              2 0 0 0 1 1 sample_world 2
              (train_batch (sample_framework fzero) 0 sample_args "cuda:0" 2 0 0
                 0 1 1 sample_world).2) as (lines & H & _).
  - vm_compute. reflexivity.
  - exists lines. exact H.
Defined.

(** ** Optimizer and scheduler steps of a run *)

Lemma optimizer_steps_app (t1 t2 : list Event) :
  optimizer_steps (t1 ++ t2) = (optimizer_steps t1 ++ optimizer_steps t2)%list.
Proof. apply omap_app. Qed.

Lemma scheduler_steps_app (t1 t2 : list Event) :
  scheduler_steps (t1 ++ t2) = scheduler_steps t1 + scheduler_steps t2.
Proof.
  unfold scheduler_steps, len. rewrite List.filter_app, length_app. lia.
Qed.

Lemma optimizer_steps_metrics (lines : list Metrics) :
  optimizer_steps (map PrintMetrics lines) = [].
Proof. induction lines; simpl; auto. Qed.

Lemma scheduler_steps_metrics (lines : list Metrics) :
  scheduler_steps (map PrintMetrics lines) = 0.
Proof. unfold scheduler_steps, len. induction lines; simpl; auto. Qed.

Lemma optimizer_steps_eval device epoch (l : list Z) :
  optimizer_steps (concat (map (eval_calls device epoch) l)) = [].
Proof. induction l; simpl; auto. Qed.

Lemma scheduler_steps_eval device epoch (l : list Z) :
  scheduler_steps (concat (map (eval_calls device epoch) l)) = 0.
Proof. unfold scheduler_steps, len. induction l; simpl; auto. Qed.

Lemma pass_trace_steps device k n epoch idx t :
  pass_trace device k n epoch idx t ->
  optimizer_steps t = (if steps_optimizer k n idx then [[(epoch, idx)]] else []) /\
  scheduler_steps t = 1.
Proof.
  intros (lines & -> & _). unfold pass_calls.
  rewrite !optimizer_steps_app, !scheduler_steps_app, optimizer_steps_metrics,
    scheduler_steps_metrics.
  destruct (steps_optimizer k n idx); split; reflexivity.
Qed.

Lemma passes_steps device k n epoch (l : list Z) passes :
  Forall2 (pass_trace device k n epoch) l passes ->
  optimizer_steps (concat passes) =
  map (fun idx => [(epoch, idx)]) (List.filter (steps_optimizer k n) l) /\
  scheduler_steps (concat passes) = len l.
Proof.
  induction 1 as [| idx t l passes Ht _ [IH1 IH2]]; [split; reflexivity |].
  apply pass_trace_steps in Ht as [Ho Hs].
  simpl concat. rewrite optimizer_steps_app, scheduler_steps_app, Ho, Hs, IH1, IH2.
  split.
  - simpl. destruct (steps_optimizer k n idx); reflexivity.
  - unfold len. simpl length. lia.
Qed.

(** The steps of an epoch that returns. *)
Lemma run_epoch_steps fw local_rank args device tl el ws epoch cs w r w' :
  run_epoch fw local_rank args device tl el ws epoch cs w = (Ok r, w') ->
  let n := Z.of_nat (loader_len fw tl) in
  exists t,
    trace w' = (trace w ++ t)%list /\
    optimizer_steps t = epoch_steps (gradient_accumulation_steps args) n epoch /\
    scheduler_steps t = n.
Proof.
  intros H. apply run_epoch_trace in H as (passes & lines & HF & _ & _ & Ht).
  apply passes_steps in HF as [Ho Hs].
  eexists. split; [exact Ht |].
  rewrite !optimizer_steps_app, !scheduler_steps_app, Ho, Hs,
    optimizer_steps_eval, scheduler_steps_eval, optimizer_steps_metrics,
    scheduler_steps_metrics.
  unfold banner, len. rewrite length_range.
  destruct (local_rank =? 0); simpl; rewrite ?app_nil_r;
    (split; [reflexivity | unfold scheduler_steps, len; simpl; lia]).
Qed.

Lemma range_snoc (n : Z) : 0 <= n -> range 0 (n + 1) = (range 0 n ++ [n])%list.
Proof.
  intros Hn. unfold range.
  replace (Z.to_nat (n + 1 - 0)) with (S (Z.to_nat (n - 0))) by lia.
  rewrite seq_S, map_app. simpl. do 2 f_equal. lia.
Qed.

(** Among the first [m] passes, [m / k] have a number that is a multiple
    of [k]. *)
Lemma multiples_count (k : Z) (m : nat) :
  0 < k ->
  len (List.filter (fun idx => (idx + 1) mod k =? 0) (range 0 (Z.of_nat m)))
  = Z.of_nat m / k.
Proof.
  intros Hk. induction m as [| m IH].
  - simpl. rewrite Z.div_0_l by lia. reflexivity.
  - replace (Z.of_nat (S m)) with (Z.of_nat m + 1) by lia.
    rewrite range_snoc by lia. unfold len in *.
    rewrite List.filter_app, length_app, Nat2Z.inj_add, IH. simpl.
    pose proof (Z.div_mod (Z.of_nat m) k ltac:(lia)) as Hm.
    pose proof (Z.mod_pos_bound (Z.of_nat m) k Hk) as Hb.
    destruct ((Z.of_nat m + 1) mod k =? 0) eqn:E.
    + apply Z.eqb_eq in E. simpl.
      pose proof (Z.div_mod (Z.of_nat m + 1) k ltac:(lia)) as Hm1.
      rewrite E in Hm1. nia.
    + apply Z.eqb_neq in E. simpl.
      pose proof (Z.div_mod (Z.of_nat m + 1) k ltac:(lia)) as Hm1.
      pose proof (Z.mod_pos_bound (Z.of_nat m + 1) k Hk) as Hb1.
      nia.
Qed.

(** An epoch of [n] batches takes [n / k] rounded up optimizer steps. *)
Lemma epoch_steps_count (k n epoch : Z) :
  0 < k -> 0 <= n -> len (epoch_steps k n epoch) = (n + k - 1) / k.
Proof.
  intros Hk Hn. unfold epoch_steps, len. rewrite length_map.
  destruct (Z.eq_dec n 0) as [-> | Hn0].
  - simpl. rewrite Z.div_small by lia. reflexivity.
  - replace n with ((n - 1) + 1) at 2 by lia.
    rewrite range_snoc by lia.
    rewrite List.filter_app, length_app, Nat2Z.inj_add.
    assert (Hlast : steps_optimizer k n (n - 1) = true).
    { unfold steps_optimizer. replace (n - 1 + 1) with n by lia.
      rewrite Z.eqb_refl. apply orb_true_r. }
    simpl. rewrite Hlast. simpl.
    assert (Hpre : List.filter (steps_optimizer k n) (range 0 (n - 1)) =
                   List.filter (fun idx => (idx + 1) mod k =? 0) (range 0 (n - 1))).
    { apply List.filter_ext_in. intros idx Hin. unfold steps_optimizer.
      unfold range in Hin. apply in_map_iff in Hin as (i & <- & Hi).
      apply in_seq in Hi.
      replace (0 + Z.of_nat i + 1 =? n) with false
        by (symmetry; apply Z.eqb_neq; lia).
      apply orb_false_r. }
    rewrite Hpre.
    pose proof (multiples_count k (Z.to_nat (n - 1)) Hk) as Hc.
    unfold len in Hc. rewrite Z2Nat.id in Hc by lia. rewrite Hc.
    replace (n + k - 1) with ((n - 1) + 1 * k) by lia.
    rewrite Z.div_add by lia. reflexivity.
Qed.

(** The steps of a training loop that returns. *)
Lemma training_loop_steps fw local_rank args device tl el ws w cs w' :
  training_loop fw local_rank args device tl el ws w = (Ok cs, w') ->
  let n := Z.of_nat (loader_len fw tl) in
  let k := gradient_accumulation_steps args in
  exists t,
    trace w' = (trace w ++ t)%list /\
    optimizer_steps t =
    concat (map (epoch_steps k n) (range 0 (num_epochs args))) /\
    scheduler_steps t = Z.max 0 (num_epochs args) * n.
Proof.
  unfold training_loop. intros H. simpl.
  apply for_each_trace
    with (P := fun epoch t =>
                 optimizer_steps t =
                 epoch_steps (gradient_accumulation_steps args)
                   (Z.of_nat (loader_len fw tl)) epoch /\
                 scheduler_steps t = Z.of_nat (loader_len fw tl))
    in H as (ts & Hts & HF).
  - exists (concat ts). split; [exact Hts |].
    assert (Hlen : len (range 0 (num_epochs args)) = Z.max 0 (num_epochs args))
      by (unfold len; rewrite length_range; lia).
    rewrite <- Hlen. clear Hlen Hts.
    induction HF as [| epoch t l ts' [Ho Hs] _ [IH1 IH2]]; [split; reflexivity |].
    simpl concat. rewrite optimizer_steps_app, scheduler_steps_app, Ho, Hs, IH1, IH2.
    split; [reflexivity |]. unfold len. simpl length. lia.
  - intros epoch s w0 r w0' Hb. apply run_epoch_steps in Hb. exact Hb.
Qed.

(** X12.  A training loop that returns has stepped the optimizer on the
    gradient of one batch at a time, for each epoch at the passes whose
    number is a multiple of [gradient_accumulation_steps] and at the last
    pass: for positive [k], [n / k] rounded up steps per epoch of [n]
    batches. *)
Theorem optimizer_steps_of_training_loop
    fw local_rank args device tl el ws w cs w' :
  training_loop fw local_rank args device tl el ws w = (Ok cs, w') ->
  let n := Z.of_nat (loader_len fw tl) in
  let k := gradient_accumulation_steps args in
  optimizer_steps (since w w') =
  concat (map (fun epoch =>
                 map (fun idx => [(epoch, idx)])
                   (List.filter
                      (fun idx => ((idx + 1) mod k =? 0) || (idx + 1 =? n))
                      (range 0 n)))
            (range 0 (num_epochs args))) /\
  (0 < k ->
   len (optimizer_steps (since w w')) =
   Z.max 0 (num_epochs args) * ((n + k - 1) / k)).
Proof.
  intros H. apply training_loop_steps in H as (t & Ht & Ho & _). simpl.
  rewrite (since_app _ _ _ Ht), Ho. split; [reflexivity |].
  intros Hk.
  assert (Hlen : len (range 0 (num_epochs args)) = Z.max 0 (num_epochs args))
    by (unfold len; rewrite length_range; lia).
  rewrite <- Hlen. clear Hlen Ho Ht.
  induction (range 0 (num_epochs args)) as [| epoch l IH]; [reflexivity |].
  simpl concat. unfold len in *. rewrite length_app, Nat2Z.inj_add, IH.
  pose proof (epoch_steps_count (gradient_accumulation_steps args)
                (Z.of_nat (loader_len fw tl)) epoch Hk ltac:(lia)) as Hc.
  unfold len in Hc. rewrite Hc. simpl length. lia.
Qed.

Lemma optimizer_steps_of_training_loop_witness :
  let args := with_gradient_accumulation_steps 2 sample_args in
  let run :=
    training_loop (sample_framework (float_of_Z 1)) 1 args "cuda:1"
      (sample_loader "/train" 5) (sample_loader "/test" 5) 4 sample_world in
  run.1 = Ok 2 /\ len (optimizer_steps (since sample_world run.2)) = 1.
Proof.
  cbv zeta. split; [vm_compute; reflexivity |].
  refine (proj2 (optimizer_steps_of_training_loop (sample_framework (float_of_Z 1))
                   1 (with_gradient_accumulation_steps 2 sample_args) "cuda:1"
                   (sample_loader "/train" 5) (sample_loader "/test" 5) 4
                   sample_world 2 _ _) _).
  - vm_compute. reflexivity.
  - reflexivity.
Defined.

(** X11.  An epoch that returns has done this, in this order: set the
    epoch of the training sampler, put the model in training mode, made
    the passes of the training loop over the batches of [range(n)], waited
    at the barrier, put the model in evaluation mode, evaluated each batch
    of the evaluation loader once, and reported once, on local rank 0,
    with the steps completed so far; the evaluation loader yielded at
    least one batch. *)
Theorem completed_epoch_calls
    fw local_rank args device tl el ws epoch cs w r w' :
  run_epoch fw local_rank args device tl el ws epoch cs w = (Ok r, w') ->
  let n := Z.of_nat (loader_len fw tl) in
  let m := Z.of_nat (loader_len fw el) in
  exists passes lines,
    since w w' =
    (banner local_rank "######################### Train #########################"
     ++ [SetEpoch epoch; ModelTrain]
     ++ concat passes
     ++ [Barrier]
     ++ banner local_rank "######################### Eval #########################"
     ++ [ModelEval]
     ++ concat (map (fun idx => [EvalBatchTo epoch idx device; EvalForward epoch idx])
                  (range 0 m))
     ++ map PrintMetrics lines)%list /\
    Forall2 (fun idx t =>
               exists printed,
                 t = (pass_calls device epoch idx
                        (steps_optimizer (gradient_accumulation_steps args) n idx)
                      ++ map PrintMetrics printed)%list)
      (range 0 n) passes /\
    length lines = (if local_rank =? 0 then 1%nat else 0%nat) /\
    Forall (fun line => mt_epoch line = epoch /\ mt_steps line = cs + n) lines /\
    0 < m.
Proof.
  intros H. pose proof (run_epoch_evaluates _ _ _ _ _ _ _ _ _ _ _ _ H) as Hm.
  apply run_epoch_trace in H as (passes & lines & HF & Hlen & Hlines & Ht).
  exists passes, lines. split; [apply since_app; exact Ht |].
  split; [| split; [exact Hlen | split; [exact Hlines | lia]]].
  eapply Forall2_impl; [exact HF |].
  intros idx t (printed & -> & _). exists printed. reflexivity.
Qed.

Lemma completed_epoch_calls_witness :
  let run :=
    run_epoch (sample_framework fzero) 1 sample_args "cuda:1"
      (sample_loader "/train" 5) (sample_loader "/test" 5) 4 0 0 sample_world in
  run.1 = Ok 2 /\
  exists passes lines,
    since sample_world run.2 =
    ([SetEpoch 0; ModelTrain] ++ concat passes ++ [Barrier] ++ [ModelEval]
     ++ [EvalBatchTo 0 0 "cuda:1"; EvalForward 0 0]
     ++ map PrintMetrics lines)%list.
Proof.
  cbv zeta. split; [vm_compute; reflexivity |].
  destruct (completed_epoch_calls (sample_framework fzero) 1 sample_args "cuda:1"
              (sample_loader "/train" 5) (sample_loader "/test" 5) 4 0 0
              sample_world 2
              (run_epoch (sample_framework fzero) 1 sample_args "cuda:1"
                 (sample_loader "/train" 5) (sample_loader "/test" 5) 4 0 0
                 sample_world).2) as (passes & lines & H & _).
  - vm_compute. reflexivity.
  - exists passes, lines. exact H.
Defined.

(** ** Arguments without effect *)

Lemma parse_args_sample_count_and_steps fw cli count steps w :
  parse_args fw (with_sample_count_and_steps count steps cli) w =
  match parse_args fw cli w with
  | (Ok args, w') =>
      (Ok (with_train_sample_count count (with_steps_this_run steps args)), w')
  | (Raise e, w') => (Raise e, w')
  end.
Proof.
  unfold parse_args, bind, getenv, lift, ret. simpl.
  repeat match goal with
         | |- context [environ ?w !! ?k] => destruct (environ w !! k)
         | |- context [json_loads ?f ?t] => destruct (json_loads f t)
         | |- context [hosts_of_json ?j] => destruct (hosts_of_json j)
         | |- context [cli_num_gpus ?c] => destruct (cli_num_gpus c)
         | |- context [int_of_str ?f ?t] => destruct (int_of_str f t)
         end; reflexivity.
Qed.

Lemma bind_run {A B} (m : M A) (k : A -> M B) w :
  bind m k w =
  match m w with
  | (Ok a, w1) => k a w1
  | (Raise e, w1) => (Raise e, w1)
  end.
Proof. reflexivity. Qed.

Lemma prepare_sample_count_and_steps fw cli count steps w :
  prepare fw (with_sample_count_and_steps count steps cli) w =
  match prepare fw cli w with
  | (Ok args, w') =>
      (Ok (with_train_sample_count count (with_steps_this_run steps args)), w')
  | (Raise e, w') => (Raise e, w')
  end.
Proof.
  unfold prepare.
  rewrite (bind_run (parse_args fw (with_sample_count_and_steps count steps cli))),
    (bind_run (parse_args fw cli)), parse_args_sample_count_and_steps.
  destruct (parse_args fw cli w) as [[args | e] w1]; [| reflexivity].
  unfold bind, getenv, lift, print, emit, setenv, ret.
  destruct (environ w1 !! "SM_TRAINING_ENV") as [text |]; [| reflexivity].
  destruct (json_loads fw text) as [decoded | e]; [| reflexivity].
  destruct (getitem decoded "master_hostname") as [[| | | host | |] | e];
    reflexivity.
Qed.

(** X16.  [--train_sample_count] and [--steps_this_run] have no effect:
    a worker does the same whatever [train_sample_count] is, and so does
    the whole run whatever the two flags are. *)
Theorem sample_count_and_steps_have_no_effect fw :
  (forall local_rank args count w,
     worker fw local_rank (with_train_sample_count count args) w =
     worker fw local_rank args w) /\
  (forall cluster cli count steps w,
     main fw cluster (with_sample_count_and_steps count steps cli) w =
     main fw cluster cli w).
Proof.
  split; [reflexivity |].
  intros cluster cli count steps w. unfold main.
  rewrite prepare_sample_count_and_steps.
  destruct (prepare fw cli w) as [[args | e] w1]; reflexivity.
Qed.

(** ** What a process never emits

    The events of a part of the script are all [allowed], for every
    [allowed] that holds of the events other than checkpoints and metrics
    lines; metrics lines come from local rank 0 only and checkpoints from
    global rank 0 only.  The calls that build the objects of the worker
    come from the parts before the training loop only. *)

Section Emitting.

Variable fw : Framework.
Variable allowed : Event -> bool.

Hypothesis allowed_plain :
  forall ev, is_checkpoint ev = false -> is_metrics ev = false ->
             is_setup ev = false -> allowed ev = true.
Hypothesis allowed_setup : forall ev, is_setup ev = true -> allowed ev = true.

Local Abbreviation emits := (respects (emitting allowed)).

Lemma emitting_pure w o : emitting allowed w o w.
Proof. exists []. split; [symmetry; apply app_nil_r | constructor]. Qed.

Lemma emitting_seq w w1 w2 o :
  emitting allowed w None w1 -> emitting allowed w1 o w2 ->
  emitting allowed w o w2.
Proof.
  intros (t1 & E1 & H1) (t2 & E2 & H2). exists (t1 ++ t2)%list. split.
  - rewrite E2, E1, app_assoc. reflexivity.
  - apply Forall_app; split; assumption.
Qed.

Lemma emitting_log w o ev : allowed ev = true -> emitting allowed w o (log ev w).
Proof.
  intros H. exists [ev]. split; [reflexivity | repeat constructor; exact H].
Qed.

Lemma emits_ret {A} (a : A) : emits (ret a).
Proof. apply respects_ret, emitting_pure. Qed.

Lemma emits_lift {A} (r : result A) : emits (lift r).
Proof. apply respects_lift, emitting_pure. Qed.

Lemma emits_bind {A B} (m : M A) (k : A -> M B) :
  emits m -> (forall a, emits (k a)) -> emits (bind m k).
Proof. apply respects_bind, emitting_seq. Qed.

Lemma emits_when c (m : M unit) : emits m -> emits (when c m).
Proof. apply respects_when, emitting_pure. Qed.

Lemma emits_for_each {A S} (l : list A) (body : A -> S -> M S) (s : S) :
  (forall a s', emits (body a s')) -> emits (for_each l body s).
Proof. apply respects_for_each; [apply emitting_pure | apply emitting_seq]. Qed.

Lemma emitting_same_trace w o w' : trace w' = trace w -> emitting allowed w o w'.
Proof.
  intros H. exists []. split; [rewrite H; symmetry; apply app_nil_r | constructor].
Qed.

Lemma emits_timer : emits (timer fw).
Proof. intros w. apply emitting_same_trace. reflexivity. Qed.

Lemma emits_call_allowed ev : allowed ev = true -> emits (call fw ev).
Proof.
  intros H w. unfold call. destruct (raises fw ev); apply emitting_log, H.
Qed.

Lemma emits_call ev :
  is_checkpoint ev = false -> is_metrics ev = false -> is_setup ev = false ->
  emits (call fw ev).
Proof. intros H1 H2 H3. apply emits_call_allowed, allowed_plain; assumption. Qed.

Lemma emits_setup_call ev : is_setup ev = true -> emits (call fw ev).
Proof. intros H. apply emits_call_allowed, allowed_setup, H. Qed.

Lemma emits_emit ev :
  is_checkpoint ev = false -> is_metrics ev = false -> is_setup ev = false ->
  emits (emit ev).
Proof. intros H1 H2 H3 w. apply emitting_log, allowed_plain; assumption. Qed.

Lemma emits_print line : emits (print line).
Proof. apply emits_emit; reflexivity. Qed.

Lemma emits_zero_grad : emits (zero_grad fw).
Proof.
  apply emits_bind; [apply emits_call; reflexivity |].
  intros _ w. apply emitting_same_trace. reflexivity.
Qed.

Lemma emits_backward epoch idx : emits (backward fw epoch idx).
Proof.
  apply emits_bind; [apply emits_call; reflexivity |].
  intros _ w. apply emitting_same_trace. reflexivity.
Qed.

Lemma emits_optimizer_step : emits (optimizer_step fw).
Proof.
  intros w. unfold optimizer_step.
  apply (emits_call (OptimizerStep (grad w))); reflexivity.
Qed.

Ltac emit_step :=
  first
    [ apply emits_zero_grad
    | apply emits_backward
    | apply emits_optimizer_step
    | apply emits_when
    | apply emits_for_each
    | apply emits_print
    | apply emits_emit; reflexivity
    | apply emits_call; reflexivity
    | apply emits_setup_call; reflexivity
    | apply emits_timer
    | apply emits_ret
    | apply emits_lift
    | apply emits_bind
    | progress intros
    | match goal with
      | |- respects _ (let '(_, _) := ?p in _) => destruct p
      | |- respects _ (match ?x with _ => _ end) => destruct x
      | |- respects _ (if ?c then _ else _) => destruct c
      end ].

Lemma emits_seed_everything args : emits (seed_everything fw args).
Proof. unfold seed_everything. repeat emit_step. Qed.

Lemma emits_load_from_disk path : emits (load_from_disk fw path).
Proof. unfold load_from_disk. repeat emit_step. Qed.

Lemma emits_setup_data local_rank args ws gr train test :
  emits (setup_data fw local_rank args ws gr train test).
Proof. unfold setup_data, new_sampler, new_loader. repeat emit_step. Qed.

Lemma emits_setup_model local_rank args : emits (setup_model fw local_rank args).
Proof. unfold setup_model, load_model. repeat emit_step. Qed.

Lemma emits_setup_training local_rank args model train tl ws gr :
  emits (setup_training fw local_rank args model train tl ws gr).
Proof. unfold setup_training. repeat emit_step. Qed.

Lemma emits_report_metrics rank start_time loss epoch steps sc tc prefix :
  metrics_allowed allowed rank ->
  emits (report_metrics fw rank start_time loss epoch steps sc tc prefix).
Proof.
  intros Hm. unfold report_metrics.
  repeat first [ apply emits_bind | apply emits_lift | apply emits_timer
               | progress intros ].
  destruct (rank =? 0) eqn:E; simpl; [| apply emits_ret].
  destruct Hm as [Hm | Hm]; [apply Z.eqb_eq in E; contradiction |].
  intros w. apply emitting_log, Hm.
Qed.

Lemma emits_train_batch local_rank args device n spl tpl epoch idx cs :
  metrics_allowed allowed local_rank ->
  emits (train_batch fw local_rank args device n spl tpl epoch idx cs).
Proof.
  intros Hm. unfold train_batch.
  repeat first [apply emits_report_metrics; exact Hm | emit_step].
Qed.

Lemma emits_eval_batch device n epoch idx acc :
  emits (eval_batch fw device n epoch idx acc).
Proof. unfold eval_batch. repeat emit_step. Qed.

Lemma emits_run_epoch local_rank args device tl el ws epoch cs :
  metrics_allowed allowed local_rank ->
  emits (run_epoch fw local_rank args device tl el ws epoch cs).
Proof.
  intros Hm. unfold run_epoch.
  repeat first [ apply emits_report_metrics; exact Hm
               | apply emits_train_batch; exact Hm
               | apply emits_eval_batch | emit_step ].
Qed.

Lemma emits_training_loop local_rank args device tl el ws :
  metrics_allowed allowed local_rank ->
  emits (training_loop fw local_rank args device tl el ws).
Proof.
  intros Hm. unfold training_loop. apply emits_for_each. intros.
  apply emits_run_epoch, Hm.
Qed.

Lemma emits_save_checkpoint args gr run_start :
  checkpoint_allowed allowed gr ->
  emits (save_checkpoint fw args gr run_start).
Proof.
  intros Hc. unfold save_checkpoint.
  destruct (gr =? 0) eqn:E; simpl; [| apply emits_ret].
  destruct Hc as [Hc | Hc]; [apply Z.eqb_eq in E; contradiction |].
  repeat first [ apply emits_call_allowed, Hc; reflexivity | emit_step ].
Qed.

Lemma emits_run_training local_rank args run_start ws gr :
  metrics_allowed allowed local_rank -> checkpoint_allowed allowed gr ->
  emits (run_training fw local_rank args run_start ws gr).
Proof.
  intros Hm Hc. unfold run_training.
  repeat first
    [ apply emits_seed_everything | apply emits_load_from_disk
    | apply emits_setup_data | apply emits_setup_model
    | apply emits_setup_training
    | apply emits_training_loop; exact Hm
    | apply emits_save_checkpoint; exact Hc
    | emit_step ].
Qed.

(** The whole worker: the process group is set up with a call that is
    neither a checkpoint nor a metrics line. *)
Lemma emits_worker local_rank args :
  metrics_allowed allowed local_rank ->
  (forall node_id,
     index (current_host args) (hosts args) = Ok node_id ->
     checkpoint_allowed allowed (node_id * num_gpus args + local_rank)) ->
  emits (worker fw local_rank args).
Proof.
  intros Hm Hc w.
  destruct (index (current_host args) (hosts args)) as [node_id | e] eqn:Hidx.
  - rewrite (worker_run _ _ _ _ _ Hidx).
    destruct (raises fw _) as [e |].
    + simpl. eexists [_; _]. split; [reflexivity |].
      repeat constructor; apply allowed_plain; reflexivity.
    + eapply emitting_seq;
        [| apply emits_run_training; [exact Hm | apply Hc; reflexivity]].
      simpl. eexists [_; _; _]. split; [rewrite <- !app_assoc; reflexivity |].
      repeat constructor; apply allowed_plain; reflexivity.
  - apply index_raises in Hidx as [-> Hnot].
    rewrite (worker_unlisted_run _ _ _ _ Hnot). simpl.
    eexists [_]. split; [reflexivity |].
    repeat constructor; apply allowed_plain; reflexivity.
Qed.

End Emitting.

(** ** Metrics lines and checkpoints of a whole worker *)

Lemma reports_none (t : list Event) :
  Forall (fun ev => negb (is_metrics ev) = true) t -> reports t = [].
Proof.
  induction 1 as [| ev t Hev _ IH]; [reflexivity |].
  destruct ev; try discriminate Hev; exact IH.
Qed.

(** X7.  A worker whose local rank is not 0 prints no metrics line,
    however its run ends. *)
Theorem metrics_only_on_local_rank_0 fw local_rank args w :
  local_rank <> 0 ->
  reports (since w (worker fw local_rank args w).2) = [].
Proof.
  intros Hrank.
  destruct (emits_worker fw (fun ev => negb (is_metrics ev))) with
    (local_rank := local_rank) (args := args) (w := w) as (t & Ht & Hall).
  - intros ev _ -> _. reflexivity.
  - intros ev H. destruct ev; try discriminate H; reflexivity.
  - left. exact Hrank.
  - intros node_id _. right. intros path. split; reflexivity.
  - rewrite (since_app _ _ _ Ht). apply reports_none, Hall.
Qed.

Lemma metrics_only_on_local_rank_0_witness :
  1 <> 0 /\
  reports
    (since sample_world
       (worker (sample_framework fzero) 1 sample_args sample_world).2) = [].
Proof.
  split; [lia |].
  apply (metrics_only_on_local_rank_0 (sample_framework fzero) 1 sample_args
           sample_world).
  lia.
Defined.

Lemma checkpoints_app (t1 t2 : list Event) :
  checkpoints (t1 ++ t2) = (checkpoints t1 ++ checkpoints t2)%list.
Proof. apply omap_app. Qed.

Lemma checkpoints_none (t : list Event) :
  Forall (fun ev => negb (is_checkpoint ev) = true) t -> checkpoints t = [].
Proof.
  induction 1 as [| ev t Hev _ IH]; [reflexivity |].
  destruct ev; try discriminate Hev; exact IH.
Qed.

(** A part that saves no checkpoint, followed by a part that is
    [checkpointed]. *)
Lemma checkpointed_bind {A B} args gr (m : M A) (k : A -> M B) :
  respects (emitting (fun ev => negb (is_checkpoint ev))) m ->
  (forall a, respects (checkpointed args gr) (k a)) ->
  respects (checkpointed args gr) (bind m k).
Proof.
  intros Hm Hk w. unfold bind.
  specialize (Hm w). destruct (m w) as [[a | e] w1]; simpl in *.
  - destruct Hm as (t1 & E1 & H1). apply checkpoints_none in H1.
    specialize (Hk a w1). destruct (k a w1) as [r w2]. simpl in *.
    destruct Hk as (t2 & E2 & H2 & H3).
    exists (t1 ++ t2)%list. rewrite checkpoints_app, H1. simpl.
    split; [rewrite E2, E1, app_assoc; reflexivity |]. split; assumption.
  - destruct Hm as (t1 & E1 & H1). apply checkpoints_none in H1.
    exists t1. split; [exact E1 |]. split; [left; exact H1 | discriminate].
Qed.

Lemma checkpointed_save_checkpoint fw args gr run_start :
  respects (checkpointed args gr) (save_checkpoint fw args gr run_start).
Proof.
  intros w. unfold save_checkpoint.
  destruct (gr =? 0) eqn:E; simpl.
  - apply Z.eqb_eq in E. unfold_script.
    repeat (case_step fw; simpl);
      eexists; (split; [rewrite <- ?app_assoc; reflexivity |]); simpl;
      (split; [auto | try discriminate; auto]).
  - apply Z.eqb_neq in E. exists [].
    split; [symmetry; apply app_nil_r |]. split; [left; reflexivity |].
    intros _ H. contradiction.
Qed.

Lemma checkpointed_run_training fw local_rank args run_start ws gr :
  respects (checkpointed args gr)
    (run_training fw local_rank args run_start ws gr).
Proof.
  assert (Hplain : forall ev, is_checkpoint ev = false -> is_metrics ev = false ->
                              is_setup ev = false ->
                              negb (is_checkpoint ev) = true)
    by (intros ev -> _ _; reflexivity).
  assert (Hsetup : forall ev, is_setup ev = true ->
                              negb (is_checkpoint ev) = true)
    by (intros ev H; destruct ev; try discriminate H; reflexivity).
  assert (Hm : metrics_allowed (fun ev => negb (is_checkpoint ev)) local_rank)
    by (right; reflexivity).
  unfold run_training.
  repeat first
    [ apply checkpointed_save_checkpoint
    | apply checkpointed_bind;
        [ first [ apply emits_seed_everything | apply emits_load_from_disk
                | apply emits_setup_data | apply emits_setup_model
                | apply emits_setup_training | apply emits_training_loop ];
          assumption
        | intros ]
    | match goal with
      | |- respects _ (let '(_, _) := ?p in _) => destruct p
      end ].
Qed.

(** X15.  Of all the processes of a run, the one with global rank 0
    saves the checkpoint, once, to [model_dir/checkpoint.pt]: a worker
    saves nothing else, nothing at all when its global rank is not 0 or
    its host is not listed, and a worker of global rank 0 that returns has
    saved the checkpoint. *)
Theorem checkpoint_is_saved_by_global_rank_0 fw local_rank args w :
  let run := worker fw local_rank args w in
  let path := model_dir args +:+ "/checkpoint.pt" in
  let global_rank_is_0 :=
    exists node_id,
      index (current_host args) (hosts args) = Ok node_id /\
      node_id * num_gpus args + local_rank = 0 in
  (checkpoints (since w run.2) = [] \/
   global_rank_is_0 /\ checkpoints (since w run.2) = [path]) /\
  (run.1 = Ok tt -> global_rank_is_0 -> checkpoints (since w run.2) = [path]).
Proof.
  simpl.
  destruct (index (current_host args) (hosts args)) as [node_id | e] eqn:Hidx.
  - rewrite (worker_run _ _ _ _ _ Hidx).
    destruct (raises fw _) as [e |].
    + simpl. erewrite since_app by reflexivity. simpl.
      split; [left; reflexivity | discriminate].
    + match goal with
      | |- context [run_training fw ?lr ?a ?rs ?ws ?gr ?w0] =>
          destruct (checkpointed_run_training fw lr a rs ws gr w0)
            as (t & Ht & H1 & H2);
          destruct (run_training fw lr a rs ws gr w0) as [r w'] eqn:Erun
      end.
      simpl in *. erewrite since_app
        by (rewrite Ht, <- !app_assoc; reflexivity).
      rewrite !checkpoints_app. simpl. split.
      * destruct H1 as [H1 | [H0 H1]]; [left; exact H1 | right].
        split; [exists node_id; split; [reflexivity | exact H0] | exact H1].
      * intros -> (n & [= <-] & H0). apply H2; [reflexivity | exact H0].
  - apply index_raises in Hidx as [-> Hnot].
    rewrite (worker_unlisted_run _ _ _ _ Hnot). simpl.
    erewrite since_app by reflexivity. simpl.
    split; [left; reflexivity | discriminate].
Qed.

Lemma checkpoint_is_saved_by_global_rank_0_witness :
  let args := with_current_host "algo-1" sample_args in
  let run := worker (sample_framework fzero) 0 args sample_world in
  run.1 = Ok tt /\
  checkpoints (since sample_world run.2) = ["/opt/ml/model/checkpoint.pt"].
Proof.
  cbv zeta.
  assert (H : (worker (sample_framework fzero) 0
                 (with_current_host "algo-1" sample_args) sample_world).1 = Ok tt)
    by (vm_compute; reflexivity).
  split; [exact H |].
  apply (proj2 (checkpoint_is_saved_by_global_rank_0 (sample_framework fzero) 0
                  (with_current_host "algo-1" sample_args) sample_world)).
  - exact H.
  - exists 0. split; reflexivity.
Defined.

(** ** The ranks of the spawned workers *)

Lemma NoDup_range (lo hi : Z) : NoDup (range lo hi).
Proof.
  unfold range. apply NoDup_fmap_2; [| apply NoDup_seq].
  intros i j H. lia.
Qed.

Lemma elem_of_range (lo hi i : Z) : i ∈ range lo hi <-> lo <= i < hi.
Proof.
  unfold range. rewrite list_elem_of_fmap. split.
  - intros (k & -> & Hk). apply list_elem_of_In, in_seq in Hk. lia.
  - intros Hi. exists (Z.to_nat (i - lo)). split; [lia |].
    apply list_elem_of_In, in_seq. lia.
Qed.

(** The process group a worker initializes, among the events of its own
    run. *)
Lemma worker_init_calls fw local_rank args w node_id :
  index (current_host args) (hosts args) = Ok node_id ->
  init_calls (since w (worker fw local_rank args w).2) =
  [("nccl", len (hosts args) * num_gpus args,
    node_id * num_gpus args + local_rank)].
Proof.
  intros Hidx.
  destruct (propagates_worker fw local_rank args w) as (t & Ht & _).
  rewrite (since_app _ _ _ Ht).
  assert (H : init_calls (trace (worker fw local_rank args w).2) =
              (init_calls (trace w)
               ++ [("nccl", len (hosts args) * num_gpus args,
                    node_id * num_gpus args + local_rank)])%list).
  { rewrite (worker_run _ _ _ _ _ Hidx).
    destruct (raises fw _) as [e |]; simpl.
    - rewrite !init_calls_app. simpl. rewrite ?app_nil_r. reflexivity.
    - match goal with
      | |- context [run_training fw ?lr ?a ?rs ?ws ?gr ?w0] =>
          destruct (untouched_run_training fw lr a rs ws gr w0) as (_ & _ & ->)
      end.
      simpl. rewrite !init_calls_app. simpl. rewrite ?app_nil_r. reflexivity. }
  rewrite Ht, init_calls_app in H. apply app_inv_head in H. exact H.
Qed.

(** X5.  Once the launcher is prepared on a listed host, every worker it
    spawns initializes one process group, all with the same world size,
    each with a rank of its own below the world size: the ranks of the
    workers of one host are the [num_gpus] consecutive ranks from
    [node_id * num_gpus]. *)
Theorem spawned_workers_have_distinct_ranks fw cluster cli w args w1 node_id :
  prepare fw cli w = (Ok args, w1) ->
  index (current_host args) (hosts args) = Ok node_id ->
  let run := main fw cluster cli w in
  let world_size := len (hosts args) * num_gpus args in
  map (fun p => init_calls (since w1 p.2.2)) (workers run) =
  map (fun i => [("nccl", world_size, node_id * num_gpus args + i)])
    (range 0 (num_gpus args)) /\
  NoDup (map (fun p => init_calls (since w1 p.2.2)) (workers run)) /\
  forall i, i ∈ range 0 (num_gpus args) ->
            0 <= node_id * num_gpus args + i < world_size.
Proof.
  intros Hprep Hidx. simpl. unfold main. rewrite Hprep. cbn [workers].
  assert (Hmap : map (fun p => init_calls (since w1 p.2.2))
                   (spawn cluster worker (num_gpus args) args w1) =
                 map (fun i => [("nccl", len (hosts args) * num_gpus args,
                                 node_id * num_gpus args + i)])
                   (range 0 (num_gpus args))).
  { unfold spawn. rewrite map_map. apply map_ext. intros i. simpl.
    apply worker_init_calls, Hidx. }
  split; [exact Hmap |]. split.
  - rewrite Hmap. apply NoDup_fmap_2; [| apply NoDup_range].
    intros i j H. injection H as H. lia.
  - intros i Hi. apply elem_of_range in Hi.
    apply index_bounds in Hidx as [Hb _]. nia.
Qed.

Lemma spawned_workers_have_distinct_ranks_witness :
  let run :=
    main (sample_framework fzero) (sample_cluster (float_of_Z 3)) no_flags
      sample_world in
  let w1 := (prepare (sample_framework fzero) no_flags sample_world).2 in
  map (fun p => init_calls (since w1 p.2.2)) (workers run) =
  [[("nccl", 4, 2)]; [("nccl", 4, 3)]].
Proof.
  cbv zeta.
  refine (proj1 (spawned_workers_have_distinct_ranks (sample_framework fzero)
                   (sample_cluster (float_of_Z 3)) no_flags sample_world
                   sample_args
                   (prepare (sample_framework fzero) no_flags sample_world).2
                   1 _ _)).
  - vm_compute. reflexivity.
  - reflexivity.
Defined.

(** * The worker before its training loop *)

(** ** Parts that only make calls *)

Lemma extend_nil w : extend [] w = w.
Proof. destruct w. unfold extend. simpl. rewrite app_nil_r. reflexivity. Qed.

Lemma extend_app (t1 t2 : list Event) w :
  extend t2 (extend t1 w) = extend (t1 ++ t2) w.
Proof. unfold extend. simpl. rewrite app_assoc. reflexivity. Qed.

Lemma performs_ret {A} fw (v : A) : performs fw [] v (ret v).
Proof. intros w. simpl. rewrite extend_nil. split; reflexivity. Qed.

Lemma performs_call fw ev : performs fw [ev] tt (call fw ev).
Proof.
  intros w. unfold call. destruct (raises fw ev) as [e |] eqn:E.
  - exists [], ev. split; [reflexivity | split; [reflexivity | exact E]].
  - split; reflexivity.
Qed.

Lemma performs_bind {A B} fw calls1 calls2 (v1 : A) (v2 : B) m (k : A -> M B) :
  performs fw calls1 v1 m -> performs fw calls2 v2 (k v1) ->
  performs fw (calls1 ++ calls2) v2 (bind m k).
Proof.
  intros Hm Hk w. unfold bind. specialize (Hm w).
  destruct (m w) as [[a | e] w1].
  - destruct Hm as [-> ->]. specialize (Hk (extend calls1 w)).
    destruct (k v1 (extend calls1 w)) as [[b | e] w2].
    + destruct Hk as [-> ->]. rewrite extend_app. split; reflexivity.
    + destruct Hk as (t & ev & Hp & -> & Hev).
      exists (calls1 ++ t)%list, ev. rewrite <- app_assoc.
      split; [apply prefix_app, Hp |]. rewrite extend_app. split; [reflexivity | exact Hev].
  - destruct Hm as (t & ev & Hp & -> & Hev).
    exists t, ev. split; [apply prefix_app_r, Hp | split; [reflexivity | exact Hev]].
Qed.

Lemma performs_call_bind {B} fw ev calls (v : B) (k : unit -> M B) :
  performs fw calls v (k tt) -> performs fw (ev :: calls) v (bind (call fw ev) k).
Proof. apply (performs_bind fw [ev] calls tt v), performs_call. Qed.

Lemma performs_print fw line : performs fw [Print line] tt (print line).
Proof. intros w. split; reflexivity. Qed.

Lemma performs_print_bind {B} fw line calls (v : B) (k : unit -> M B) :
  performs fw calls v (k tt) ->
  performs fw (Print line :: calls) v (bind (print line) k).
Proof. apply (performs_bind fw [Print line] calls tt v), performs_print. Qed.

Lemma performs_ret_bind {A B} fw calls (a : A) (v : B) (k : A -> M B) :
  performs fw calls v (k a) -> performs fw calls v (bind (ret a) k).
Proof. intros H w. exact (H w). Qed.

Lemma performs_assoc {A B C} fw calls (v : C) (m : M A) (f : A -> M B)
    (g : B -> M C) :
  performs fw calls v (bind m (fun a => bind (f a) g)) ->
  performs fw calls v (bind (bind m f) g).
Proof.
  intros H w. specialize (H w). unfold bind in *.
  destruct (m w) as [[a | e] w1]; exact H.
Qed.

(** One step of a proof that a part performs its calls. *)
Ltac performs_step :=
  cbv beta;
  lazymatch goal with
  | |- performs _ _ _ (bind (bind _ _) _) => apply performs_assoc
  | |- performs _ _ _ (bind (ret _) _) => apply performs_ret_bind
  | |- performs _ _ _ (bind (call _ _) _) => apply performs_call_bind
  | |- performs _ _ _ (bind (print _) _) => apply performs_print_bind
  | |- performs _ _ _ (ret _) => apply performs_ret
  | |- performs _ _ _ (call _ _) => apply performs_call
  | |- performs _ _ _ (print _) => apply performs_print
  end.

Lemma performs_seed_everything fw args :
  performs fw (seed_calls args) tt (seed_everything fw args).
Proof. unfold seed_everything, seed_calls. repeat performs_step. Qed.

Lemma performs_load_from_disk fw path :
  performs fw [LoadFromDisk path] (built_dataset fw path) (load_from_disk fw path).
Proof. unfold load_from_disk, built_dataset. repeat performs_step. Qed.

Lemma performs_setup_data fw local_rank args ws gr :
  let train := built_dataset fw (training_dir args) in
  let test := built_dataset fw (test_dir args) in
  performs fw (data_calls fw local_rank args ws gr)
    (mkSampler train ws gr true, mkSampler test ws gr true,
     built_train_loader fw args ws gr, built_eval_loader fw args ws gr)
    (setup_data fw local_rank args ws gr train test).
Proof.
  unfold setup_data, data_calls, new_sampler, new_loader, built_train_loader,
    built_eval_loader, built_loader. cbv zeta.
  repeat performs_step.
Qed.

Lemma performs_load_model fw args :
  performs fw (load_calls fw args) (built_model fw args) (load_model fw args).
Proof.
  unfold load_model, load_calls, built_model.
  destruct (truthy_int (pretrain args)); simpl; repeat performs_step.
Qed.

Lemma performs_setup_model fw local_rank args :
  performs fw (model_calls fw local_rank args)
    (select_device fw local_rank, built_ddp fw local_rank args)
    (setup_model fw local_rank args).
Proof.
  unfold setup_model, model_calls, built_ddp. cbv zeta.
  apply performs_print_bind.
  eapply performs_bind; [apply performs_load_model |].
  repeat performs_step.
Qed.

Lemma performs_setup_training fw local_rank args ws gr :
  performs fw (training_calls fw local_rank args ws gr) tt
    (setup_training fw local_rank args (built_ddp fw local_rank args)
       (built_dataset fw (training_dir args))
       (built_train_loader fw args ws gr) ws gr).
Proof.
  unfold setup_training, training_calls. cbv zeta.
  destruct (gr =? 0); simpl; repeat performs_step.
Qed.

(** ** What comes after the calls *)

Lemma after_last {A B} fw calls (v : A) (m : M A) (k : A -> M B) :
  performs fw calls v m -> after fw calls v k (bind m k).
Proof.
  intros Hm w. unfold bind. specialize (Hm w).
  destruct (m w) as [[a | e] w1].
  - destruct Hm as [-> ->]. right. reflexivity.
  - destruct Hm as (t & ev & Hp & -> & Hev). left. eauto 6.
Qed.

Lemma after_bind {A B C} fw calls1 calls2 (v1 : A) (v2 : B) (m : M A)
    (k1 : A -> M C) (k : B -> M C) :
  performs fw calls1 v1 m -> after fw calls2 v2 k (k1 v1) ->
  after fw (calls1 ++ calls2) v2 k (bind m k1).
Proof.
  intros Hm Hk w. unfold bind. specialize (Hm w).
  destruct (m w) as [[a | e] w1].
  - destruct Hm as [-> ->].
    destruct (Hk (extend calls1 w)) as [(e & t & ev & Hr & Hp & Hev) | Hr].
    + left. exists e, (calls1 ++ t)%list, ev. rewrite Hr, extend_app, <- app_assoc.
      split; [reflexivity | split; [apply prefix_app, Hp | exact Hev]].
    + right. rewrite Hr, extend_app. reflexivity.
  - destruct Hm as (t & ev & Hp & -> & Hev). left.
    exists e, t, ev. split; [reflexivity | split; [apply prefix_app_r, Hp | exact Hev]].
Qed.

(** [run_training] makes the calls of [setup_calls] and goes on with the
    training loop and the checkpoint. *)
Lemma run_training_setup fw local_rank args run_start ws gr :
  after fw (setup_calls fw local_rank args ws gr) tt
    (fun _ =>
       completed_steps <-
         training_loop fw local_rank args (select_device fw local_rank)
           (built_train_loader fw args ws gr) (built_eval_loader fw args ws gr)
           ws ;;
       save_checkpoint fw args gr run_start)
    (run_training fw local_rank args run_start ws gr).
Proof.
  unfold run_training, setup_calls.
  eapply after_bind; [apply performs_seed_everything |].
  eapply after_bind; [apply performs_load_from_disk |].
  eapply after_bind; [apply performs_load_from_disk |].
  eapply after_bind; [apply performs_setup_data |]. cbv beta iota.
  eapply after_bind; [apply performs_setup_model |]. cbv beta iota.
  apply after_last. apply performs_setup_training.
Qed.

(** ** The calls of a whole worker *)

Lemma filter_not_setup (P : Event -> bool) (t : list Event) :
  (forall ev, P ev = true -> is_setup ev = true) ->
  Forall (fun ev => negb (is_setup ev) = true) t ->
  List.filter P t = [].
Proof.
  intros HP. induction 1 as [| ev t Hev _ IH]; [reflexivity |].
  simpl. destruct (P ev) eqn:E; [| exact IH].
  apply HP in E. rewrite E in Hev. discriminate Hev.
Qed.

Lemma filter_prefix (P : Event -> bool) (t l : list Event) :
  t `prefix_of` l -> List.filter P t `prefix_of` List.filter P l.
Proof. intros [k ->]. rewrite List.filter_app. apply prefix_app_r. reflexivity. Qed.

(** The training loop and the checkpoint make none of the calls of the
    parts before them. *)
Lemma loop_and_checkpoint_emit fw local_rank args device tl el ws gr run_start :
  respects (emitting (fun ev => negb (is_setup ev)))
    (completed_steps <- training_loop fw local_rank args device tl el ws ;;
     save_checkpoint fw args gr run_start).
Proof.
  assert (Hplain : forall ev, is_checkpoint ev = false -> is_metrics ev = false ->
                              is_setup ev = false -> negb (is_setup ev) = true)
    by (intros ev _ _ ->; reflexivity).
  apply emits_bind.
  - apply emits_training_loop; [exact Hplain | right; reflexivity].
  - intros _. apply emits_save_checkpoint; [exact Hplain |].
    right. intros path. split; reflexivity.
Qed.

Lemma filter_skip (P : Event -> bool) (ev : Event) (t : list Event) :
  (forall ev, P ev = true -> is_setup ev = true) ->
  is_setup ev = false ->
  List.filter P ([ev] ++ t) = List.filter P t.
Proof.
  intros HP Hev. simpl. destruct (P ev) eqn:E; [| reflexivity].
  apply HP in E. congruence.
Qed.

(** Of the calls of a worker on a listed host, those before the training
    loop are the calls of [setup_calls], in order: a prefix of them in
    every run, and all of them in a run that returns. *)
Lemma worker_setup_calls fw local_rank args w node_id (P : Event -> bool) :
  (forall ev, P ev = true -> is_setup ev = true) ->
  index (current_host args) (hosts args) = Ok node_id ->
  let ws := len (hosts args) * num_gpus args in
  let gr := node_id * num_gpus args + local_rank in
  let run := worker fw local_rank args w in
  List.filter P (since w run.2)
  `prefix_of` List.filter P (setup_calls fw local_rank args ws gr) /\
  (run.1 = Ok tt ->
   List.filter P (since w run.2) =
   List.filter P (setup_calls fw local_rank args ws gr)).
Proof.
  intros HP Hidx. cbv zeta.
  rewrite (worker_run _ _ _ _ _ Hidx). cbv zeta.
  destruct (raises fw _) as [e |].
  - cbn [fst snd]. erewrite since_app by (cbn [trace]; reflexivity).
    rewrite (filter_not_setup P _ HP) by (repeat constructor).
    split; [apply prefix_nil | discriminate].
  - match goal with
    | |- context [run_training fw ?lr ?a ?rs ?ws ?gr ?w0] =>
        destruct (run_training_setup fw lr a rs ws gr w0)
          as [(e & t & ev & -> & Hp & _) | ->]
    end.
    + cbn [fst snd].
      erewrite since_app
        by (unfold extend; cbn [trace]; rewrite <- !app_assoc; reflexivity).
      rewrite !(filter_skip P) by (try exact HP; reflexivity).
      split; [apply filter_prefix, Hp | discriminate].
    + match goal with
      | |- context [bind ?m ?k ?w0] =>
          destruct (loop_and_checkpoint_emit fw local_rank args
                      (select_device fw local_rank)
                      (built_train_loader fw args
                         (len (hosts args) * num_gpus args)
                         (node_id * num_gpus args + local_rank))
                      (built_eval_loader fw args
                         (len (hosts args) * num_gpus args)
                         (node_id * num_gpus args + local_rank))
                      (len (hosts args) * num_gpus args)
                      (node_id * num_gpus args + local_rank)
                      (timer_reading fw (clock w)) w0) as (t & Ht & Hall)
      end.
      erewrite since_app
        by (rewrite Ht; unfold extend; cbn [trace]; rewrite <- !app_assoc;
            reflexivity).
      rewrite !(filter_skip P) by (try exact HP; reflexivity).
      rewrite List.filter_app, (filter_not_setup P t HP Hall), app_nil_r.
      split; [reflexivity | intros _; reflexivity].
Qed.

(** A worker on a host that is not listed makes no call. *)
Lemma worker_unlisted_calls fw local_rank args w (P : Event -> bool) e :
  (forall ev, P ev = true -> is_setup ev = true) ->
  index (current_host args) (hosts args) = Raise e ->
  List.filter P (since w (worker fw local_rank args w).2) = [] /\
  (worker fw local_rank args w).1 <> Ok tt.
Proof.
  intros HP Hidx. apply index_raises in Hidx as [-> Hnot].
  rewrite (worker_unlisted_run _ _ _ _ Hnot). cbv zeta. cbn [fst snd].
  erewrite since_app by (cbn [trace]; reflexivity).
  rewrite (filter_not_setup P _ HP) by (repeat constructor).
  split; [reflexivity | discriminate].
Qed.

(** ** The model of the worker *)

Lemma model_calls_of_setup fw local_rank args ws gr :
  List.filter is_model_call (setup_calls fw local_rank args ws gr) =
  (load_calls fw args
   ++ [ModelTo (built_model fw args) (select_device fw local_rank);
       NewDistributedDataParallel (built_ddp fw local_rank args);
       NewAdamW (built_ddp fw local_rank args) (lr args)])%list.
Proof.
  unfold setup_calls, seed_calls, data_calls, model_calls, training_calls,
    load_calls.
  destruct (truthy_int (pretrain args)), (gr =? 0); reflexivity.
Qed.

Lemma device_calls_of_setup fw local_rank args ws gr :
  List.filter is_device_call (setup_calls fw local_rank args ws gr) =
  [ModelTo (built_model fw args) (select_device fw local_rank);
   NewDistributedDataParallel (built_ddp fw local_rank args)].
Proof.
  unfold setup_calls, seed_calls, data_calls, model_calls, training_calls,
    load_calls.
  destruct (truthy_int (pretrain args)), (gr =? 0); reflexivity.
Qed.

Lemma built_model_pretrain fw args :
  built_model fw args =
  let pretrained := pretrained_config fw (model_id args) in
  if pretrain args =? 0
  then mkModel pretrained (Pretrained (model_id args))
  else mkModel (mkConfig (cfg_of pretrained) (default_vocab_list fw)
                         (len (default_vocab_list fw)))
               RandomInit.
Proof.
  unfold built_model, truthy_int. destruct (pretrain args =? 0); reflexivity.
Qed.

Lemma load_calls_pretrain fw args :
  load_calls fw args =
  (([ModelFromPretrained (model_id args)] : list Event)
   ++ if pretrain args =? 0 then []
      else [NewEsmForMaskedLM (config (built_model fw args))])%list.
Proof.
  unfold load_calls, truthy_int. destruct (pretrain args =? 0); reflexivity.
Qed.

(** C6.  The model of a worker is the one the [pretrain] flag asks for:
    the checkpoint [model_id] with its pretrained weights when the flag is
    zero, and otherwise a model with random weights whose configuration is
    the checkpoint's with the default vocabulary list and its length as
    vocabulary size.  In every run of a worker the calls on the model are,
    in this order, [from_pretrained], the construction of the new model
    when the flag is not zero, and then, for that model, [model.to], the
    wrapper and the optimizer over its parameters: a prefix of these in a
    run that raises, all of them in a run that returns.  [load_model]
    returns that model and raises only what the framework raises. *)
Theorem load_model_pretrain fw local_rank args w :
  let run := worker fw local_rank args w in
  let pretrained := pretrained_config fw (model_id args) in
  let model :=
    if pretrain args =? 0
    then mkModel pretrained (Pretrained (model_id args))
    else mkModel (mkConfig (cfg_of pretrained) (default_vocab_list fw)
                           (len (default_vocab_list fw)))
                 RandomInit in
  let device := if cuda_is_available fw then "cuda:" +:+ str local_rank else "cpu" in
  let ddp := mkDDP model device [local_rank] true in
  let calls :=
    (([ModelFromPretrained (model_id args)] : list Event)
     ++ (if pretrain args =? 0 then [] else [NewEsmForMaskedLM (config model)])
     ++ [ModelTo model device; NewDistributedDataParallel ddp;
         NewAdamW ddp (lr args)])%list in
  List.filter is_model_call (since w run.2) `prefix_of` calls /\
  (run.1 = Ok tt -> List.filter is_model_call (since w run.2) = calls) /\
  forall w0,
    match load_model fw args w0 with
    | (Ok loaded, _) => loaded = model
    | (Raise e, w') => exists ev, ev ∈ since w0 w' /\ raises fw ev = Some e
    end.
Proof.
  cbv zeta.
  assert (Hsub : forall ev, is_model_call ev = true -> is_setup ev = true)
    by (intros ev H; destruct ev; try discriminate H; reflexivity).
  pose proof (built_model_pretrain fw args) as Hmodel. cbv zeta in Hmodel.
  rewrite <- Hmodel.
  assert (Hcalls :
            forall ws gr,
              List.filter is_model_call (setup_calls fw local_rank args ws gr) =
              (([ModelFromPretrained (model_id args)] : list Event)
               ++ (if pretrain args =? 0 then []
                   else [NewEsmForMaskedLM (config (built_model fw args))])
               ++ [ModelTo (built_model fw args)
                     (if cuda_is_available fw then "cuda:" +:+ str local_rank
                      else "cpu");
                   NewDistributedDataParallel
                     (mkDDP (built_model fw args)
                        (if cuda_is_available fw then "cuda:" +:+ str local_rank
                         else "cpu") [local_rank] true);
                   NewAdamW
                     (mkDDP (built_model fw args)
                        (if cuda_is_available fw then "cuda:" +:+ str local_rank
                         else "cpu") [local_rank] true) (lr args)])%list).
  { intros ws gr. rewrite model_calls_of_setup, load_calls_pretrain.
    rewrite <- app_assoc. reflexivity. }
  split; [| split].
  - destruct (index (current_host args) (hosts args)) as [node_id | e] eqn:Hidx.
    + rewrite <- (Hcalls (len (hosts args) * num_gpus args)
                   (node_id * num_gpus args + local_rank)).
      apply (worker_setup_calls fw local_rank args w node_id _ Hsub Hidx).
    + rewrite (proj1 (worker_unlisted_calls fw local_rank args w _ e Hsub Hidx)).
      apply prefix_nil.
  - destruct (index (current_host args) (hosts args)) as [node_id | e] eqn:Hidx.
    + rewrite <- (Hcalls (len (hosts args) * num_gpus args)
                   (node_id * num_gpus args + local_rank)).
      apply (worker_setup_calls fw local_rank args w node_id _ Hsub Hidx).
    + intros H.
      destruct (proj2 (worker_unlisted_calls fw local_rank args w _ e Hsub Hidx) H).
  - intros w0. pose proof (performs_load_model fw args w0) as H.
    destruct (load_model fw args w0) as [[loaded | e] w'].
    + destruct H as [-> _]. reflexivity.
    + destruct H as (t & ev & _ & -> & Hev). exists ev. split; [| exact Hev].
      erewrite since_app by reflexivity.
      apply elem_of_app. right. apply list_elem_of_singleton. reflexivity.
Qed.

Lemma load_model_pretrain_witness :
  let run := worker (sample_framework fzero) 1 sample_args sample_world in
  let model :=
    mkModel (mkConfig "facebook/esm2_t33_650M_UR50D" ["<cls>"; "<pad>"] 2)
      (Pretrained "facebook/esm2_t33_650M_UR50D") in
  let ddp := mkDDP model "cuda:1" [1] true in
  List.filter is_model_call (since sample_world run.2) =
  [ModelFromPretrained "facebook/esm2_t33_650M_UR50D"; ModelTo model "cuda:1";
   NewDistributedDataParallel ddp; NewAdamW ddp lr_default].
Proof.
  cbv zeta.
  destruct (load_model_pretrain (sample_framework fzero) 1 sample_args
              sample_world) as (_ & H & _).
  rewrite H by (vm_compute; reflexivity). vm_compute. reflexivity.
Defined.

(** ** The devices of the workers *)

(** C8.  Once the launcher is prepared, it spawns one worker per local
    rank of [range(num_gpus)], [num_gpus] of them, each running [worker]
    with its local rank.  The worker with local rank [r] places its model
    with two calls, in this order: [model.to] with "cuda:r" when CUDA is
    available and "cpu" otherwise, and DistributedDataParallel over the
    model with that device and [device_ids = [r]]; a worker that raises
    has made a prefix of the two calls, a worker that returns both. *)
Theorem workers_and_devices fw cluster cli w args w1 :
  prepare fw cli w = (Ok args, w1) ->
  let run := main fw cluster cli w in
  workers run =
  map (fun r => (r, worker (cluster r) r args w1)) (range 0 (num_gpus args)) /\
  length (workers run) = Z.to_nat (num_gpus args) /\
  forall r res wr,
    (r, (res, wr)) ∈ workers run ->
    let device :=
      if cuda_is_available (cluster r) then "cuda:" +:+ str r else "cpu" in
    let model := built_model (cluster r) args in
    let placed : list Event :=
      [ModelTo model device;
       NewDistributedDataParallel (mkDDP model device [r] true)] in
    0 <= r < num_gpus args /\
    (res, wr) = worker (cluster r) r args w1 /\
    List.filter is_device_call (since w1 wr) `prefix_of` placed /\
    (res = Ok tt -> List.filter is_device_call (since w1 wr) = placed).
Proof.
  intros Hprep. cbv zeta. unfold main. rewrite Hprep. cbn [workers].
  split; [reflexivity |]. split.
  - unfold spawn. rewrite length_map, length_range. f_equal. lia.
  - intros r res wr Hin. unfold spawn in Hin.
    apply list_elem_of_fmap in Hin as (i & Heq & Hi).
    injection Heq as -> Hrun. apply elem_of_range in Hi.
    split; [exact Hi |]. split; [exact Hrun |].
    assert (Hsub : forall ev, is_device_call ev = true -> is_setup ev = true)
      by (intros ev H; destruct ev; try discriminate H; reflexivity).
    assert (Hres : res = (worker (cluster i) i args w1).1) by (rewrite <- Hrun; reflexivity).
    assert (Hwr : wr = (worker (cluster i) i args w1).2) by (rewrite <- Hrun; reflexivity).
    rewrite Hres, Hwr. clear Hrun Hres Hwr.
    destruct (index (current_host args) (hosts args)) as [node_id | e] eqn:Hidx.
    + pose proof (worker_setup_calls (cluster i) i args w1 node_id _ Hsub Hidx)
        as H.
      cbv zeta in H. rewrite device_calls_of_setup in H. exact H.
    + destruct (worker_unlisted_calls (cluster i) i args w1 _ e Hsub Hidx)
        as [-> Hnot].
      split; [apply prefix_nil | intros H; destruct (Hnot H)].
Qed.

Lemma workers_and_devices_witness :
  let fw := sample_framework fzero in
  let cluster := sample_cluster (float_of_Z 3) in
  let w1 := (prepare fw no_flags sample_world).2 in
  let run := main fw cluster no_flags sample_world in
  let model :=
    mkModel (mkConfig "facebook/esm2_t33_650M_UR50D" ["<cls>"; "<pad>"] 2)
      (Pretrained "facebook/esm2_t33_650M_UR50D") in
  length (workers run) = 2%nat /\
  List.filter is_device_call (since w1 (worker (cluster 1) 1 sample_args w1).2) =
  [ModelTo model "cuda:1";
   NewDistributedDataParallel (mkDDP model "cuda:1" [1] true)].
Proof.
  cbv zeta.
  destruct (workers_and_devices (sample_framework fzero)
              (sample_cluster (float_of_Z 3)) no_flags sample_world sample_args
              (prepare (sample_framework fzero) no_flags sample_world).2)
    as (Hw & Hlen & Hdev); [vm_compute; reflexivity |].
  split; [exact Hlen |].
  destruct (Hdev 1
              (worker (sample_cluster (float_of_Z 3) 1) 1 sample_args
                 (prepare (sample_framework fzero) no_flags sample_world).2).1
              (worker (sample_cluster (float_of_Z 3) 1) 1 sample_args
                 (prepare (sample_framework fzero) no_flags sample_world).2).2)
    as (_ & _ & _ & H).
  - rewrite Hw. apply list_elem_of_fmap. exists 1. split.
    + destruct (worker _ _ _ _) as [res wr]. reflexivity.
    + apply elem_of_range. vm_compute. split; [discriminate | reflexivity].
  - rewrite H by (vm_compute; reflexivity). vm_compute. reflexivity.
Defined.

(** ** The scheduler of the worker *)

Lemma scheduler_calls_of_setup fw local_rank args ws gr :
  List.filter is_scheduler_call (setup_calls fw local_rank args ws gr) =
  [GetScheduler (lr_scheduler_type args) (num_warmup_steps args)
     (num_epochs args
      * Z.of_nat (loader_len fw (built_train_loader fw args ws gr)))].
Proof.
  unfold setup_calls, seed_calls, data_calls, model_calls, training_calls,
    load_calls.
  destruct (truthy_int (pretrain args)), (gr =? 0); reflexivity.
Qed.

Lemma scheduler_steps_of_setup fw local_rank args ws gr :
  scheduler_steps (setup_calls fw local_rank args ws gr) = 0.
Proof.
  unfold setup_calls, seed_calls, data_calls, model_calls, training_calls,
    load_calls.
  destruct (truthy_int (pretrain args)), (gr =? 0); reflexivity.
Qed.

Lemma scheduler_steps_of_save_checkpoint fw args gr run_start w :
  exists t,
    trace (save_checkpoint fw args gr run_start w).2 = (trace w ++ t)%list /\
    scheduler_steps t = 0.
Proof.
  unfold save_checkpoint, when, bind, call, print, emit, timer, log.
  destruct (gr =? 0); simpl.
  - destruct (raises fw (Makedirs _)); simpl;
      [eexists; split; [reflexivity | reflexivity] |].
    destruct (raises fw (TorchSave _)); simpl;
      eexists; (split; [rewrite <- ?app_assoc; reflexivity | reflexivity]).
  - exists []. split; [symmetry; apply app_nil_r | reflexivity].
Qed.

(** A worker that returns has stepped the scheduler once per batch. *)
Lemma worker_scheduler_steps fw local_rank args w node_id :
  index (current_host args) (hosts args) = Ok node_id ->
  let ws := len (hosts args) * num_gpus args in
  let gr := node_id * num_gpus args + local_rank in
  let run := worker fw local_rank args w in
  run.1 = Ok tt ->
  scheduler_steps (since w run.2) =
  Z.max 0 (num_epochs args)
  * Z.of_nat (loader_len fw (built_train_loader fw args ws gr)).
Proof.
  intros Hidx. cbv zeta.
  rewrite (worker_run _ _ _ _ _ Hidx). cbv zeta.
  destruct (raises fw _) as [e |]; [discriminate |].
  match goal with
  | |- context [run_training fw ?lr ?a ?rs ?ws ?gr ?w0] =>
      destruct (run_training_setup fw lr a rs ws gr w0)
        as [(e & t & ev & -> & _) | ->]
  end; [discriminate |].
  match goal with
  | |- context [bind ?m ?k ?w0] =>
      destruct (bind m k w0) as [[[] | e] w8] eqn:E
  end; [| discriminate].
  intros _. cbn [fst snd].
  apply bind_returns in E as (cs & w7 & Hloop & Hsave).
  apply training_loop_steps in Hloop as (t & Ht & _ & Hs). cbv zeta in Hs.
  destruct (scheduler_steps_of_save_checkpoint fw args
              (node_id * num_gpus args + local_rank)
              (timer_reading fw (clock w)) w7) as (t2 & Ht2 & Hs2).
  rewrite Hsave in Ht2. cbn [snd] in Ht2.
  erewrite since_app
    by (rewrite Ht2, Ht; unfold extend; cbn [trace]; rewrite <- !app_assoc;
        reflexivity).
  rewrite !scheduler_steps_app, Hs, Hs2, scheduler_steps_of_setup.
  change (scheduler_steps [Print _]) with 0.
  change (scheduler_steps [InitProcessGroup _ _ _]) with 0.
  lia.
Qed.

(** X13.  The scheduler of a worker is built once, for the arguments'
    scheduler type and warmup steps and for [num_epochs * n] training
    steps, [n] the length of the training loader of the worker; a worker
    that returns has stepped it once per batch, the non-negative part of
    [num_epochs] times [n], as often as its training loop counted
    completed steps. *)
Theorem scheduler_steps_of_worker fw local_rank args w node_id :
  index (current_host args) (hosts args) = Ok node_id ->
  let world_size := len (hosts args) * num_gpus args in
  let global_rank := node_id * num_gpus args + local_rank in
  let run := worker fw local_rank args w in
  let n :=
    Z.of_nat (loader_len fw (built_train_loader fw args world_size global_rank)) in
  let scheduler : list Event :=
    [GetScheduler (lr_scheduler_type args) (num_warmup_steps args)
       (num_epochs args * n)] in
  List.filter is_scheduler_call (since w run.2) `prefix_of` scheduler /\
  (run.1 = Ok tt ->
   List.filter is_scheduler_call (since w run.2) = scheduler /\
   scheduler_steps (since w run.2) = Z.max 0 (num_epochs args) * n) /\
  (forall device tl el ws w0 cs w',
     training_loop fw local_rank args device tl el ws w0 = (Ok cs, w') ->
     scheduler_steps (since w0 w') = cs /\
     cs = Z.max 0 (num_epochs args) * Z.of_nat (loader_len fw tl)).
Proof.
  intros Hidx. cbv zeta.
  assert (Hsub : forall ev, is_scheduler_call ev = true -> is_setup ev = true)
    by (intros ev H; destruct ev; try discriminate H; reflexivity).
  pose proof (worker_setup_calls fw local_rank args w node_id _ Hsub Hidx) as H.
  cbv zeta in H. rewrite scheduler_calls_of_setup in H.
  destruct H as [Hp He].
  split; [exact Hp |]. split.
  - intros Hok. split; [exact (He Hok) |].
    apply (worker_scheduler_steps fw local_rank args w node_id Hidx Hok).
  - intros device tl el ws w0 cs w' H.
    pose proof (training_loop_returns _ _ _ _ _ _ _ _ _ _ H) as Hcs.
    apply training_loop_steps in H as (t & Ht & _ & Hs).
    rewrite (since_app _ _ _ Ht), Hs. split; [symmetry |]; exact Hcs.
Qed.

Lemma scheduler_steps_of_worker_witness :
  let run := worker (sample_framework fzero) 1 sample_args sample_world in
  List.filter is_scheduler_call (since sample_world run.2) =
  [GetScheduler "linear" 0 2] /\
  scheduler_steps (since sample_world run.2) = 2.
Proof.
  cbv zeta.
  destruct (scheduler_steps_of_worker (sample_framework fzero) 1 sample_args
              sample_world 1) as (_ & H & _); [reflexivity |].
  destruct H as [Hc Hs]; [vm_compute; reflexivity |].
  split.
  - rewrite Hc. vm_compute. reflexivity.
  - rewrite Hs. vm_compute. reflexivity.
Defined.

(** ** The loaders of the worker *)

Lemma data_calls_of_setup fw local_rank args ws gr :
  List.filter is_data_call (setup_calls fw local_rank args ws gr) =
  [NewDistributedSampler
     (mkSampler (built_dataset fw (training_dir args)) ws gr true);
   NewDistributedSampler
     (mkSampler (built_dataset fw (test_dir args)) ws gr true);
   NewDataLoader (built_train_loader fw args ws gr);
   NewDataLoader (built_eval_loader fw args ws gr)].
Proof.
  unfold setup_calls, seed_calls, data_calls, model_calls, training_calls,
    load_calls.
  destruct (truthy_int (pretrain args)), (gr =? 0); reflexivity.
Qed.

Lemma built_loader_rows dataset args batch_size ws gr :
  0 < ds_len dataset -> 0 < ws ->
  built_loader dataset args batch_size ws gr =
  mkDataLoader dataset
    (mkCollator (mkTokenizer (model_id args) (Some (max_length args)))
       mlm_probability)
    batch_size (mkSampler dataset ws gr true) false.
Proof.
  intros Hrows Hws. unfold built_loader, built_collator. cbv zeta.
  rewrite truthy_sampler_rows by assumption. reflexivity.
Qed.

(** X14.  In a process whose datasets have rows, with a positive number
    of GPUs, the worker builds, in this order, the samplers of the
    training and the test set, each for [world_size] replicas at the
    global rank of the process and shuffling, and then one loader over
    each dataset with its sampler and with [shuffle=False] of its own; a
    worker that raises has built a prefix of the four, a worker that
    returns all of them. *)
Theorem loaders_do_not_shuffle fw local_rank args w node_id :
  index (current_host args) (hosts args) = Ok node_id ->
  0 < num_gpus args ->
  0 < dataset_len fw (training_dir args) ->
  0 < dataset_len fw (test_dir args) ->
  let run := worker fw local_rank args w in
  let world_size := len (hosts args) * num_gpus args in
  let global_rank := node_id * num_gpus args + local_rank in
  let train := mkDataset (training_dir args) (dataset_len fw (training_dir args)) in
  let test := mkDataset (test_dir args) (dataset_len fw (test_dir args)) in
  let collator :=
    mkCollator (mkTokenizer (model_id args) (Some (max_length args)))
      mlm_probability in
  let train_sampler := mkSampler train world_size global_rank true in
  let test_sampler := mkSampler test world_size global_rank true in
  let built : list Event :=
    [NewDistributedSampler train_sampler;
     NewDistributedSampler test_sampler;
     NewDataLoader
       (mkDataLoader train collator (per_device_train_batch_size args)
          train_sampler false);
     NewDataLoader
       (mkDataLoader test collator (per_device_eval_batch_size args)
          test_sampler false)] in
  List.filter is_data_call (since w run.2) `prefix_of` built /\
  (run.1 = Ok tt -> List.filter is_data_call (since w run.2) = built).
Proof.
  intros Hidx Hgpus Htrain Htest. cbv zeta.
  assert (Hsub : forall ev, is_data_call ev = true -> is_setup ev = true)
    by (intros ev H; destruct ev; try discriminate H; reflexivity).
  assert (Hws : 0 < len (hosts args) * num_gpus args).
  { apply index_bounds in Hidx. unfold len in *. nia. }
  pose proof (worker_setup_calls fw local_rank args w node_id _ Hsub Hidx) as H.
  cbv zeta in H. rewrite data_calls_of_setup in H.
  unfold built_train_loader, built_eval_loader, built_dataset in H.
  rewrite !built_loader_rows in H by assumption.
  exact H.
Qed.

Lemma loaders_do_not_shuffle_witness :
  let run := worker (sample_framework fzero) 1 sample_args sample_world in
  let train := mkDataset "/train" 5 in
  let test := mkDataset "/test" 5 in
  List.filter is_data_call (since sample_world run.2) =
  [NewDistributedSampler (mkSampler train 4 3 true);
   NewDistributedSampler (mkSampler test 4 3 true);
   NewDataLoader
     (mkDataLoader train sample_collator 8 (mkSampler train 4 3 true) false);
   NewDataLoader
     (mkDataLoader test sample_collator 8 (mkSampler test 4 3 true) false)].
Proof.
  cbv zeta.
  destruct (loaders_do_not_shuffle (sample_framework fzero) 1 sample_args
              sample_world 1) as [_ H];
    [reflexivity | reflexivity | reflexivity | reflexivity |].
  rewrite H by (vm_compute; reflexivity). vm_compute. reflexivity.
Defined.

(** * The exceptions of a run *)

(** ** The operations of the script *)

Lemma own_not_caught fw {A} op (r : result A) e :
  own fw op r -> ~ caught (op, Some e).
Proof. destruct 1; simpl; tauto. Qed.

(** Nothing but the caught exception is swallowed in a run. *)
Lemma evaluated_uncaught fw {A} (m : M A) w ops :
  evaluated fw m w ops -> uncaught ops (outcome (m w).1).
Proof.
  induction 1 as [A value next w | ev w | w | w | key w | A op r w Hown | x w
                  | A B m k w a w1 ops1 ops2 _ IH1 Hm _ IH2
                  | A B m k w e w1 ops _ IH Hm].
  - constructor.
  - unfold call. destruct (raises fw (ev w)) as [e |] eqn:E; simpl.
    + exists [], (FrameworkCall (ev w)). repeat split; [constructor | tauto].
    + repeat constructor.
  - destruct (get_world_size w) as [[n | e] w1]; simpl.
    + repeat constructor.
    + exists [], GroupQuery. repeat split; [constructor | tauto].
  - destruct (get_rank w) as [[n | e] w1]; simpl.
    + repeat constructor.
    + exists [], GroupQuery. repeat split; [constructor | tauto].
  - destruct (getenv key w) as [[v | e] w1]; simpl.
    + repeat constructor.
    + exists [], (Environ key). repeat split; [constructor | tauto].
  - unfold lift. simpl. destruct r as [a | e]; simpl.
    + repeat constructor.
    + exists [], op. repeat split; [constructor |].
      apply (own_not_caught fw op (Raise e) e Hown).
  - unfold lift, calc_perplexity, try_except. simpl.
    destruct (math_exp (libm_exp fw) x) as [p | e]; simpl.
    + repeat constructor.
    + destruct (decide (e = OverflowError)) as [-> | Hne]; simpl.
      * constructor; [right; exact I | constructor].
      * exists [], (Exp x). repeat split; [constructor |].
        destruct e; simpl; tauto.
  - rewrite Hm in IH1. simpl in IH1.
    unfold bind. rewrite Hm.
    destruct (outcome (k a w1).1) as [e |]; simpl in *.
    + destruct IH2 as (t & op & -> & Ht & Hop).
      exists (ops1 ++ t)%list, op. rewrite app_assoc.
      repeat split; [apply Forall_app; split; assumption | exact Hop].
    + apply Forall_app; split; assumption.
  - unfold bind. rewrite Hm. rewrite Hm in IH. exact IH.
Qed.

Section Logs.

Variable fw : Framework.

Lemma logs_returns {A} (value : World -> A) (next : World -> World) :
  logs fw (fun w => (Ok (value w), next w)).
Proof. intros w. eexists. apply evaluated_returns. Qed.

Lemma logs_ret {A} (a : A) : logs fw (ret a).
Proof. apply (logs_returns (fun _ => a) (fun w => w)). Qed.

Lemma logs_emit ev : logs fw (emit ev).
Proof. apply (logs_returns (fun _ => tt) (log ev)). Qed.

Lemma logs_print line : logs fw (print line).
Proof. apply logs_emit. Qed.

Lemma logs_setenv key value : logs fw (setenv key value).
Proof.
  apply (logs_returns (fun _ => tt)
           (fun w => mkWorld (<[key := value]> (environ w)) (process_group w)
                       (clock w) (grad w) (trace w))).
Qed.

Lemma logs_timer : logs fw (timer fw).
Proof.
  apply (logs_returns (fun w => timer_reading fw (clock w))
           (fun w => mkWorld (environ w) (process_group w) (S (clock w))
                       (grad w) (trace w))).
Qed.

Lemma logs_call ev : logs fw (call fw ev).
Proof. intros w. eexists. apply (evaluated_call fw (fun _ => ev)). Qed.

Lemma logs_optimizer_step : logs fw (optimizer_step fw).
Proof.
  intros w. eexists.
  apply (evaluated_call fw (fun w => OptimizerStep (grad w))).
Qed.

Lemma logs_getenv key : logs fw (getenv key).
Proof. intros w. eexists. apply evaluated_getenv. Qed.

Lemma logs_get_world_size : logs fw get_world_size.
Proof. intros w. eexists. apply evaluated_get_world_size. Qed.

Lemma logs_get_rank : logs fw get_rank.
Proof. intros w. eexists. apply evaluated_get_rank. Qed.

Lemma logs_own {A} op (r : result A) : own fw op r -> logs fw (lift r).
Proof. intros H w. eexists. apply evaluated_own, H. Qed.

Lemma logs_calc_perplexity x : logs fw (lift (calc_perplexity fw x)).
Proof. intros w. eexists. apply evaluated_handler. Qed.

Lemma logs_bind {A B} (m : M A) (k : A -> M B) :
  logs fw m -> (forall a, logs fw (k a)) -> logs fw (bind m k).
Proof.
  intros Hm Hk w. destruct (Hm w) as [ops1 H1].
  destruct (m w) as [[a | e] w1] eqn:E.
  - destruct (Hk a w1) as [ops2 H2]. exists (ops1 ++ ops2)%list.
    eapply evaluated_bind; eassumption.
  - exists ops1. eapply evaluated_raise; eassumption.
Qed.

Lemma logs_when c (m : M unit) : logs fw m -> logs fw (when c m).
Proof. intros H. destruct c; [exact H | apply logs_ret]. Qed.

Lemma logs_for_each {A S} (l : list A) (body : A -> S -> M S) (s : S) :
  (forall a s', logs fw (body a s')) -> logs fw (for_each l body s).
Proof.
  intros Hbody. revert s. induction l as [| a l IH]; intros s; simpl.
  - apply logs_ret.
  - apply logs_bind; [apply Hbody | exact IH].
Qed.

Ltac log_step :=
  first
    [ apply logs_optimizer_step
    | apply logs_when
    | apply logs_for_each
    | apply logs_print
    | apply logs_emit
    | apply logs_setenv
    | apply logs_getenv
    | apply logs_get_world_size
    | apply logs_get_rank
    | apply logs_call
    | apply logs_timer
    | apply logs_ret
    | apply logs_calc_perplexity
    | lazymatch goal with
      | |- logs _ (lift (json_loads _ _)) => eapply logs_own; apply own_json_loads
      | |- logs _ (lift (getitem _ _)) => eapply logs_own; apply own_subscript
      | |- logs _ (lift (hosts_of_json _)) => eapply logs_own; apply own_type_list
      | |- logs _ (lift (index _ _)) => eapply logs_own; apply own_index
      | |- logs _ (lift (mod_ _ _)) => eapply logs_own; apply own_mod
      | |- logs _ (lift (int_truediv_float _ _)) => eapply logs_own; apply own_truediv
      | |- logs _ (lift (detach_float _)) => eapply logs_own; apply own_detach
      | |- logs _ (lift (match ?j with JStr _ => _ | _ => _ end)) =>
          eapply logs_own; apply (own_set_environ fw j)
      end
    | apply logs_bind
    | progress intros
    | lazymatch goal with
      | |- logs _ (fun w => (Ok tt, _)) =>
          apply (logs_returns (fun _ => tt))
      end
    | match goal with
      | |- logs _ (let '(_, _) := ?p in _) => destruct p
      | |- logs _ (if ?c then _ else _) => destruct c
      end ].

Lemma logs_report_metrics rank start_time loss epoch steps sc tc prefix :
  logs fw (report_metrics fw rank start_time loss epoch steps sc tc prefix).
Proof. unfold report_metrics. repeat log_step. Qed.

Lemma logs_train_batch local_rank args device n spl tpl epoch idx cs :
  logs fw (train_batch fw local_rank args device n spl tpl epoch idx cs).
Proof.
  unfold train_batch, zero_grad, backward.
  repeat first [apply logs_report_metrics | log_step].
Qed.

Lemma logs_eval_batch device n epoch idx acc :
  logs fw (eval_batch fw device n epoch idx acc).
Proof. unfold eval_batch. repeat log_step. Qed.

Lemma logs_run_epoch local_rank args device tl el ws epoch cs :
  logs fw (run_epoch fw local_rank args device tl el ws epoch cs).
Proof.
  unfold run_epoch.
  repeat first [ apply logs_report_metrics | apply logs_train_batch
               | apply logs_eval_batch | log_step ].
Qed.

Lemma logs_training_loop local_rank args device tl el ws :
  logs fw (training_loop fw local_rank args device tl el ws).
Proof.
  unfold training_loop. apply logs_for_each. intros. apply logs_run_epoch.
Qed.

Lemma logs_setup_data local_rank args ws gr train test :
  logs fw (setup_data fw local_rank args ws gr train test).
Proof. unfold setup_data, new_sampler, new_loader. repeat log_step. Qed.

Lemma logs_setup_model local_rank args : logs fw (setup_model fw local_rank args).
Proof. unfold setup_model, load_model. repeat log_step. Qed.

Lemma logs_setup_training local_rank args model train tl ws gr :
  logs fw (setup_training fw local_rank args model train tl ws gr).
Proof. unfold setup_training. repeat log_step. Qed.

Lemma logs_save_checkpoint args gr run_start :
  logs fw (save_checkpoint fw args gr run_start).
Proof. unfold save_checkpoint. repeat log_step. Qed.

Lemma logs_run_training local_rank args run_start ws gr :
  logs fw (run_training fw local_rank args run_start ws gr).
Proof.
  unfold run_training, seed_everything, load_from_disk.
  repeat first
    [ apply logs_setup_data | apply logs_setup_model
    | apply logs_setup_training | apply logs_training_loop
    | apply logs_save_checkpoint | log_step ].
Qed.

Lemma logs_init_distributed local_rank args :
  logs fw (init_distributed fw local_rank args).
Proof. unfold init_distributed, init_process_group. repeat log_step. Qed.

Lemma logs_worker local_rank args : logs fw (worker fw local_rank args).
Proof.
  unfold worker.
  repeat first [ apply logs_init_distributed | apply logs_run_training
               | log_step ].
Qed.

Lemma logs_parse_args cli : logs fw (parse_args fw cli).
Proof.
  unfold parse_args.
  repeat first
    [ log_step
    | match goal with
      | |- logs _ (match cli_num_gpus ?c with _ => _ end) =>
          destruct (cli_num_gpus c)
      | |- logs _ (match int_of_str ?f ?t with _ => _ end) =>
          let E := fresh "E" in
          destruct (int_of_str f t) eqn:E;
          [| eapply logs_own; apply own_type_int, E]
      end ].
Qed.

Lemma logs_prepare cli : logs fw (prepare fw cli).
Proof. unfold prepare. repeat first [apply logs_parse_args | log_step]. Qed.

End Logs.

(** ** The handler and what it leaves alone *)


